(** * Call-completion usage billing reconciliation (otto-server)

    A shallow embedding of the usage-metering path of the server:

    - [storage]: the call-log queries of [DatabaseStorage]
      (markUsageRecorded, updateCallLog, the look-ups of the status callback
      and the two sweeper queries);
    - [stripeService]: [recordUsage] and [reportOveragesToStripe];
    - [routes]: the handler of POST /twiml/status/:restaurantId;
    - [WaitTimeResetScheduler] and [MenuOverrideResetScheduler].

    Conventions of the model.

    - A table is the list of its rows; UPDATE ... WHERE ... RETURNING maps
      over the rows, so nothing is assumed about keys being unique.
    - Timestamps (JS [Date], SQL [timestamp]) are integers, milliseconds.
    - Every awaited database or provider call goes through [perform]: it is
      written to the trace with its outcome, and it throws when the fault
      oracle of the environment says so.  A faulted call has no effect.
    - [console] and [trace] grow at the head (newest entry first).
    - Strings are sequences of code units below 256.
    - Columns that the modelled code neither reads nor writes are left out
      of [CallLog], [User], [UsageRecord] and [SubscriptionPrice]. *)

From Stdlib Require Import ZArith String Ascii List Bool Lia.
From stdpp Require Import base decidable list numbers strings pretty.

Local Open Scope string_scope.
Local Open Scope list_scope.
Local Open Scope Z_scope.

(** ** JavaScript primitives *)

Module Js.

(** A JS number as far as this code produces them: an integer or NaN. *)
Inductive number : Type :=
| Num (z : Z)
| NaN.

(** Truthiness of a string value ([undefined] is [None]). *)
Definition truthy (v : option string) : bool :=
  match v with
  | Some s => negb (String.eqb s "")
  | None => false
  end.

(** StrWhiteSpaceChar restricted to code units below 256. *)
Definition isWhiteSpace (c : ascii) : bool :=
  let n := N_of_ascii c in
  ((9 <=? n) && (n <=? 13) || (n =? 32) || (n =? 160))%N.

Fixpoint trimStart (s : string) : string :=
  match s with
  | String c s' => if isWhiteSpace c then trimStart s' else s
  | EmptyString => s
  end.

Definition digitValue (radix : Z) (c : ascii) : option Z :=
  let n := Z.of_N (N_of_ascii c) in
  let v :=
    if (48 <=? n) && (n <=? 57) then Some (n - 48)
    else if (97 <=? n) && (n <=? 122) then Some (n - 87)
    else if (65 <=? n) && (n <=? 90) then Some (n - 55)
    else None in
  match v with
  | Some d => if d <? radix then Some d else None
  | None => None
  end.

(** Value of the longest prefix of radix digits; [acc] is [None] until a
    digit has been read. *)
Fixpoint digits (radix : Z) (s : string) (acc : option Z) : option Z :=
  match s with
  | String c s' =>
      match digitValue radix c with
      | Some d => digits radix s' (Some (default 0 acc * radix + d))
      | None => acc
      end
  | EmptyString => acc
  end.

(** [parseInt(string)] with no radix argument. *)
Definition parseInt (input : string) : number :=
  let s := trimStart input in
  let '(sign, s) :=
    match s with
    | String "-" r => (-1, r)
    | String "+" r => (1, r)
    | _ => (1, s)
    end in
  let '(radix, s) :=
    match s with
    | String "0" (String "x" r) => (16, r)
    | String "0" (String "X" r) => (16, r)
    | _ => (10, s)
    end in
  match digits radix s None with
  | Some v => Num (sign * v)
  | None => NaN
  end.

Fixpoint allDigits (s : string) : bool :=
  match s with
  | String c s' => bool_decide (is_Some (digitValue 10 c)) && allDigits s'
  | EmptyString => true
  end.

Fixpoint trimEndAux (s : string) : string * bool :=
  match s with
  | String c s' =>
      let '(t, blank) := trimEndAux s' in
      if blank && isWhiteSpace c then (EmptyString, true) else (String c t, false)
  | EmptyString => (EmptyString, true)
  end.

Definition trim (s : string) : string := fst (trimEndAux (trimStart s)).

(** [Number(v)] for a string: blank is 0, a signed run of decimal digits
    is its value.  Fractions, exponents, prefixed literals and Infinity
    are not integers and are outside this model; they are mapped to NaN.
    [durationSeconds_Number_blank] shows that the handler calls it on
    the empty string only. *)
Definition Number_ (s : string) : number :=
  let t := trim s in
  match t with
  | EmptyString => Num 0
  | String "-" r =>
      if allDigits r then match digits 10 r None with Some v => Num (- v) | None => NaN end
      else NaN
  | String "+" r =>
      if allDigits r then match digits 10 r None with Some v => Num v | None => NaN end
      else NaN
  | _ =>
      if allDigits t then match digits 10 t None with Some v => Num v | None => NaN end
      else NaN
  end.

(** [Math.ceil(x / 60)].  For the integers a 32-bit column can hold the
    double division followed by ceil is the exact ceiling. *)
Definition ceilDiv60 (x : number) : number :=
  match x with
  | Num d => Num (- ((- d) / 60))
  | NaN => NaN
  end.

(** [x > 0] *)
Definition gt0 (x : number) : bool :=
  match x with
  | Num d => 0 <? d
  | NaN => false
  end.

(** [a || 0] on a nullable integer. *)
Definition orZero (a : option Z) : Z := default 0 a.

End Js.

(** ** Rows of the tables (shared/schema) *)

Inductive CallLogStatus : Type := completed | in_progress | failed.

Inductive UsageType : Type := call | minute.

Inductive OverrideStatus : Type := active | deleted.

#[global] Instance CallLogStatus_eq_dec : EqDecision CallLogStatus.
Proof. solve_decision. Defined.
#[global] Instance UsageType_eq_dec : EqDecision UsageType.
Proof. solve_decision. Defined.
#[global] Instance OverrideStatus_eq_dec : EqDecision OverrideStatus.
Proof. solve_decision. Defined.

Module CallLog.
Record t : Type := mk {
  id : string;
  restaurantId : string;
  customerPhone : string;
  twilioCallSid : option string;
  duration : option Z;
  status : CallLogStatus;
  lastPolledAt : option Z;
  usageRecordedAt : option Z;
  createdAt : option Z;
}.
End CallLog.

Module Restaurant.
Record t : Type := mk { id : string; name : string }.
End Restaurant.

Module AgentConfiguration.
Record t : Type := mk {
  id : string;
  restaurantId : string;
  billingUserId : option string;
  mode : string;
  waitTimeMinutes : Z;
  defaultWaitTimeMinutes : Z;
  resetWaitTimeAt : option Z;
  menuOverrides : option string;
  updatedAt : option Z;
  (* the remaining columns, by name *)
  otherColumns : list (string * option string);
}.
End AgentConfiguration.

Module User.
Record t : Type := mk {
  id : string;
  stripeCustomerId : option string;
  stripeSubscriptionId : option string;
  subscriptionPlan : option string;
  billingCycleStart : option Z;
  monthlyCallsUsed : option Z;
  monthlyMinutesUsed : option Z;
}.
End User.

Module UsageRecord.
Record t : Type := mk {
  id : string;
  userId : string;
  restaurantId : option string;
  type : UsageType;
  quantity : Z;
  reportedToStripe : option bool;
  stripeUsageRecordId : option string;
  billingPeriod : option Z;
}.
End UsageRecord.

Module SubscriptionPrice.
Record t : Type := mk {
  id : string;
  plan : string;
  stripeMeteredPriceId : option string;
  includedMinutes : option Z;
  includedCalls : option Z;
  perMinuteOverage : option Z;
  perCallOverage : option Z;
}.
End SubscriptionPrice.

Module MenuOverride.
Record t : Type := mk {
  id : string;
  agentConfigurationId : string;
  content : string;
  resetAt : option Z;
  status : OverrideStatus;
  lastModifiedBy : string;
  lastModifiedAt : Z;
  createdAt : Z;
}.
End MenuOverride.

(** ** The billing provider as seen by the code *)

Module Stripe.
(** A subscription with the price ids of its items. *)
Record Subscription : Type := mkSubscription {
  sub_id : string;
  item_prices : list string;
}.

(** Argument of [stripe.billing.meterEvents.create]. *)
Record MeterEvent : Type := mkMeterEvent {
  event_name : string;
  payload_value : string;
  payload_stripe_customer_id : option string;
  identifier : string;
}.
End Stripe.

(** ** Awaited operations, errors, the world *)

Inductive Op : Type :=
| SelectCallLogs | UpdateCallLogs
| SelectRestaurants
| SelectAgentConfigurations | UpdateAgentConfigurations
| SelectUsers | UpdateUsers
| InsertUsageRecords | SelectUsageRecords | UpdateUsageRecords
| SelectSubscriptionPrices
| SelectMenuOverrides | UpdateMenuOverrides
| StripeSubscriptionsRetrieve | StripeMeterEventsCreate.

#[global] Instance Op_eq_dec : EqDecision Op.
Proof. solve_decision. Defined.

Definition isStripeOp (op : Op) : bool :=
  match op with
  | StripeSubscriptionsRetrieve | StripeMeterEventsCreate => true
  | _ => false
  end.

Inductive Error : Type :=
| OpFailed (op : Op)            (* the driver or the provider SDK rejected the call *)
| PgInvalidInteger              (* value refused by an integer column *)
| JsError (message : string).   (* [new Error(message)] *)

Inductive LogEntry : Type :=
| ConsoleLog (message : string)
| ConsoleWarn (message : string)
| ConsoleError (message : string) (e : Error).

Definition isConsoleError (l : LogEntry) : bool :=
  match l with ConsoleError _ _ => true | _ => false end.

(** What the code does not control: which awaited call fails (by operation
    and by how many times that operation ran before), and the [id] property
    of the object the provider returns for a meter event, if it has one. *)
Record Env : Type := mkEnv {
  faults : Op -> nat -> bool;
  meterEventObjectId : Stripe.MeterEvent -> option string;
}.

Record World : Type := mkWorld {
  callLogs : list CallLog.t;
  restaurants : list Restaurant.t;
  agentConfigurations : list AgentConfiguration.t;
  users : list User.t;
  usageRecords : list UsageRecord.t;
  subscriptionPrices : list SubscriptionPrice.t;
  menuOverrides : list MenuOverride.t;
  stripeSubscriptions : list Stripe.Subscription;
  stripeMeterEvents : list Stripe.MeterEvent;   (* accepted by the provider *)
  clock : Z;                                    (* Date.now() *)
  uuidCounter : N;                              (* gen_random_uuid() *)
  trace : list (Op * bool);
  console : list LogEntry;
  env : Env;
}.

Definition set_callLogs (v : list CallLog.t) (w : World) : World :=
  mkWorld v (restaurants w) (agentConfigurations w) (users w) (usageRecords w)
    (subscriptionPrices w) (menuOverrides w) (stripeSubscriptions w)
    (stripeMeterEvents w) (clock w) (uuidCounter w) (trace w) (console w) (env w).

Definition set_agentConfigurations (v : list AgentConfiguration.t) (w : World) : World :=
  mkWorld (callLogs w) (restaurants w) v (users w) (usageRecords w)
    (subscriptionPrices w) (menuOverrides w) (stripeSubscriptions w)
    (stripeMeterEvents w) (clock w) (uuidCounter w) (trace w) (console w) (env w).

Definition set_users (v : list User.t) (w : World) : World :=
  mkWorld (callLogs w) (restaurants w) (agentConfigurations w) v (usageRecords w)
    (subscriptionPrices w) (menuOverrides w) (stripeSubscriptions w)
    (stripeMeterEvents w) (clock w) (uuidCounter w) (trace w) (console w) (env w).

Definition set_usageRecords (v : list UsageRecord.t) (w : World) : World :=
  mkWorld (callLogs w) (restaurants w) (agentConfigurations w) (users w) v
    (subscriptionPrices w) (menuOverrides w) (stripeSubscriptions w)
    (stripeMeterEvents w) (clock w) (uuidCounter w) (trace w) (console w) (env w).

Definition set_menuOverrides (v : list MenuOverride.t) (w : World) : World :=
  mkWorld (callLogs w) (restaurants w) (agentConfigurations w) (users w) (usageRecords w)
    (subscriptionPrices w) v (stripeSubscriptions w)
    (stripeMeterEvents w) (clock w) (uuidCounter w) (trace w) (console w) (env w).

Definition set_stripeMeterEvents (v : list Stripe.MeterEvent) (w : World) : World :=
  mkWorld (callLogs w) (restaurants w) (agentConfigurations w) (users w) (usageRecords w)
    (subscriptionPrices w) (menuOverrides w) (stripeSubscriptions w)
    v (clock w) (uuidCounter w) (trace w) (console w) (env w).

Definition set_uuidCounter (v : N) (w : World) : World :=
  mkWorld (callLogs w) (restaurants w) (agentConfigurations w) (users w) (usageRecords w)
    (subscriptionPrices w) (menuOverrides w) (stripeSubscriptions w)
    (stripeMeterEvents w) (clock w) v (trace w) (console w) (env w).

Definition set_trace (v : list (Op * bool)) (w : World) : World :=
  mkWorld (callLogs w) (restaurants w) (agentConfigurations w) (users w) (usageRecords w)
    (subscriptionPrices w) (menuOverrides w) (stripeSubscriptions w)
    (stripeMeterEvents w) (clock w) (uuidCounter w) v (console w) (env w).

Definition set_console (v : list LogEntry) (w : World) : World :=
  mkWorld (callLogs w) (restaurants w) (agentConfigurations w) (users w) (usageRecords w)
    (subscriptionPrices w) (menuOverrides w) (stripeSubscriptions w)
    (stripeMeterEvents w) (clock w) (uuidCounter w) (trace w) v (env w).

(** ** The monad of async code: state and exceptions *)

Inductive Result (A : Type) : Type :=
| Ok (a : A)
| Throw (e : Error).
Arguments Ok {A} a.
Arguments Throw {A} e.

Definition M (A : Type) : Type := World -> Result A * World.

Definition ret {A} (a : A) : M A := fun w => (Ok a, w).

Definition bind {A B} (m : M A) (k : A -> M B) : M B :=
  fun w =>
    match m w with
    | (Ok a, w') => k a w'
    | (Throw e, w') => (Throw e, w')
    end.

Definition throw {A} (e : Error) : M A := fun w => (Throw e, w).

(** [try { body } catch (e) { handler e }] *)
Definition try_catch {A} (body : M A) (handler : Error -> M A) : M A :=
  fun w =>
    match body w with
    | (Ok a, w') => (Ok a, w')
    | (Throw e, w') => handler e w'
    end.

Declare Scope M_scope.
Delimit Scope M_scope with M.
Notation "'let*' x ':=' m 'in' k" := (bind m (fun x => k))
  (at level 10, x name, m at level 100, k at level 200) : M_scope.
Notation "m '>>' k" := (bind m (fun _ => k))
  (at level 100, k at level 200, right associativity) : M_scope.
Local Open Scope M_scope.

Definition gets {A} (f : World -> A) : M A := fun w => (Ok (f w), w).
Definition modify (f : World -> World) : M unit := fun w => (Ok tt, f w).

Definition console_log (message : string) : M unit :=
  modify (fun w => set_console (ConsoleLog message :: console w) w).
Definition console_warn (message : string) : M unit :=
  modify (fun w => set_console (ConsoleWarn message :: console w) w).
Definition console_error (message : string) (e : Error) : M unit :=
  modify (fun w => set_console (ConsoleError message e :: console w) w).

(** [new Date()] and [Date.now()] *)
Definition newDate : M Z := gets clock.

(** How many times [op] has been awaited so far. *)
Definition occurrences (op : Op) (t : list (Op * bool)) : nat :=
  length (List.filter (fun e => bool_decide (fst e = op)) t).

(** One awaited call: recorded in the trace; throws when it is faulted. *)
Definition perform (op : Op) : M unit :=
  fun w =>
    if faults (env w) op (occurrences op (trace w))
    then (Throw (OpFailed op), set_trace ((op, false) :: trace w) w)
    else (Ok tt, set_trace ((op, true) :: trace w) w).

(** ** SQL on lists of rows *)

Definition sql_update {A} (where_ : A -> bool) (set : A -> A) (rows : list A) : list A :=
  map (fun r => if where_ r then set r else r) rows.

Definition sql_returning {A} (where_ : A -> bool) (set : A -> A) (rows : list A) : list A :=
  map set (List.filter where_ rows).

(** [eq(column, value)] on a nullable text column: NULL equals nothing.
    Also [v === 'literal'] for a possibly undefined string. *)
Definition eqText (column : option string) (value : string) : bool :=
  match column with
  | Some s => String.eqb s value
  | None => false
  end.

Definition eqTimestamp (column : option Z) (value : Z) : bool :=
  match column with
  | Some t => t =? value
  | None => false
  end.

Definition isNull {A} (column : option A) : bool :=
  match column with
  | Some _ => false
  | None => true
  end.

(** Range of a PostgreSQL [integer]. *)
Definition int4 (z : Z) : bool := (-2147483648 <=? z) && (z <=? 2147483647).

(** An awaited call that the server refuses with [e]. *)
Definition reject {A} (op : Op) (e : Error) : M A :=
  fun w => (Throw e, set_trace ((op, false) :: trace w) w).

(** ** storage (DatabaseStorage) *)

Module CallLogUpdates.
(** [Partial<InsertCallLog>]: a field is [None] when the property is
    absent; [usageRecordedAt := Some None] writes NULL. *)
Record t : Type := mk {
  status : option CallLogStatus;
  lastPolledAt : option Z;
  duration : option Js.number;
  twilioCallSid : option string;
  usageRecordedAt : option (option Z);
}.

Definition only_usageRecordedAt (v : option Z) : t :=
  mk None None None None (Some v).

(** A JS number goes into the integer column only if it is an integer in
    range; NaN and values out of range are refused by the database. *)
Definition accepted (u : t) : bool :=
  match duration u with
  | Some (Js.Num z) => int4 z
  | Some Js.NaN => false
  | None => true
  end.

Definition set (u : t) (c : CallLog.t) : CallLog.t :=
  CallLog.mk
    (CallLog.id c)
    (CallLog.restaurantId c)
    (CallLog.customerPhone c)
    (match twilioCallSid u with Some s => Some s | None => CallLog.twilioCallSid c end)
    (match duration u with Some (Js.Num z) => Some z | _ => CallLog.duration c end)
    (match status u with Some s => s | None => CallLog.status c end)
    (match lastPolledAt u with Some t => Some t | None => CallLog.lastPolledAt c end)
    (match usageRecordedAt u with Some v => v | None => CallLog.usageRecordedAt c end)
    (CallLog.createdAt c).
End CallLogUpdates.

Module storage.

(** ORDER BY created_at DESC (NULLS FIRST is the PostgreSQL default);
    rows with equal keys keep the order of the table. *)
Definition createdAt_before (a b : option Z) : bool :=
  match a, b with
  | None, _ => true
  | Some _, None => false
  | Some x, Some y => y <=? x
  end.

Fixpoint insertByCreatedAt (r : CallLog.t * string) (sorted : list (CallLog.t * string))
  : list (CallLog.t * string) :=
  match sorted with
  | [] => [r]
  | s :: rest =>
      if createdAt_before (CallLog.createdAt (fst r)) (CallLog.createdAt (fst s))
      then r :: sorted
      else s :: insertByCreatedAt r rest
  end.

Definition orderByCreatedAtDesc (rows : list (CallLog.t * string)) : list (CallLog.t * string) :=
  fold_right insertByCreatedAt [] rows.

Definition getAgentConfiguration (restaurantId : string) : M (option AgentConfiguration.t) :=
  perform SelectAgentConfigurations >>
  let* rows := gets (fun w =>
    List.filter (fun a => String.eqb (AgentConfiguration.restaurantId a) restaurantId)
      (agentConfigurations w)) in
  ret (head rows).

(** The rows carry the restaurant's name as [agentName]. *)
Definition getCallLogsByRestaurant (restaurantId : string) (limit : nat)
  : M (list (CallLog.t * string)) :=
  perform SelectCallLogs >>
  let* joined := gets (fun w =>
    flat_map (fun c =>
      map (fun r => (c, Restaurant.name r))
        (List.filter (fun r => String.eqb (CallLog.restaurantId c) (Restaurant.id r))
           (restaurants w)))
      (callLogs w)) in
  ret (take limit
         (orderByCreatedAtDesc
            (List.filter (fun cr => String.eqb (CallLog.restaurantId (fst cr)) restaurantId)
               joined))).

Definition updateCallLog (id : string) (updates : CallLogUpdates.t) : M (option CallLog.t) :=
  if CallLogUpdates.accepted updates then
    perform UpdateCallLogs >>
    let where_ := fun c => String.eqb (CallLog.id c) id in
    let* updated := gets (fun w => sql_returning where_ (CallLogUpdates.set updates) (callLogs w)) in
    modify (fun w => set_callLogs (sql_update where_ (CallLogUpdates.set updates) (callLogs w)) w) >>
    ret (head updated)
  else reject UpdateCallLogs PgInvalidInteger.

Definition getCallLogByTwilioSid (twilioCallSid : string) : M (option CallLog.t) :=
  perform SelectCallLogs >>
  let* rows := gets (fun w =>
    List.filter (fun c => eqText (CallLog.twilioCallSid c) twilioCallSid) (callLogs w)) in
  ret (head rows).

Definition markUsageRecorded (id : string) : M bool :=
  let* now := newDate in
  perform UpdateCallLogs >>
  let where_ := fun c => String.eqb (CallLog.id c) id && isNull (CallLog.usageRecordedAt c) in
  let set := CallLogUpdates.set (CallLogUpdates.only_usageRecordedAt (Some now)) in
  let* result := gets (fun w => sql_returning where_ set (callLogs w)) in
  modify (fun w => set_callLogs (sql_update where_ set (callLogs w)) w) >>
  ret (bool_decide (is_Some (head result))).

Definition getAgentsNeedingWaitTimeReset : M (list AgentConfiguration.t) :=
  let* now := newDate in
  perform SelectAgentConfigurations >>
  gets (fun w =>
    List.filter (fun a =>
      negb (isNull (AgentConfiguration.resetWaitTimeAt a)) &&
      match AgentConfiguration.resetWaitTimeAt a with
      | Some t => t <=? now
      | None => false
      end)
      (agentConfigurations w)).

Definition getOverridesNeedingAutoDelete : M (list MenuOverride.t) :=
  let* now := newDate in
  perform SelectMenuOverrides >>
  gets (fun w =>
    List.filter (fun o =>
      bool_decide (MenuOverride.status o = active) &&
      negb (isNull (MenuOverride.resetAt o)) &&
      match MenuOverride.resetAt o with
      | Some t => t <=? now
      | None => false
      end)
      (menuOverrides w)).

End storage.

(** ** stripeService (StripeService) *)

Module stripeService.

(** [c.toUpperCase()] for one code unit: ASCII and Latin-1 letters.  The
    three Latin-1 letters whose capital is not a Latin-1 code unit are
    left as they are; no plan name starts with one. *)
Definition toUpperCase (c : ascii) : ascii :=
  let n := N_of_ascii c in
  if ((97 <=? n) && (n <=? 122) || (224 <=? n) && (n <=? 254) && negb (n =? 247))%N
  then ascii_of_N (n - 32)
  else c.

(** [s.charAt(0).toUpperCase() + s.slice(1)] *)
Definition capitalize (s : string) : string :=
  match s with
  | String c rest => String (toUpperCase c) rest
  | EmptyString => EmptyString
  end.

(** The overage computed from the plan limits: [(overageQuantity, overageType)]. *)
Definition overage (user : User.t) (priceConfig : SubscriptionPrice.t)
  : Z * option UsageType :=
  if eqText (User.subscriptionPlan user) "starter" then
    let callsOverage :=
      Z.max 0 (Js.orZero (User.monthlyCallsUsed user)
               - Js.orZero (SubscriptionPrice.includedCalls priceConfig)) in
    if 0 <? callsOverage then (callsOverage, Some call) else (0, None)
  else if eqText (User.subscriptionPlan user) "growth"
          || eqText (User.subscriptionPlan user) "pro" then
    let minutesOverage :=
      Z.max 0 (Js.orZero (User.monthlyMinutesUsed user)
               - Js.orZero (SubscriptionPrice.includedMinutes priceConfig)) in
    if 0 <? minutesOverage then (minutesOverage, Some minute) else (0, None)
  else (0, None).

Definition isUnreported (userId : string) (overageType : UsageType) (r : UsageRecord.t) : bool :=
  String.eqb (UsageRecord.userId r) userId
  && bool_decide (UsageRecord.type r = overageType)
  && bool_decide (UsageRecord.reportedToStripe r = Some false).

Definition markReported (stripeUsageRecordId : string) (r : UsageRecord.t) : UsageRecord.t :=
  UsageRecord.mk
    (UsageRecord.id r) (UsageRecord.userId r) (UsageRecord.restaurantId r)
    (UsageRecord.type r) (UsageRecord.quantity r)
    (Some true) (Some stripeUsageRecordId)
    (UsageRecord.billingPeriod r).

(** [inArray(usageRecords.id, recordIds)] *)
Definition inArray (recordIds : list string) (r : UsageRecord.t) : bool :=
  existsb (String.eqb (UsageRecord.id r)) recordIds.

Definition subscriptions_retrieve (id : string) : M Stripe.Subscription :=
  let* found := gets (fun w =>
    find (fun s => String.eqb (Stripe.sub_id s) id) (stripeSubscriptions w)) in
  match found with
  | Some s => perform StripeSubscriptionsRetrieve >> ret s
  | None =>
      (* no such subscription: the provider answers with an error *)
      reject StripeSubscriptionsRetrieve (OpFailed StripeSubscriptionsRetrieve)
  end.

(** The provider accepts the event and returns its object: the
    [identifier] sent and, if the object has one, an [id]. *)
Definition meterEvents_create (event : Stripe.MeterEvent) : M (option string * string) :=
  perform StripeMeterEventsCreate >>
  modify (fun w => set_stripeMeterEvents (stripeMeterEvents w ++ [event]) w) >>
  let* objectId := gets (fun w => meterEventObjectId (env w) event) in
  ret (objectId, Stripe.identifier event).

Definition eventName (overageType : UsageType) : string :=
  match overageType with
  | call => "otto_calls"
  | minute => "otto_minutes"
  end.

(** [unreportedRecords.reduce((sum, record) => sum + record.quantity, 0)] *)
Definition totalQuantity (unreportedRecords : list UsageRecord.t) : Z :=
  fold_left (fun sum record => sum + UsageRecord.quantity record) unreportedRecords 0.

(** The argument of [stripe.billing.meterEvents.create]. *)
Definition meterEvent (userId : string) (user : User.t) (overageType : UsageType)
    (total : Z) (now : Z) : Stripe.MeterEvent :=
  Stripe.mkMeterEvent
    (eventName overageType)
    (pretty total)
    (User.stripeCustomerId user)
    (userId +:+ "_" +:+ pretty now).

(** [meterEventData.id || meterEventData.identifier] *)
Definition usageRecordIdOf (usageRecord : option string * string) : string :=
  if Js.truthy (fst usageRecord) then default "" (fst usageRecord)
  else snd usageRecord.

(** The block guarded by [if (overageType && overageQuantity > 0)]. *)
Definition reportOverage (userId : string) (user : User.t)
    (priceConfig : SubscriptionPrice.t) (overageType : UsageType) : M unit :=
  console_log "Overage detected for user" >>
  perform SelectUsageRecords >>
  let* unreportedRecords := gets (fun w =>
    List.filter (isUnreported userId overageType) (usageRecords w)) in
  console_log "Found unreported records for user" >>
  if (length unreportedRecords =? 0)%nat then
    console_log "No unreported records found for user"
  else if negb (Js.truthy (SubscriptionPrice.stripeMeteredPriceId priceConfig)) then
    console_log "No metered price ID found for plan"
  else
    let* subscription :=
      subscriptions_retrieve (default "" (User.stripeSubscriptionId user)) in
    let meteredItem :=
      find (fun price => eqText (SubscriptionPrice.stripeMeteredPriceId priceConfig) price)
        (Stripe.item_prices subscription) in
    match meteredItem with
    | None => ret tt
    | Some _ =>
        console_log "Sending to Stripe for user" >>
        try_catch
          (let* now := newDate in
           let* usageRecord :=
             meterEvents_create
               (meterEvent userId user overageType (totalQuantity unreportedRecords) now) in
           console_log "Successfully sent meter event to Stripe" >>
           let recordIds := map UsageRecord.id unreportedRecords in
           perform UpdateUsageRecords >>
           modify (fun w =>
             set_usageRecords
               (sql_update (inArray recordIds) (markReported (usageRecordIdOf usageRecord))
                  (usageRecords w)) w) >>
           console_log "Marked usage records as reported to Stripe")
          (fun meterError =>
             console_error "[CRITICAL] Failed to send meter event to Stripe for user" meterError >>
             throw meterError)
    end.

Definition reportOveragesToStripe (userId : string) : M unit :=
  try_catch
    (perform SelectUsers >>
     let* rows := gets (fun w =>
       List.filter (fun u => String.eqb (User.id u) userId) (users w)) in
     match head rows with
     | None => ret tt
     | Some user =>
         if negb (Js.truthy (User.stripeSubscriptionId user))
            || negb (Js.truthy (User.subscriptionPlan user))
         then ret tt
         else
           let planName := capitalize (default "" (User.subscriptionPlan user)) in
           perform SelectSubscriptionPrices >>
           let* prices := gets (fun w =>
             List.filter (fun p => String.eqb (SubscriptionPrice.plan p) planName)
               (subscriptionPrices w)) in
           match head prices with
           | None => ret tt
           | Some priceConfig =>
               let '(overageQuantity, overageType) := overage user priceConfig in
               match overageType with
               | Some ty =>
                   if 0 <? overageQuantity
                   then reportOverage userId user priceConfig ty
                   else ret tt
               | None => ret tt
               end
           end
     end)
    (fun error => console_error "[reportOveragesToStripe] Error:" error).

(** [gen_random_uuid()], the default of the [id] column. *)
Definition gen_random_uuid : M string :=
  let* n := gets uuidCounter in
  modify (set_uuidCounter (n + 1)%N) >>
  ret ("uuid-" +:+ pretty n).

Definition addQuantity (quantity : Z) (counter : option Z) : option Z :=
  match counter with
  | Some n => Some (n + quantity)
  | None => None              (* NULL + quantity is NULL *)
  end.

Definition incrementUsage (type : UsageType) (quantity : Z) (u : User.t) : User.t :=
  match type with
  | call =>
      User.mk (User.id u) (User.stripeCustomerId u) (User.stripeSubscriptionId u)
        (User.subscriptionPlan u) (User.billingCycleStart u)
        (addQuantity quantity (User.monthlyCallsUsed u)) (User.monthlyMinutesUsed u)
  | minute =>
      User.mk (User.id u) (User.stripeCustomerId u) (User.stripeSubscriptionId u)
        (User.subscriptionPlan u) (User.billingCycleStart u)
        (User.monthlyCallsUsed u) (addQuantity quantity (User.monthlyMinutesUsed u))
  end.

Definition recordUsage (userId restaurantId : string) (type : UsageType) (quantity : Z)
  : M unit :=
  perform SelectUsers >>
  let* rows := gets (fun w =>
    List.filter (fun u => String.eqb (User.id u) userId) (users w)) in
  match head rows with
  | None => throw (JsError "User not found")
  | Some user =>
      let* now := newDate in
      perform InsertUsageRecords >>
      let* id := gen_random_uuid in
      modify (fun w =>
        set_usageRecords
          (usageRecords w ++
           [UsageRecord.mk id userId (Some restaurantId) type quantity
              (Some false) None
              (Some (default now (User.billingCycleStart user)))]) w) >>
      perform UpdateUsers >>
      modify (fun w =>
        set_users
          (sql_update (fun u => String.eqb (User.id u) userId)
             (incrementUsage type quantity) (users w)) w) >>
      reportOveragesToStripe userId
  end.

End stripeService.

(** ** routes: POST /twiml/status/:restaurantId *)

Module routes.

(** [req.body] *)
Record Body : Type := mkBody {
  CallSid : option string;
  CallStatus : option string;
  CallDuration : option string;
  From : option string;
}.

Record Response : Type := mkResponse {
  statusCode : Z;
  sent : string;
}.

(** [!callLog.duration] and the like on a nullable integer. *)
Definition truthyInt (v : option Z) : bool :=
  match v with
  | Some z => negb (z =? 0)
  | None => false
  end.

(** Finding the call log: by CallSid, then by phone number among the
    last 100 calls of the restaurant. *)
Definition findCallLog (restaurantId : string) (body : Body) : M (option CallLog.t) :=
  let* callLog :=
    (if Js.truthy (CallSid body)
     then storage.getCallLogByTwilioSid (default "" (CallSid body))
     else ret None) in
  if isNull callLog && Js.truthy (From body) && Js.truthy (Some restaurantId) then
    let* calls := storage.getCallLogsByRestaurant restaurantId 100 in
    ret (find (fun call =>
                 String.eqb (CallLog.customerPhone call) (default "" (From body))
                 && bool_decide (CallLog.status call = in_progress))
           (map fst calls))
  else ret callLog.

(** The [updates] object. *)
Definition buildUpdates (body : Body) (callLog : CallLog.t) (now : Z) : CallLogUpdates.t :=
  CallLogUpdates.mk
    (Some (if eqText (CallStatus body) "completed" then completed else failed))
    (Some now)
    (if Js.truthy (CallDuration body) && negb (truthyInt (CallLog.duration callLog))
     then Some (Js.parseInt (default "" (CallDuration body)))
     else None)
    (if Js.truthy (CallSid body) && negb (Js.truthy (CallLog.twilioCallSid callLog))
     then CallSid body
     else None)
    None.

(** [updates.duration ?? callLog.duration ?? Number(CallDuration ?? 0)] *)
Definition durationSeconds (body : Body) (callLog : CallLog.t) (updates : CallLogUpdates.t)
  : Js.number :=
  match CallLogUpdates.duration updates with
  | Some n => n
  | None =>
      match CallLog.duration callLog with
      | Some d => Js.Num d
      | None =>
          match CallDuration body with
          | Some s => Js.Number_ s
          | None => Js.Num 0
          end
      end
  end.

(** [let started = false; try { ...; started = true; ... } catch (e) { handler started e }]:
    [before] runs with the flag false and returns [Some x] where the code
    sets the flag and goes on with [after x], [None] where the block ends
    without setting it. *)
Definition try_catch_started {X} (before : M (option X)) (after : X -> M unit)
    (handler : bool -> Error -> M unit) : M unit :=
  fun w =>
    match before w with
    | (Throw e, w1) => handler false e w1
    | (Ok None, w1) => (Ok tt, w1)
    | (Ok (Some x), w1) =>
        match after x w1 with
        | (Throw e, w2) => handler true e w2
        | (Ok a, w2) => (Ok a, w2)
        end
    end.

(** [agentConfig.billingUserId] when [!agentConfig || !agentConfig.billingUserId]
    is false. *)
Definition billingUserOf (agentConfig : option AgentConfiguration.t) : option string :=
  match agentConfig with
  | Some config =>
      if Js.truthy (AgentConfiguration.billingUserId config)
      then AgentConfiguration.billingUserId config
      else None
  | None => None
  end.

(** The block under [if (claimedForRecording)]. *)
Definition recordClaimedUsage (restaurantId : string) (body : Body)
    (callLog : CallLog.t) (updates : CallLogUpdates.t) : M unit :=
  try_catch_started
    (let* agentConfig := storage.getAgentConfiguration restaurantId in
     match billingUserOf agentConfig with
     | None =>
         console_warn "Agent has no billing user set, rolling back usage claim" >>
         storage.updateCallLog (CallLog.id callLog)
           (CallLogUpdates.only_usageRecordedAt None) >>
         ret None
     | Some billingUserId =>
         stripeService.recordUsage billingUserId restaurantId call 1 >>
         ret (Some billingUserId)
     end)
    (fun billingUserId =>
       let minutes := Js.ceilDiv60 (durationSeconds body callLog updates) in
       match minutes with
       | Js.Num m =>
           if 0 <? m
           then stripeService.recordUsage billingUserId restaurantId minute m
           else ret tt
       | Js.NaN => ret tt
       end >>
       console_log "Recorded usage for agent")
    (fun stripeRecordingStarted usageError =>
       console_error "Failed to record usage:" usageError >>
       if negb stripeRecordingStarted then
         console_log "Rolling back usage claim to allow retry" >>
         storage.updateCallLog (CallLog.id callLog)
           (CallLogUpdates.only_usageRecordedAt None) >>
         ret tt
       else
         console_log "Keeping usage claim to prevent duplicate billing despite error (usage may be partial)").

(** The part of the handler that runs when a call log was found. *)
Definition updateAndRecord (restaurantId : string) (body : Body) (callLog : CallLog.t)
  : M unit :=
  let* now := newDate in
  let updates := buildUpdates body callLog now in
  storage.updateCallLog (CallLog.id callLog) updates >>
  console_log "Updated call log with status" >>
  if eqText (CallStatus body) "completed" && isNull (CallLog.usageRecordedAt callLog) then
    let* claimedForRecording := storage.markUsageRecorded (CallLog.id callLog) in
    if claimedForRecording
    then recordClaimedUsage restaurantId body callLog updates
    else console_log "Usage already recorded for call, skipping duplicate"
  else if eqText (CallStatus body) "completed"
          && negb (isNull (CallLog.usageRecordedAt callLog)) then
    console_log "Usage already recorded for call, skipping duplicate"
  else ret tt.

Definition statusCallback (restaurantId : string) (body : Body) : M Response :=
  try_catch
    (console_log "Status callback" >>
     let* callLog := findCallLog restaurantId body in
     match callLog with
     | Some callLog => updateAndRecord restaurantId body callLog
     | None => console_log "No call log found"
     end >>
     ret (mkResponse 200 "OK"))
    (fun error =>
       console_error "Status callback error:" error >>
       ret (mkResponse 500 "Error")).

End routes.

(** ** The reset sweepers

    A sweeper reads the due rows, then awaits one conditional UPDATE per
    row.  Requests handled while it awaits may write to the same table:
    [others k] is what they have done to the table when the [k]-th
    conditional UPDATE of the run is executed.  The run with no concurrent
    writer has [others := fun _ rows => rows]. *)

Module WaitTimeResetScheduler.

(** WHERE id = agent.id AND reset_wait_time_at = originalResetTime (or IS NULL) *)
Definition where_ (agent : AgentConfiguration.t) (row : AgentConfiguration.t) : bool :=
  String.eqb (AgentConfiguration.id row) (AgentConfiguration.id agent)
  && match AgentConfiguration.resetWaitTimeAt agent with
     | Some originalResetTime =>
         eqTimestamp (AgentConfiguration.resetWaitTimeAt row) originalResetTime
     | None => isNull (AgentConfiguration.resetWaitTimeAt row)
     end.

(** SET wait_time_minutes = agent.defaultWaitTimeMinutes, reset_wait_time_at = NULL *)
Definition set (agent : AgentConfiguration.t) (row : AgentConfiguration.t)
  : AgentConfiguration.t :=
  AgentConfiguration.mk
    (AgentConfiguration.id row)
    (AgentConfiguration.restaurantId row)
    (AgentConfiguration.billingUserId row)
    (AgentConfiguration.mode row)
    (AgentConfiguration.defaultWaitTimeMinutes agent)
    (AgentConfiguration.defaultWaitTimeMinutes row)
    None
    (AgentConfiguration.menuOverrides row)
    (AgentConfiguration.updatedAt row)
    (AgentConfiguration.otherColumns row).

(** The body of the [for] loop; returns the new [resetCount]. *)
Definition resetAgent (agent : AgentConfiguration.t) (resetCount : nat) : M nat :=
  try_catch
    (perform UpdateAgentConfigurations >>
     let* result := gets (fun w =>
       sql_returning (where_ agent) (set agent) (agentConfigurations w)) in
     modify (fun w =>
       set_agentConfigurations
         (sql_update (where_ agent) (set agent) (agentConfigurations w)) w) >>
     if (0 <? length result)%nat then
       console_log "Reset wait time for agent" >>
       ret (S resetCount)
     else
       console_log "Agent reset was skipped - resetWaitTimeAt was modified concurrently" >>
       ret resetCount)
    (fun error =>
       console_error "Error resetting wait time for agent" error >>
       ret resetCount).

Fixpoint resetAgents (others : nat -> list AgentConfiguration.t -> list AgentConfiguration.t)
    (k : nat) (agentsToReset : list AgentConfiguration.t) (resetCount : nat) : M nat :=
  match agentsToReset with
  | [] => ret resetCount
  | agent :: rest =>
      modify (fun w => set_agentConfigurations (others k (agentConfigurations w)) w) >>
      let* resetCount := resetAgent agent resetCount in
      resetAgents others (S k) rest resetCount
  end.

Definition checkAndResetWaitTimes
    (others : nat -> list AgentConfiguration.t -> list AgentConfiguration.t) : M nat :=
  try_catch
    (let* agentsToReset := storage.getAgentsNeedingWaitTimeReset in
     if (length agentsToReset =? 0)%nat then ret 0%nat
     else
       console_log "Found agent(s) needing wait time reset" >>
       resetAgents others 0 agentsToReset 0)
    (fun error =>
       console_error "Error in wait time reset scheduler:" error >>
       ret 0%nat).

End WaitTimeResetScheduler.

Module MenuOverrideResetScheduler.

(** WHERE id = override.id AND status = originalStatus
    AND reset_at = originalResetAt (or IS NULL) *)
Definition where_ (override : MenuOverride.t) (row : MenuOverride.t) : bool :=
  String.eqb (MenuOverride.id row) (MenuOverride.id override)
  && bool_decide (MenuOverride.status row = MenuOverride.status override)
  && match MenuOverride.resetAt override with
     | Some originalResetAt => eqTimestamp (MenuOverride.resetAt row) originalResetAt
     | None => isNull (MenuOverride.resetAt row)
     end.

(** SET status = 'deleted' *)
Definition set (row : MenuOverride.t) : MenuOverride.t :=
  MenuOverride.mk
    (MenuOverride.id row)
    (MenuOverride.agentConfigurationId row)
    (MenuOverride.content row)
    (MenuOverride.resetAt row)
    deleted
    (MenuOverride.lastModifiedBy row)
    (MenuOverride.lastModifiedAt row)
    (MenuOverride.createdAt row).

(** The body of the [for] loop; returns the new [deletedCount]. *)
Definition deleteOverride (override : MenuOverride.t) (deletedCount : nat) : M nat :=
  try_catch
    (perform UpdateMenuOverrides >>
     let* result := gets (fun w =>
       sql_returning (where_ override) set (menuOverrides w)) in
     modify (fun w =>
       set_menuOverrides (sql_update (where_ override) set (menuOverrides w)) w) >>
     if (0 <? length result)%nat then
       console_log "Auto-deleted menu override" >>
       ret (S deletedCount)
     else
       console_log "Override deletion was skipped - status or resetAt was modified concurrently" >>
       ret deletedCount)
    (fun error =>
       console_error "Error deleting menu override" error >>
       ret deletedCount).

Fixpoint deleteOverrides (others : nat -> list MenuOverride.t -> list MenuOverride.t)
    (k : nat) (overridesToDelete : list MenuOverride.t) (deletedCount : nat) : M nat :=
  match overridesToDelete with
  | [] => ret deletedCount
  | override :: rest =>
      modify (fun w => set_menuOverrides (others k (menuOverrides w)) w) >>
      let* deletedCount := deleteOverride override deletedCount in
      deleteOverrides others (S k) rest deletedCount
  end.

Definition checkAndDeleteExpiredOverrides
    (others : nat -> list MenuOverride.t -> list MenuOverride.t) : M nat :=
  try_catch
    (let* overridesToDelete := storage.getOverridesNeedingAutoDelete in
     if (length overridesToDelete =? 0)%nat then ret 0%nat
     else
       console_log "Found menu override(s) needing auto-deletion" >>
       deleteOverrides others 0 overridesToDelete 0)
    (fun error =>
       console_error "Error in menu override reset scheduler:" error >>
       ret 0%nat).

End MenuOverrideResetScheduler.

(** ** Vocabulary of the statements *)

(** The next awaited [op] is executed (not faulted). *)
Definition executes (w : World) (op : Op) : Prop :=
  faults (env w) op (occurrences op (trace w)) = false.

(** The next awaited [op] fails. *)
Definition nextFails (w : World) (op : Op) : Prop :=
  faults (env w) op (occurrences op (trace w)) = true.

(** [op] never fails in this environment. *)
Definition reliable (w : World) (op : Op) : Prop :=
  forall n, faults (env w) op n = false.

(** Some row with this id has a null usage-recorded timestamp. *)
Definition unclaimed (id : string) (rows : list CallLog.t) : bool :=
  existsb (fun c => String.eqb (CallLog.id c) id && isNull (CallLog.usageRecordedAt c)) rows.

(** [n] successive invocations of markUsageRecorded on one id, with their
    results; [others k] is what else happens to the world before the
    [k]-th invocation. *)
Fixpoint claims (others : nat -> World -> World) (id : string) (k n : nat) (w : World)
  : list (Result bool) * World :=
  match n with
  | O => ([], w)
  | S n' =>
      let '(r, w1) := storage.markUsageRecorded id (others k w) in
      let '(rs, w2) := claims others id (S k) n' w1 in
      (r :: rs, w2)
  end.

(** Everything except the ledger, the provider's events, the trace and the
    console is as before. *)
Definition sameOutsideLedger (w w' : World) : Prop :=
  callLogs w' = callLogs w /\ restaurants w' = restaurants w /\
  agentConfigurations w' = agentConfigurations w /\ users w' = users w /\
  subscriptionPrices w' = subscriptionPrices w /\ menuOverrides w' = menuOverrides w /\
  stripeSubscriptions w' = stripeSubscriptions w /\ clock w' = clock w /\
  uuidCounter w' = uuidCounter w /\ env w' = env w.

(** The calls made to the provider, in a trace. *)
Definition stripeCalls (t : list (Op * bool)) : list (Op * bool) :=
  List.filter (fun e => isStripeOp (fst e)) t.

(** The rows that reportOveragesToStripe reads for [userId]. *)
Definition selectedUser (userId : string) (w : World) : option User.t :=
  head (List.filter (fun u => String.eqb (User.id u) userId) (users w)).

Definition selectedPrice (user : User.t) (w : World) : option SubscriptionPrice.t :=
  head (List.filter
          (fun p => String.eqb (SubscriptionPrice.plan p)
                      (stripeService.capitalize (default "" (User.subscriptionPlan user))))
          (subscriptionPrices w)).

Definition unreportedOf (userId : string) (ty : UsageType) (w : World) : list UsageRecord.t :=
  List.filter (stripeService.isUnreported userId ty) (usageRecords w).

(** The call log the status callback works on, if any. *)
Definition found (restaurantId : string) (body : routes.Body) (w : World)
  : option CallLog.t :=
  match fst (routes.findCallLog restaurantId body w) with
  | Ok r => r
  | Throw _ => None
  end.

(** What a run of reportOveragesToStripe from [w] to [w'] can have done:
    either it stopped before any call to the provider, *)
Definition reportQuiet (w w' : World) : Prop :=
  usageRecords w' = usageRecords w
  /\ stripeMeterEvents w' = stripeMeterEvents w
  /\ stripeCalls (trace w') = stripeCalls (trace w)
  /\ exists e, head (trace w') = Some e /\ isStripeOp (fst e) = false
               /\ fst e <> UpdateUsageRecords.

(** or it found an overage and unreported entries and went to the provider. *)
Definition reportReached (userId : string) (w w' : World) : Prop :=
  exists user priceConfig quantity ty,
    selectedUser userId w = Some user
    /\ Js.truthy (User.stripeSubscriptionId user) = true
    /\ selectedPrice user w = Some priceConfig
    /\ stripeService.overage user priceConfig = (quantity, Some ty)
    /\ 0 < quantity
    /\ unreportedOf userId ty w <> []
    /\ let ev := stripeService.meterEvent userId user ty
                   (stripeService.totalQuantity (unreportedOf userId ty w)) (clock w) in
       let sid := stripeService.usageRecordIdOf
                    (meterEventObjectId (env w) ev, Stripe.identifier ev) in
       (* the subscription could not be used *)
       (usageRecords w' = usageRecords w
        /\ stripeMeterEvents w' = stripeMeterEvents w
        /\ exists b, head (trace w') = Some (StripeSubscriptionsRetrieve, b))
       (* the submission failed *)
       \/ (usageRecords w' = usageRecords w
           /\ stripeMeterEvents w' = stripeMeterEvents w
           /\ head (trace w') = Some (StripeMeterEventsCreate, false)
           /\ exists logs,
                console w' =
                  ConsoleError "[reportOveragesToStripe] Error:" (OpFailed StripeMeterEventsCreate)
                  :: ConsoleError "[CRITICAL] Failed to send meter event to Stripe for user"
                       (OpFailed StripeMeterEventsCreate)
                  :: logs)
       (* the submission succeeded, the marking write failed *)
       \/ (usageRecords w' = usageRecords w
           /\ stripeMeterEvents w' = stripeMeterEvents w ++ [ev]
           /\ head (trace w') = Some (UpdateUsageRecords, false))
       (* submitted and marked *)
       \/ (usageRecords w' =
             sql_update (stripeService.inArray (map UsageRecord.id (unreportedOf userId ty w)))
               (stripeService.markReported sid) (usageRecords w)
           /\ stripeMeterEvents w' = stripeMeterEvents w ++ [ev]
           /\ head (trace w') = Some (UpdateUsageRecords, true)).

(** The run of reportOveragesToStripe from [w] gets to the submission for
    the entries of kind [ty] of the account [user]: the account has a
    subscription and an overage of that kind, it has unreported entries of
    that kind, its plan has a metered price that is an item of the
    subscription, and the reads before the submission are executed. *)
Definition submissionReached (userId : string) (user : User.t) (ty : UsageType) (w : World)
  : Prop :=
  exists priceConfig quantity subscription,
    selectedUser userId w = Some user
    /\ Js.truthy (User.stripeSubscriptionId user) = true
    /\ selectedPrice user w = Some priceConfig
    /\ stripeService.overage user priceConfig = (quantity, Some ty)
    /\ unreportedOf userId ty w <> []
    /\ Js.truthy (SubscriptionPrice.stripeMeteredPriceId priceConfig) = true
    /\ find (fun s => String.eqb (Stripe.sub_id s) (default "" (User.stripeSubscriptionId user)))
         (stripeSubscriptions w) = Some subscription
    /\ existsb (fun price => eqText (SubscriptionPrice.stripeMeteredPriceId priceConfig) price)
         (Stripe.item_prices subscription) = true
    /\ executes w SelectUsers
    /\ executes w SelectSubscriptionPrices
    /\ executes w SelectUsageRecords
    /\ executes w StripeSubscriptionsRetrieve.

(** The plans of the schema, and the overage as the specification words it. *)
Inductive SubscriptionPlan : Type := starter | growth | pro | unlimited.

Definition planName (plan : SubscriptionPlan) : string :=
  match plan with
  | starter => "starter"
  | growth => "growth"
  | pro => "pro"
  | unlimited => "unlimited"
  end.

(** Reference definition: calls over the included calls for 'starter',
    minutes over the included minutes for 'growth' and 'pro', nothing for
    'unlimited'; [None] when there is no overage. *)
Definition spec_overage (plan : SubscriptionPlan)
    (monthlyCallsUsed includedCalls monthlyMinutesUsed includedMinutes : Z)
  : option (Z * UsageType) :=
  match plan with
  | starter =>
      let q := Z.max 0 (monthlyCallsUsed - includedCalls) in
      if q =? 0 then None else Some (q, call)
  | growth | pro =>
      let q := Z.max 0 (monthlyMinutesUsed - includedMinutes) in
      if q =? 0 then None else Some (q, minute)
  | unlimited => None
  end.

(** No call to the provider between [w] and [w']. *)
Definition noProviderCall (w w' : World) : Prop :=
  stripeCalls (trace w') = stripeCalls (trace w)
  /\ stripeMeterEvents w' = stripeMeterEvents w.

(** ** Sample data *)

Module Sample.

Definition noFaults : Op -> nat -> bool := fun _ _ => false.

(** Every call of [op] fails, the other operations work. *)
Definition down (op : Op) : Op -> nat -> bool := fun op' _ => bool_decide (op' = op).

Definition healthy : Env := mkEnv noFaults (fun _ => None).
Definition meterDown : Env := mkEnv (down StripeMeterEventsCreate) (fun _ => None).
Definition ledgerDown : Env := mkEnv (down InsertUsageRecords) (fun _ => None).

(** A 'starter' account, 25 calls used, with a subscription. *)
Definition user : User.t :=
  User.mk "u1" (Some "cus_1") (Some "sub_1") (Some "starter") None (Some 25) (Some 0).

(** The same account with exactly the included 20 calls used. *)
Definition userAtLimit : User.t :=
  User.mk "u1" (Some "cus_1") (Some "sub_1") (Some "starter") None (Some 20) (Some 0).

(** An 'unlimited' account with heavy usage. *)
Definition userUnlimited : User.t :=
  User.mk "u1" (Some "cus_1") (Some "sub_1") (Some "unlimited") None (Some 900) (Some 9000).

(** The same account without a subscription. *)
Definition userNoSubscription : User.t :=
  User.mk "u1" (Some "cus_1") None (Some "starter") None (Some 25) (Some 0).

Definition price : SubscriptionPrice.t :=
  SubscriptionPrice.mk "p1" "Starter" (Some "price_metered") None (Some 20) None (Some 150).

Definition callEntry : UsageRecord.t :=
  UsageRecord.mk "r1" "u1" (Some "rest1") call 1 (Some false) None None.

Definition minuteEntry : UsageRecord.t :=
  UsageRecord.mk "r2" "u1" (Some "rest1") minute 2 (Some false) None None.

Definition subscription : Stripe.Subscription :=
  Stripe.mkSubscription "sub_1" ["price_base"; "price_metered"].

(** An unbilled call of restaurant rest1, in progress. *)
Definition callLog : CallLog.t :=
  CallLog.mk "c1" "rest1" "+15550001" (Some "CA1") None in_progress None None (Some 900).

Definition restaurant : Restaurant.t := Restaurant.mk "rest1" "Otto Diner".

Definition agent : AgentConfiguration.t :=
  AgentConfiguration.mk "a1" "rest1" (Some "u1") "agent" 45 30 (Some 500) None None [].

Definition override : MenuOverride.t :=
  MenuOverride.mk "m1" "a1" "no soup today" (Some 500) active "u1" 400 300.

Definition world (e : Env) (u : User.t) : World :=
  mkWorld [callLog] [restaurant] [agent] [u] [callEntry; minuteEntry] [price]
    [override] [subscription] [] 1000 0 [] [] e.

(** Status callbacks of the provider for the sample call. *)
Definition completedCallback (seconds : string) : routes.Body :=
  routes.mkBody (Some "CA1") (Some "completed") (Some seconds) (Some "+15550001").

Definition ringingCallback : routes.Body :=
  routes.mkBody (Some "CA1") (Some "ringing") None (Some "+15550001").

(** A user edit made while the sweeper awaits: the wait time is set to 60
    minutes, to be reset at 2000. *)
Definition editWaitTime (a : AgentConfiguration.t) : AgentConfiguration.t :=
  AgentConfiguration.mk (AgentConfiguration.id a) (AgentConfiguration.restaurantId a)
    (AgentConfiguration.billingUserId a) (AgentConfiguration.mode a)
    60 (AgentConfiguration.defaultWaitTimeMinutes a) (Some 2000)
    (AgentConfiguration.menuOverrides a) (AgentConfiguration.updatedAt a)
    (AgentConfiguration.otherColumns a).

(** A user edit of a menu override: new text, to be cleared at 2000. *)
Definition editOverride (o : MenuOverride.t) : MenuOverride.t :=
  MenuOverride.mk (MenuOverride.id o) (MenuOverride.agentConfigurationId o)
    "soup is back" (Some 2000) (MenuOverride.status o) "u1" 950
    (MenuOverride.createdAt o).

End Sample.

(** The billing user the status callback finds for a restaurant. *)
Definition billingUserFor (restaurantId : string) (w : World) : option string :=
  routes.billingUserOf
    (head (List.filter
             (fun a => String.eqb (AgentConfiguration.restaurantId a) restaurantId)
             (agentConfigurations w))).

(** The ledger entry that recordUsage inserts. *)
Definition newEntry (userId restaurantId : string) (type : UsageType) (quantity : Z)
    (user : User.t) (w : World) : UsageRecord.t :=
  UsageRecord.mk ("uuid-" +:+ pretty (uuidCounter w)) userId (Some restaurantId) type quantity
    (Some false) None (Some (default (clock w) (User.billingCycleStart user))).

(** The world after the three database calls of recordUsage, when they are
    executed: the entry is appended and the counter of the account is
    incremented.  reportOveragesToStripe runs from there. *)
Definition usageWritten (userId restaurantId : string) (type : UsageType) (quantity : Z)
    (user : User.t) (w : World) : World :=
  mkWorld (callLogs w) (restaurants w) (agentConfigurations w)
    (sql_update (fun u => String.eqb (User.id u) userId)
       (stripeService.incrementUsage type quantity) (users w))
    (usageRecords w ++ [newEntry userId restaurantId type quantity user w])
    (subscriptionPrices w) (menuOverrides w) (stripeSubscriptions w)
    (stripeMeterEvents w) (clock w) (uuidCounter w + 1)%N
    ((UpdateUsers, true) :: (InsertUsageRecords, true) :: (SelectUsers, true) :: trace w)
    (console w) (env w).

(** Kind and quantity of a ledger entry. *)
Definition kindQuantity (r : UsageRecord.t) : UsageType * Z :=
  (UsageRecord.type r, UsageRecord.quantity r).

(** The minute entries the handler writes for a duration. *)
Definition minuteEntries (minutes : Js.number) : list (UsageType * Z) :=
  match minutes with
  | Js.Num m => if 0 <? m then [(minute, m)] else []
  | Js.NaN => []
  end.

(** What statusCallback answers after the part of the handler that ran
    inside its [try]: 200 when it returned, 500 and a logged error when it
    threw. *)
Definition respond (r : Result unit * World) : Result routes.Response * World :=
  match r with
  | (Ok _, w) => (Ok (routes.mkResponse 200 "OK"), w)
  | (Throw e, w) =>
      (Ok (routes.mkResponse 500 "Error"),
       set_console (ConsoleError "Status callback error:" e :: console w) w)
  end.

(** The WHERE and SET of markUsageRecorded. *)
Definition claimWhere (id : string) (c : CallLog.t) : bool :=
  String.eqb (CallLog.id c) id && isNull (CallLog.usageRecordedAt c).

Definition claimSet (now : Z) : CallLog.t -> CallLog.t :=
  CallLogUpdates.set (CallLogUpdates.only_usageRecordedAt (Some now)).

(** The world in which the handler starts recording usage: the call log
    [c] has been updated and claimed; [t] is the trace after the look-up. *)
Definition claimedWorld (c : CallLog.t) (updates : CallLogUpdates.t)
    (t : list (Op * bool)) (w : World) : World :=
  mkWorld
    (sql_update (claimWhere (CallLog.id c)) (claimSet (clock w))
       (sql_update (fun r => String.eqb (CallLog.id r) (CallLog.id c))
          (CallLogUpdates.set updates) (callLogs w)))
    (restaurants w) (agentConfigurations w) (users w) (usageRecords w)
    (subscriptionPrices w) (menuOverrides w) (stripeSubscriptions w)
    (stripeMeterEvents w) (clock w) (uuidCounter w)
    ((UpdateCallLogs, true) :: (UpdateCallLogs, true) :: t)
    (ConsoleLog "Updated call log with status" :: ConsoleLog "Status callback" :: console w)
    (env w).

(** The world after the handler has recorded the usage of a claimed call
    from [W] for the account [user] of [billingUserId]: the agent was read,
    the call entry written and reported, then the minute entry if there are
    minutes. *)
Definition recordedWorld (billingUserId restaurantId : string) (minutes : Js.number)
    (user : User.t) (W : World) : World :=
  let w1 :=
    snd (stripeService.reportOveragesToStripe billingUserId
           (usageWritten billingUserId restaurantId call 1 user
              (set_trace ((SelectAgentConfigurations, true) :: trace W) W))) in
  let w2 :=
    match minutes with
    | Js.Num m =>
        if 0 <? m
        then snd (stripeService.reportOveragesToStripe billingUserId
                    (usageWritten billingUserId restaurantId minute m
                       (stripeService.incrementUsage call 1 user) w1))
        else w1
    | Js.NaN => w1
    end in
  set_console (ConsoleLog "Recorded usage for agent" :: console w2) w2.

(** The provider cannot be reached: retrieving the subscription always
    fails, or creating a meter event always fails. *)
Definition providerDown (w : World) : Prop :=
  (forall n, faults (env w) StripeSubscriptionsRetrieve n = true)
  \/ (forall n, faults (env w) StripeMeterEventsCreate n = true).

(** A ledger entry that has not been reported. *)
Definition unreportedEntry (r : UsageRecord.t) : Prop :=
  UsageRecord.reportedToStripe r = Some false /\ UsageRecord.stripeUsageRecordId r = None.

(** The errors logged on the console. *)
Definition consoleErrors (l : list LogEntry) : list LogEntry :=
  List.filter isConsoleError l.

(** * Accounts, agents, menu overrides, polling, tools, opening hours *)

(** ** DatabaseStorage and StripeService: accounts, agents, menu overrides *)

Module AgentUpdates.
(** [Partial<AgentConfiguration>] with the columns that the wait-time
    tool writes: a field is [None] when the property is absent;
    [resetWaitTimeAt := Some None] writes NULL. *)
Record t : Type := mk {
  waitTimeMinutes : option Z;
  resetWaitTimeAt : option (option Z);
}.

(** [{ ...config, updatedAt: now }] *)
Definition set (config : t) (now : Z) (a : AgentConfiguration.t) : AgentConfiguration.t :=
  AgentConfiguration.mk
    (AgentConfiguration.id a)
    (AgentConfiguration.restaurantId a)
    (AgentConfiguration.billingUserId a)
    (AgentConfiguration.mode a)
    (match waitTimeMinutes config with
     | Some m => m
     | None => AgentConfiguration.waitTimeMinutes a
     end)
    (AgentConfiguration.defaultWaitTimeMinutes a)
    (match resetWaitTimeAt config with
     | Some v => v
     | None => AgentConfiguration.resetWaitTimeAt a
     end)
    (AgentConfiguration.menuOverrides a)
    (Some now)
    (AgentConfiguration.otherColumns a).
End AgentUpdates.

Module DatabaseStorage.

Definition getUserByStripeCustomerId (stripeCustomerId : string) : M (option User.t) :=
  perform SelectUsers >>
  let* rows := gets (fun w =>
    List.filter (fun u => eqText (User.stripeCustomerId u) stripeCustomerId) (users w)) in
  ret (head rows).

(** [cutoffTime] is [Date.now() - minutes * 60 * 1000]; a row whose
    created_at is NULL is older than nothing. *)
Definition getInProgressCallsOlderThan (minutes : Z) : M (list CallLog.t) :=
  let* now := newDate in
  let cutoffTime := now - minutes * 60 * 1000 in
  perform SelectCallLogs >>
  gets (fun w =>
    List.filter (fun c =>
      bool_decide (CallLog.status c = in_progress) &&
      match CallLog.createdAt c with
      | Some t => t <? cutoffTime
      | None => false
      end)
      (callLogs w)).

Definition getRestaurant (id : string) : M (option Restaurant.t) :=
  perform SelectRestaurants >>
  let* rows := gets (fun w =>
    List.filter (fun r => String.eqb (Restaurant.id r) id) (restaurants w)) in
  ret (head rows).

Definition getAgentConfigurationById (id : string) : M (option AgentConfiguration.t) :=
  perform SelectAgentConfigurations >>
  let* rows := gets (fun w =>
    List.filter (fun a => String.eqb (AgentConfiguration.id a) id) (agentConfigurations w)) in
  ret (head rows).

Definition updateAgentConfigurationById (id : string) (config : AgentUpdates.t)
  : M (option AgentConfiguration.t) :=
  let* now := newDate in
  perform UpdateAgentConfigurations >>
  let where_ := fun a => String.eqb (AgentConfiguration.id a) id in
  let* updated := gets (fun w =>
    sql_returning where_ (AgentUpdates.set config now) (agentConfigurations w)) in
  modify (fun w =>
    set_agentConfigurations
      (sql_update where_ (AgentUpdates.set config now) (agentConfigurations w)) w) >>
  ret (head updated).

(** SET content, reset_at, last_modified_by, last_modified_at = now *)
Definition editMenuOverride (content : string) (resetAt : option Z) (lastModifiedBy : string)
    (now : Z) (o : MenuOverride.t) : MenuOverride.t :=
  MenuOverride.mk
    (MenuOverride.id o)
    (MenuOverride.agentConfigurationId o)
    content
    resetAt
    (MenuOverride.status o)
    lastModifiedBy
    now
    (MenuOverride.createdAt o).

Definition updateMenuOverride (id content : string) (resetAt : option Z)
    (lastModifiedBy : string) : M (option MenuOverride.t) :=
  let* now := newDate in
  perform UpdateMenuOverrides >>
  let where_ := fun o => String.eqb (MenuOverride.id o) id in
  let set := editMenuOverride content resetAt lastModifiedBy now in
  let* updated := gets (fun w => sql_returning where_ set (menuOverrides w)) in
  modify (fun w => set_menuOverrides (sql_update where_ set (menuOverrides w)) w) >>
  ret (head updated).

(** SET status = 'deleted'; the result is [(result.rowCount ?? 0) > 0]. *)
Definition softDeleteMenuOverride (id : string) : M bool :=
  perform UpdateMenuOverrides >>
  let where_ := fun o => String.eqb (MenuOverride.id o) id in
  let* rowCount := gets (fun w => length (List.filter where_ (menuOverrides w))) in
  modify (fun w =>
    set_menuOverrides
      (sql_update where_ MenuOverrideResetScheduler.set (menuOverrides w)) w) >>
  ret (0 <? rowCount)%nat.

End DatabaseStorage.

Module StripeService.

(** SET monthly_calls_used = 0, monthly_minutes_used = 0 *)
Definition resetCounters (u : User.t) : User.t :=
  User.mk (User.id u) (User.stripeCustomerId u) (User.stripeSubscriptionId u)
    (User.subscriptionPlan u) (User.billingCycleStart u) (Some 0) (Some 0).

Definition resetMonthlyUsage (userId : string) : M unit :=
  perform UpdateUsers >>
  modify (fun w =>
    set_users
      (sql_update (fun u => String.eqb (User.id u) userId) resetCounters (users w)) w).

End StripeService.

(** ** routes: POST /api/billing/webhook, case "invoice.created"

    The handling of a verified event of type invoice.created for the
    customer [customerIdForReset]; the result is the status code of the
    response. *)

Module billingWebhook.

Definition invoiceCreated (customerIdForReset : string) : M Z :=
  try_catch
    (let* userForReset := DatabaseStorage.getUserByStripeCustomerId customerIdForReset in
     match userForReset with
     | Some userForReset => StripeService.resetMonthlyUsage (User.id userForReset)
     | None => ret tt
     end >>
     ret 200)
    (fun error =>
       console_error "Error handling webhook:" error >>
       ret 500).

End billingWebhook.

(** ** The Twilio REST API as seen by the code

    [twilioClient.calls(sid).fetch()] answers with the call resource or
    throws an error that carries the HTTP status, if there was one.  The
    client is a parameter of the polling service. *)

Module Twilio.

Record CallInstance : Type := mkCallInstance {
  status : string;
  duration : option string;
}.

Inductive FetchResult : Type :=
| Fetched (twilioCall : CallInstance)
| Rejected (status : option Z) (message : string).

Definition Client : Type := string -> FetchResult.

End Twilio.

(** ** TwilioPollingService *)

Module TwilioPollingService.

(** [['completed', 'failed', 'busy', 'no-answer', 'canceled'].includes(twilioStatus)] *)
Definition isFinal (twilioStatus : string) : bool :=
  existsb (String.eqb twilioStatus) ["completed"; "failed"; "busy"; "no-answer"; "canceled"].

Definition shouldUpdateCallStatus (currentStatus : CallLogStatus) (twilioStatus : string)
  : bool :=
  if isFinal twilioStatus then
    negb (bool_decide (currentStatus = completed))
    && negb (bool_decide (currentStatus = failed))
  else if bool_decide (currentStatus = in_progress)
          && existsb (String.eqb twilioStatus) ["queued"; "ringing"; "in-progress"]
  then false
  else false.

(** [{ lastPolledAt: new Date() }] *)
Definition onlyPolled (now : Z) : CallLogUpdates.t :=
  CallLogUpdates.mk None (Some now) None None None.

(** The [updates] object of a call whose status is to be updated. *)
Definition buildUpdates (callLog : CallLog.t) (twilioCall : Twilio.CallInstance) (now : Z)
  : CallLogUpdates.t :=
  if isFinal (Twilio.status twilioCall) then
    CallLogUpdates.mk
      (Some (if String.eqb (Twilio.status twilioCall) "completed" then completed else failed))
      (Some now)
      (if Js.truthy (Twilio.duration twilioCall)
          && negb (routes.truthyInt (CallLog.duration callLog))
       then Some (Js.parseInt (default "" (Twilio.duration twilioCall)))
       else None)
      None None
  else onlyPolled now.

(** The [catch] of the loop body; [errorStatus] is [error.status]. *)
Definition pollFailed (callLog : CallLog.t) (updatedCount : nat)
    (errorStatus : option Z) (error : Error) : M nat :=
  console_error "Error polling Twilio for call" error >>
  let* now := newDate in
  storage.updateCallLog (CallLog.id callLog) (onlyPolled now) >>
  if bool_decide (errorStatus = Some 404) then
    let* now := newDate in
    storage.updateCallLog (CallLog.id callLog)
      (CallLogUpdates.mk (Some failed) (Some now) None None None) >>
    console_log "Call not found in Twilio - marked as failed" >>
    ret (S updatedCount)
  else ret updatedCount.

(** The body of the [for] loop; returns the new [updatedCount]. *)
Definition pollCall (twilioClient : Twilio.Client) (callLog : CallLog.t) (updatedCount : nat)
  : M nat :=
  if negb (Js.truthy (CallLog.twilioCallSid callLog)) then
    console_log "Skipping call - no Twilio CallSid available" >>
    ret updatedCount
  else
    match twilioClient (default "" (CallLog.twilioCallSid callLog)) with
    | Twilio.Rejected status message => pollFailed callLog updatedCount status (JsError message)
    | Twilio.Fetched twilioCall =>
        try_catch
          (console_log "Twilio call status" >>
           if shouldUpdateCallStatus (CallLog.status callLog) (Twilio.status twilioCall) then
             let* now := newDate in
             storage.updateCallLog (CallLog.id callLog) (buildUpdates callLog twilioCall now) >>
             console_log "Updated call with status" >>
             ret (S updatedCount)
           else
             let* now := newDate in
             storage.updateCallLog (CallLog.id callLog) (onlyPolled now) >>
             console_log "Polled call - status unchanged" >>
             ret updatedCount)
          (pollFailed callLog updatedCount None)
    end.

Fixpoint pollCalls (twilioClient : Twilio.Client) (staleCalls : list CallLog.t)
    (updatedCount : nat) : M nat :=
  match staleCalls with
  | [] => ret updatedCount
  | callLog :: rest =>
      let* updatedCount := pollCall twilioClient callLog updatedCount in
      pollCalls twilioClient rest updatedCount
  end.

Definition pollStaleInProgressCalls (twilioClient : Twilio.Client) (ageMinutes : Z) : M nat :=
  console_log "Polling Twilio for in-progress calls older than" >>
  try_catch
    (let* staleCalls := DatabaseStorage.getInProgressCallsOlderThan ageMinutes in
     if (length staleCalls =? 0)%nat then
       console_log "No stale in-progress calls found" >>
       ret 0%nat
     else
       console_log "Found stale in-progress calls to check" >>
       let* updatedCount := pollCalls twilioClient staleCalls 0 in
       console_log "Polling complete." >>
       ret updatedCount)
    (fun error =>
       console_error "Error during Twilio polling:" error >>
       throw error).

End TwilioPollingService.

(** ** mcp-server: the tool update_wait_time

    [Date_getTime s] is [new Date(s).getTime()], NaN when [s] is not a
    date; it is a parameter.  The result is the object of the response
    text without its [success] and [message] properties; the message
    prints the reset time in the locale of the server. *)

Module WaitTimeResult.
Record t : Type := mk {
  agentName : string;
  waitTimeMinutes : Z;
  defaultWaitTimeMinutes : Z;
  resetWaitTimeAt : option Z;
}.
End WaitTimeResult.

Module mcpServer.

(** [z.number().min(0).max(120)] on an integer *)
Definition updateWaitTimeSchema (waitTimeMinutes : Z) : bool :=
  (0 <=? waitTimeMinutes) && (waitTimeMinutes <=? 120).

(** The [updateData] object; [resetWaitTimeAt] is [None] when the
    argument is undefined. *)
Definition updateData (Date_getTime : string -> Js.number) (waitTimeMinutes : Z)
    (resetWaitTimeAt : option string) : M AgentUpdates.t :=
  match resetWaitTimeAt with
  | None => ret (AgentUpdates.mk (Some waitTimeMinutes) None)
  | Some s =>
      if Js.truthy (Some s) then
        match Date_getTime s with
        | Js.NaN => throw (JsError "Invalid resetWaitTimeAt timestamp")
        | Js.Num resetDate =>
            let* now := newDate in
            if resetDate <=? now
            then throw (JsError "resetWaitTimeAt must be a future time")
            else ret (AgentUpdates.mk (Some waitTimeMinutes) (Some (Some resetDate)))
        end
      else ret (AgentUpdates.mk (Some waitTimeMinutes) (Some None))
  end.

(** [restaurant?.name || "Unknown Agent"] *)
Definition agentNameOf (restaurant : option Restaurant.t) : string :=
  match restaurant with
  | Some r => if Js.truthy (Some (Restaurant.name r)) then Restaurant.name r
              else "Unknown Agent"
  | None => "Unknown Agent"
  end.

(** The case of the tool, from the parse of its arguments to the response.
    [agent!.restaurantId] throws a TypeError when no row was read. *)
Definition update_wait_time (Date_getTime : string -> Js.number) (agentId : string)
    (waitTimeMinutes : Z) (resetWaitTimeAt : option string)
  : M WaitTimeResult.t :=
  if updateWaitTimeSchema waitTimeMinutes then
    let* updateData := updateData Date_getTime waitTimeMinutes resetWaitTimeAt in
    DatabaseStorage.updateAgentConfigurationById agentId updateData >>
    let* agent := DatabaseStorage.getAgentConfigurationById agentId in
    match agent with
    | None => throw (JsError "Cannot read properties of undefined (reading 'restaurantId')")
    | Some agent =>
        let* restaurant :=
          DatabaseStorage.getRestaurant (AgentConfiguration.restaurantId agent) in
        ret (WaitTimeResult.mk
               (agentNameOf restaurant)
               (AgentConfiguration.waitTimeMinutes agent)
               (AgentConfiguration.defaultWaitTimeMinutes agent)
               (AgentConfiguration.resetWaitTimeAt agent))
    end
  else throw (JsError "ZodError").

End mcpServer.

(** ** routes: POST /api/check-restaurant-open, the helpers

    A Date is its time value, an integer number of milliseconds; the
    divisions by 60000 are exact floors for the time values a Date can
    hold.  The regular expression of parseTwelveHourIntervals is written
    out as the backtracking matcher it denotes. *)

Module checkRestaurantOpen.

(** [\d] *)
Definition isDigit (c : ascii) : bool :=
  let n := N_of_ascii c in ((48 <=? n) && (n <=? 57))%N.

Definition digit (c : ascii) : Z := Z.of_N (N_of_ascii c) - 48.

(** [minutes.toString().padStart(2, '0')] *)
Definition padStart2 (s : string) : string :=
  match String.length s with
  | O => "00"
  | S O => "0" +:+ s
  | _ => s
  end.

Definition formatTimeWithOffset (getTime offsetMinutes : Z) : string :=
  let utcMinutes := getTime / 60000 in
  let localMinutes := utcMinutes + offsetMinutes in
  let minutesInDay := 24 * 60 in
  let localMinutes := Z.rem (Z.rem localMinutes minutesInDay + minutesInDay) minutesInDay in
  let hours := localMinutes / 60 in
  let minutes := Z.rem localMinutes 60 in
  let suffix := if 12 <=? hours then "PM" else "AM" in
  let hours := Z.rem hours 12 in
  let hours := if hours =? 0 then 12 else hours in
  pretty hours +:+ ":" +:+ padStart2 (pretty minutes) +:+ " " +:+ suffix.

(** [(am|pm)] with the flag [i]; [true] is pm. *)
Definition meridianAt (s : list ascii) : option (bool * list ascii) :=
  match s with
  | c1 :: c2 :: rest =>
      if Ascii.eqb c2 "m" || Ascii.eqb c2 "M" then
        if Ascii.eqb c1 "a" || Ascii.eqb c1 "A" then Some (false, rest)
        else if Ascii.eqb c1 "p" || Ascii.eqb c1 "P" then Some (true, rest)
        else None
      else None
  | _ => None
  end.

Fixpoint skipWhiteSpace (s : list ascii) : list ascii :=
  match s with
  | c :: rest => if Js.isWhiteSpace c then skipWhiteSpace rest else s
  | [] => []
  end.

(** [\s*(am|pm)]: the meridian can only follow all of the white space. *)
Definition meridianAfterSpace (s : list ascii) : option (bool * list ascii) :=
  meridianAt (skipWhiteSpace s).

(** [(?::(\d{2}))?\s*(am|pm)]: with the minutes first, then without. *)
Definition afterHour (s : list ascii) : option (option Z * bool * list ascii) :=
  let without :=
    match meridianAfterSpace s with
    | Some (pm, rest) => Some (None, pm, rest)
    | None => None
    end in
  match s with
  | c :: m1 :: m2 :: r =>
      if Ascii.eqb c ":" && isDigit m1 && isDigit m2 then
        match meridianAfterSpace r with
        | Some (pm, rest) => Some (Some (10 * digit m1 + digit m2), pm, rest)
        | None => without
        end
      else without
  | _ => without
  end.

(** The whole pattern at the start of [s], two digits of hour first, then
    one: hour, minute, meridian and what follows the match. *)
Definition matchAt (s : list ascii) : option (Z * option Z * bool * list ascii) :=
  match s with
  | d1 :: r1 =>
      if isDigit d1 then
        let one :=
          match afterHour r1 with
          | Some (minute_, pm, rest) => Some (digit d1, minute_, pm, rest)
          | None => None
          end in
        match r1 with
        | d2 :: r2 =>
            if isDigit d2 then
              match afterHour r2 with
              | Some (minute_, pm, rest) => Some (10 * digit d1 + digit d2, minute_, pm, rest)
              | None => one
              end
            else one
        | [] => one
        end
      else None
  | [] => None
  end.

(** The body of the [while]: the time of a match in minutes. *)
Definition minutesOf (hour : Z) (minute_ : option Z) (pm : bool) : Z :=
  let hour :=
    if hour =? 12 then (if pm then 12 else 0)
    else if pm then hour + 12
    else hour in
  hour * 60 + default 0 minute_.

(** The [while ((match = regex.exec(input)))] loop; [skip] characters
    belong to the last match. *)
Fixpoint timesInMinutes (s : list ascii) (skip : nat) : list Z :=
  match s with
  | [] => []
  | _ :: rest =>
      match skip with
      | S k => timesInMinutes rest k
      | O =>
          match matchAt s with
          | Some (hour, minute_, pm, after) =>
              minutesOf hour minute_ pm
              :: timesInMinutes rest (length s - length after - 1)
          | None => timesInMinutes rest 0
          end
      end
  end.

(** The [for (let i = 0; i + 1 < timesInMinutes.length; i += 2)] loop. *)
Fixpoint intervalsOf (times : list Z) : list (Z * Z) :=
  match times with
  | start :: end_ :: rest =>
      if start <? end_ then (start, end_) :: intervalsOf rest else intervalsOf rest
  | _ => []
  end.

Definition parseTwelveHourIntervals (input : string) : option (list (Z * Z)) :=
  let times := timesInMinutes (list_ascii_of_string input) 0 in
  if (length times <? 2)%nat then None
  else
    match intervalsOf times with
    | [] => None
    | intervals => Some intervals
    end.

(** [new Date(value)]: invalid beyond 8.64e15 milliseconds from the epoch. *)
Definition newDateOf (value : Z) : Js.number :=
  if (-8640000000000000 <=? value) && (value <=? 8640000000000000)
  then Js.Num value else Js.NaN.

(** [Date.UTC(base.getUTCFullYear(), base.getUTCMonth(), base.getUTCDate())]:
    the start of the UTC day of [base].  Date.UTC reads the years 0 to 99
    as 1900 to 1999; dates before the year 100 are left out ([None]). *)
Definition utcMidnight (base : Z) : option Z :=
  if -59011459200000 <=? base then Some (86400000 * (base / 86400000)) else None.

Definition createDateFromMinutes (base offsetMinutes minutes : Z) : option Js.number :=
  match utcMidnight base with
  | Some utcMidnight =>
      let localMidnightUtc := utcMidnight - offsetMinutes * 60000 in
      Some (newDateOf (localMidnightUtc + minutes * 60000))
  | None => None
  end.

(** [a <= b] on two dates: false when one of them is invalid. *)
Definition dateLe (a b : Js.number) : bool :=
  match a, b with
  | Js.Num x, Js.Num y => x <=? y
  | _, _ => false
  end.

(** The [for (const [startMinutes, endMinutes] of intervals)] loop:
    [matchingClosingTime], [None] when the kitchen is closed. *)
Fixpoint matchingClosingTime (now : Z) (pickupTime : Js.number) (inputOffsetMinutes : Z)
    (intervals : list (Z * Z)) : option (option Js.number) :=
  match intervals with
  | [] => Some None
  | (startMinutes, endMinutes) :: rest =>
      match createDateFromMinutes now inputOffsetMinutes startMinutes,
            createDateFromMinutes now inputOffsetMinutes endMinutes with
      | Some startTime, Some endTime =>
          if dateLe startTime pickupTime && dateLe pickupTime endTime
          then Some (Some endTime)
          else matchingClosingTime now pickupTime inputOffsetMinutes rest
      | _, _ => None
      end
  end.

End checkRestaurantOpen.

(** ** Vocabulary of the further statements *)

(** The ledger, the counters of the accounts, the provider and the claim
    timestamps of the call logs are as before. *)
Definition billingUntouched (w w' : World) : Prop :=
  usageRecords w' = usageRecords w
  /\ users w' = users w
  /\ noProviderCall w w'
  /\ map CallLog.usageRecordedAt (callLogs w') = map CallLog.usageRecordedAt (callLogs w).

(** ** Frame conditions

    [keeps R m]: whatever [m] returns or throws, the world it leaves is
    related by [R] to the world it started from. *)
Definition keeps {A} (R : World -> World -> Prop) (m : M A) : Prop :=
  forall w, R w (snd (m w)).

(** A relation between worlds that can be carried through a run: it is a
    preorder and it ignores the trace and the console. *)
Class Frame (R : World -> World -> Prop) : Prop := {
  frame_refl : forall w, R w w;
  frame_trans : forall w1 w2 w3, R w1 w2 -> R w2 w3 -> R w1 w3;
  frame_trace : forall w t, R w (set_trace t w);
  frame_console : forall w l, R w (set_console l w);
}.

(** call_logs has the same rows in the same order, and only rows with this
    id may have changed. *)
Definition onlyCallLog (id : string) (w w' : World) : Prop :=
  Forall2 (fun r r' => CallLog.id r' = CallLog.id r /\ (CallLog.id r <> id -> r' = r))
    (callLogs w) (callLogs w').

(** Environments in which one write of recordUsage fails: the UPDATE of the
    counters always, or the second INSERT into the ledger. *)
Definition countersDown : Env := mkEnv (Sample.down UpdateUsers) (fun _ => None).

Definition secondInsertFails : Env :=
  mkEnv (fun op n => bool_decide (op = InsertUsageRecords) && (n =? 1)%nat) (fun _ => None).

(** The account that the webhook finds for a customer. *)
Definition customerAccount (stripeCustomerId : string) (w : World) : option User.t :=
  head (List.filter (fun u => eqText (User.stripeCustomerId u) stripeCustomerId) (users w)).

(** users has the same rows in the same order, and only rows with this id
    may have changed. *)
Definition onlyAccount (id : string) (rows rows' : list User.t) : Prop :=
  Forall2 (fun u u' => User.id u' = User.id u /\ (User.id u <> id -> u' = u)) rows rows'.

(** The included allowances of every plan are not negative. *)
Definition allowancesNonNegative (w : World) : Prop :=
  Forall (fun p => 0 <= Js.orZero (SubscriptionPrice.includedCalls p)
                   /\ 0 <= Js.orZero (SubscriptionPrice.includedMinutes p))
    (subscriptionPrices w).

(** The counter of an account for a kind of usage. *)
Definition counterOf (type : UsageType) (u : User.t) : option Z :=
  match type with
  | call => User.monthlyCallsUsed u
  | minute => User.monthlyMinutesUsed u
  end.

(** The quantity that the ledger holds for an account and a kind. *)
Definition ledgerTotal (userId : string) (type : UsageType) (rows : list UsageRecord.t) : Z :=
  fold_right Z.add 0
    (map UsageRecord.quantity
       (List.filter (fun r => String.eqb (UsageRecord.userId r) userId
                              && bool_decide (UsageRecord.type r = type)) rows)).

(** The increments of the counters that the handler makes for a call. *)
Definition billCall (minutes : Js.number) (u : User.t) : User.t :=
  match minutes with
  | Js.Num m =>
      if 0 <? m
      then stripeService.incrementUsage minute m (stripeService.incrementUsage call 1 u)
      else stripeService.incrementUsage call 1 u
  | Js.NaN => stripeService.incrementUsage call 1 u
  end.

(** The WHERE of getAgentsNeedingWaitTimeReset and of
    getOverridesNeedingAutoDelete at the time [now]. *)
Definition waitTimeDue (now : Z) (a : AgentConfiguration.t) : bool :=
  negb (isNull (AgentConfiguration.resetWaitTimeAt a)) &&
  match AgentConfiguration.resetWaitTimeAt a with
  | Some t => t <=? now
  | None => false
  end.

Definition overrideDue (now : Z) (o : MenuOverride.t) : bool :=
  bool_decide (MenuOverride.status o = active) &&
  negb (isNull (MenuOverride.resetAt o)) &&
  match MenuOverride.resetAt o with
  | Some t => t <=? now
  | None => false
  end.

(** No request writes to the table while the sweeper runs. *)
Definition noOthers {A} : nat -> list A -> list A := fun _ rows => rows.

(** What polling leaves alone: the ledger, the accounts, the provider's
    events and the claim of every call log; and it puts no call back to
    in-progress. *)
Definition pollingFrame (w w' : World) : Prop :=
  usageRecords w' = usageRecords w
  /\ users w' = users w
  /\ stripeMeterEvents w' = stripeMeterEvents w
  /\ Forall2 (fun r r' =>
                CallLog.id r' = CallLog.id r
                /\ CallLog.usageRecordedAt r' = CallLog.usageRecordedAt r
                /\ (CallLog.status r' = in_progress -> CallLog.status r = in_progress))
       (callLogs w) (callLogs w').

(** The environment and the clock are as before. *)
Definition sameEnv (w w' : World) : Prop := env w' = env w /\ clock w' = clock w.

(** Twilio reports that the call has ended with an answer the row can take,
    or does not know the call. *)
Definition ended (twilioClient : Twilio.Client) (callLog : CallLog.t) (now : Z) : Prop :=
  match twilioClient (default "" (CallLog.twilioCallSid callLog)) with
  | Twilio.Fetched twilioCall =>
      TwilioPollingService.isFinal (Twilio.status twilioCall) = true
      /\ CallLogUpdates.accepted (TwilioPollingService.buildUpdates callLog twilioCall now)
         = true
  | Twilio.Rejected status _ => status = Some 404
  end.

(** A Twilio account in which every call has been answered and has lasted
    61 seconds. *)
Definition allCompleted : Twilio.Client :=
  fun _ => Twilio.Fetched (Twilio.mkCallInstance "completed" (Some "61")).

(** A clock-reading of dates for the examples: decimal milliseconds. *)
Definition millis (s : string) : Js.number := Js.parseInt s.

(* ===================================================================== *)
(** * Lemmas and theorems *)

(** ** The JS primitives and the sweepers on sample inputs *)

Example parseInt_digits : Js.parseInt "61" = Js.Num 61.
Proof. reflexivity. Qed.

Example parseInt_stops_at_non_digit : Js.parseInt "  12.7s" = Js.Num 12.
Proof. reflexivity. Qed.

Example parseInt_sign_and_hex : Js.parseInt "-0x1f" = Js.Num (-31).
Proof. reflexivity. Qed.

Example parseInt_no_digit : Js.parseInt "n/a" = Js.NaN.
Proof. reflexivity. Qed.

Example Number_blank : Js.Number_ "" = Js.Num 0 /\ Js.Number_ " 42 " = Js.Num 42.
Proof. split; reflexivity. Qed.

Example ceilDiv60_samples :
  map Js.ceilDiv60 [Js.Num 0; Js.Num 1; Js.Num 60; Js.Num 61; Js.Num (-30); Js.NaN]
  = [Js.Num 0; Js.Num 1; Js.Num 1; Js.Num 2; Js.Num 0; Js.NaN].
Proof. reflexivity. Qed.

Example capitalize_plan : stripeService.capitalize "starter" = "Starter".
Proof. reflexivity. Qed.

(** A NaN duration is refused by the database: the handler answers 500 and
    the call log keeps its status. *)
Example statusCallback_refused_duration :
  let r := routes.statusCallback "rest1" (Sample.completedCallback "n/a")
             (Sample.world Sample.healthy Sample.user) in
  fst r = Ok (routes.mkResponse 500 "Error")
  /\ map CallLog.status (callLogs (snd r)) = [in_progress].
Proof. split; vm_compute; reflexivity. Qed.

(** With no concurrent writer the due wait time is reset to the default. *)
Example checkAndResetWaitTimes_resets_due_agent :
  let r := WaitTimeResetScheduler.checkAndResetWaitTimes (fun _ rows => rows)
             (Sample.world Sample.healthy Sample.user) in
  fst r = Ok 1%nat
  /\ map (fun a => (AgentConfiguration.waitTimeMinutes a, AgentConfiguration.resetWaitTimeAt a))
       (agentConfigurations (snd r)) = [(30, None)].
Proof. split; vm_compute; reflexivity. Qed.

(** With a user edit between the read and the write, the edit stays. *)
Example checkAndResetWaitTimes_keeps_concurrent_edit :
  let r := WaitTimeResetScheduler.checkAndResetWaitTimes (fun _ => map Sample.editWaitTime)
             (Sample.world Sample.healthy Sample.user) in
  fst r = Ok 0%nat
  /\ agentConfigurations (snd r) = [Sample.editWaitTime Sample.agent]
  /\ consoleErrors (console (snd r)) = [].
Proof. repeat split; vm_compute; reflexivity. Qed.

Example checkAndDeleteExpiredOverrides_keeps_concurrent_edit :
  let r := MenuOverrideResetScheduler.checkAndDeleteExpiredOverrides
             (fun _ => map Sample.editOverride)
             (Sample.world Sample.healthy Sample.user) in
  fst r = Ok 0%nat
  /\ menuOverrides (snd r) = [Sample.editOverride Sample.override].
Proof. repeat split; vm_compute; reflexivity. Qed.

(** ** Running the primitives *)

Lemma perform_executes (op : Op) (w : World) :
  executes w op ->
  perform op w = (Ok tt, set_trace ((op, true) :: trace w) w).
Proof. unfold executes, perform. intros ->. reflexivity. Qed.

Lemma perform_nextFails (op : Op) (w : World) :
  nextFails w op ->
  perform op w = (Throw (OpFailed op), set_trace ((op, false) :: trace w) w).
Proof. unfold nextFails, perform. intros ->. reflexivity. Qed.

(** ** The claim (markUsageRecorded) *)

Section Claim.
Variable id : string.
Variable now : Z.

Let where_ := fun c => String.eqb (CallLog.id c) id && isNull (CallLog.usageRecordedAt c).
Let set := CallLogUpdates.set (CallLogUpdates.only_usageRecordedAt (Some now)).

Lemma returning_unclaimed (rows : list CallLog.t) :
  bool_decide (is_Some (head (sql_returning where_ set rows))) = unclaimed id rows.
Proof.
  unfold sql_returning, unclaimed. subst where_.
  induction rows as [|c rows IH]; [reflexivity|].
  simpl.
  destruct (String.eqb (CallLog.id c) id && isNull (CallLog.usageRecordedAt c));
    simpl; [reflexivity | exact IH].
Qed.

Lemma claimed_after_update (rows : list CallLog.t) :
  unclaimed id (sql_update where_ set rows) = false.
Proof.
  unfold sql_update, unclaimed. subst where_.
  induction rows as [|c rows IH]; [reflexivity|].
  simpl. rewrite IH, orb_false_r.
  destruct (String.eqb (CallLog.id c) id && isNull (CallLog.usageRecordedAt c)) eqn:Hc.
  - unfold set, CallLogUpdates.set; simpl. apply andb_false_r.
  - exact Hc.
Qed.

Lemma update_sets_timestamp (rows : list CallLog.t) :
  Forall (fun c => CallLog.id c = id -> CallLog.usageRecordedAt c <> None)
    (sql_update where_ set rows).
Proof.
  unfold sql_update. subst where_. apply List.Forall_forall. intros c Hin.
  apply in_map_iff in Hin as [c0 [<- _]]. intros Hid.
  destruct (String.eqb (CallLog.id c0) id && isNull (CallLog.usageRecordedAt c0)) eqn:Hc.
  - discriminate.
  - rewrite Hid, String.eqb_refl in Hc. simpl in Hc.
    destruct (CallLog.usageRecordedAt c0); discriminate.
Qed.
End Claim.

Lemma markUsageRecorded_run (id : string) (w : World) :
  executes w UpdateCallLogs ->
  storage.markUsageRecorded id w =
    (Ok (unclaimed id (callLogs w)),
     set_callLogs
       (sql_update
          (fun c => String.eqb (CallLog.id c) id && isNull (CallLog.usageRecordedAt c))
          (CallLogUpdates.set (CallLogUpdates.only_usageRecordedAt (Some (clock w))))
          (callLogs w))
       (set_trace ((UpdateCallLogs, true) :: trace w) w)).
Proof.
  intros Hex. unfold storage.markUsageRecorded, bind, newDate, gets, modify, ret.
  rewrite (perform_executes _ _ Hex). simpl.
  rewrite returning_unclaimed. reflexivity.
Qed.

Lemma markUsageRecorded_faulted (id : string) (w : World) :
  nextFails w UpdateCallLogs ->
  storage.markUsageRecorded id w =
    (Throw (OpFailed UpdateCallLogs), set_trace ((UpdateCallLogs, false) :: trace w) w).
Proof.
  intros Hf. unfold storage.markUsageRecorded, bind, newDate, gets.
  rewrite (perform_nextFails _ _ Hf). reflexivity.
Qed.

Lemma executes_or_nextFails (w : World) (op : Op) : executes w op \/ nextFails w op.
Proof.
  unfold executes, nextFails.
  destruct (faults (env w) op (occurrences op (trace w))); auto.
Qed.

Lemma claims_after_claimed (others : nat -> World -> World) (id : string) :
  (forall k w, unclaimed id (callLogs (others k w)) = unclaimed id (callLogs w)) ->
  (forall k w, env (others k w) = env w) ->
  forall n k w,
    reliable w UpdateCallLogs ->
    unclaimed id (callLogs w) = false ->
    fst (claims others id k n w) = repeat (Ok false) n.
Proof.
  intros Hkeep Henv. induction n as [|n IH]; intros k w Hrel Hcl; [reflexivity|].
  simpl.
  assert (Hex : executes (others k w) UpdateCallLogs).
  { unfold executes. rewrite Henv. apply Hrel. }
  rewrite (markUsageRecorded_run _ _ Hex), Hkeep, Hcl.
  match goal with |- context [claims others id (S k) n ?w1] =>
    specialize (IH (S k) w1); destruct (claims others id (S k) n w1) as [rs w2] end.
  simpl in *. rewrite IH; [reflexivity | |].
  - intros m. simpl. rewrite Henv. apply Hrel.
  - simpl. apply claimed_after_update.
Qed.

(** C1.  One invocation of markUsageRecorded returns true exactly when its
    conditional write is executed and finds the usage-recorded timestamp of
    the record null; when the write is executed the result is that boolean,
    and after a true return every row with this id has a non-null
    timestamp.  Hence, in a sequence of invocations on one id during which
    nothing else changes whether the record is claimed (no rollback) and
    every write is executed, starting from an unclaimed record, the first
    invocation returns true and all the others return false. *)
Theorem markUsageRecorded_claims_exactly_once (id : string) :
  (forall w,
     fst (storage.markUsageRecorded id w) = Ok true <->
     executes w UpdateCallLogs /\ unclaimed id (callLogs w) = true)
  /\ (forall w,
        executes w UpdateCallLogs ->
        fst (storage.markUsageRecorded id w) = Ok (unclaimed id (callLogs w)))
  /\ (forall w,
        fst (storage.markUsageRecorded id w) = Ok true ->
        Forall (fun c => CallLog.id c = id -> CallLog.usageRecordedAt c <> None)
          (callLogs (snd (storage.markUsageRecorded id w))))
  /\ (forall (others : nat -> World -> World) (n : nat) (w : World),
        (forall k w, unclaimed id (callLogs (others k w)) = unclaimed id (callLogs w)) ->
        (forall k w, env (others k w) = env w) ->
        reliable w UpdateCallLogs ->
        unclaimed id (callLogs w) = true ->
        fst (claims others id 0 (S n) w) = Ok true :: repeat (Ok false) n).
Proof.
  repeat split.
  - destruct (executes_or_nextFails w UpdateCallLogs) as [Hex|Hf]; [exact Hex|].
    rewrite (markUsageRecorded_faulted _ _ Hf) in H. discriminate.
  - destruct (executes_or_nextFails w UpdateCallLogs) as [Hex|Hf].
    + rewrite (markUsageRecorded_run _ _ Hex) in H. simpl in H. congruence.
    + rewrite (markUsageRecorded_faulted _ _ Hf) in H. discriminate.
  - intros [Hex Hun]. rewrite (markUsageRecorded_run _ _ Hex). simpl. congruence.
  - intros w Hex. rewrite (markUsageRecorded_run _ _ Hex). reflexivity.
  - intros w Htrue.
    destruct (executes_or_nextFails w UpdateCallLogs) as [Hex|Hf].
    + rewrite (markUsageRecorded_run _ _ Hex). simpl. apply update_sets_timestamp.
    + rewrite (markUsageRecorded_faulted _ _ Hf) in Htrue. discriminate.
  - intros others n w Hkeep Henv Hrel Hun. simpl.
    assert (Hex : executes (others 0%nat w) UpdateCallLogs).
    { unfold executes. rewrite Henv. apply Hrel. }
    rewrite (markUsageRecorded_run _ _ Hex), Hkeep, Hun.
    match goal with |- context [claims others id 1 n ?w1] =>
      pose proof (claims_after_claimed others id Hkeep Henv n 1%nat w1) as IH;
      destruct (claims others id 1 n w1) as [rs w2] end.
    simpl in *. rewrite IH; [reflexivity | |].
    + intros m. simpl. rewrite Henv. apply Hrel.
    + simpl. apply claimed_after_update.
Qed.

Lemma markUsageRecorded_claims_exactly_once_witness :
  let w := Sample.world Sample.healthy Sample.user in
  fst (storage.markUsageRecorded "c1" w) = Ok true
  /\ Forall (fun c => CallLog.id c = "c1" -> CallLog.usageRecordedAt c <> None)
       (callLogs (snd (storage.markUsageRecorded "c1" w)))
  /\ fst (storage.markUsageRecorded "c1" (snd (storage.markUsageRecorded "c1" w))) = Ok false
  /\ fst (claims (fun _ w => w) "c1" 0 3 w) = [Ok true; Ok false; Ok false].
Proof.
  intros w.
  destruct (markUsageRecorded_claims_exactly_once "c1") as (Hiff & Hres & Hafter & Hseq).
  split; [|split; [|split]].
  - apply Hiff. split; reflexivity.
  - apply Hafter. apply Hiff. split; reflexivity.
  - apply (Hres (snd (storage.markUsageRecorded "c1" w))). reflexivity.
  - apply (Hseq (fun _ w => w) 2%nat); try reflexivity. intros n. reflexivity.
Defined.

(** ** Overage reporting (reportOveragesToStripe) *)

Ltac wsimpl :=
  cbn [fst snd callLogs restaurants agentConfigurations users usageRecords
       subscriptionPrices menuOverrides stripeSubscriptions stripeMeterEvents
       clock uuidCounter trace console env
       set_callLogs set_agentConfigurations set_users set_usageRecords
       set_menuOverrides set_stripeMeterEvents set_uuidCounter set_trace
       set_console] in *.

Ltac unfold_monad :=
  unfold console_log, console_warn, console_error, newDate, reject;
  unfold try_catch, bind, perform, gets, modify, ret, throw.

Ltac split_run := wsimpl; repeat (case_match; simplify_eq; wsimpl).

Ltac unfold_report :=
  unfold stripeService.reportOveragesToStripe, stripeService.reportOverage,
    stripeService.subscriptions_retrieve, stripeService.meterEvents_create;
  unfold_monad.

Lemma report_outcome (userId : string) (w : World) :
  exists w',
    stripeService.reportOveragesToStripe userId w = (Ok tt, w')
    /\ sameOutsideLedger w w'
    /\ (reportQuiet w w' \/ reportReached userId w w').
Proof.
  unfold_report. split_run.
  all: eexists; split; [reflexivity|]; split; [unfold sameOutsideLedger; wsimpl; tauto|].
  all: unfold reportQuiet, reportReached, selectedUser, selectedPrice, unreportedOf, stripeCalls;
    wsimpl.
  all: try (left; cbn [List.filter fst isStripeOp]; repeat split; try reflexivity;
            eexists; repeat split; cbn; congruence).
  all: right; do 4 eexists.
  all: split; [eassumption|].
  all: split; [match goal with H : negb _ || negb _ = false |- _ =>
                 apply orb_false_elim in H as [H _]; apply negb_false_iff in H; exact H end|].
  all: split; [eassumption|].
  all: split; [eassumption|].
  all: split; [apply Z.ltb_lt; assumption|].
  all: split; [intros Hnil;
               match goal with H : (length _ =? 0)%nat = false |- _ =>
                 rewrite Hnil in H; discriminate H end|].
  all: first
    [ left; repeat split; try reflexivity; eexists; reflexivity
    | right; left; repeat split; try reflexivity; eexists; reflexivity
    | right; right; left; repeat split; reflexivity
    | right; right; right; repeat split; reflexivity ].
Qed.

(** The overage is a positive quantity with a kind, or [(0, None)]. *)
Lemma overage_shape (user : User.t) (priceConfig : SubscriptionPrice.t) :
  (exists q ty, 0 < q /\ stripeService.overage user priceConfig = (q, Some ty))
  \/ stripeService.overage user priceConfig = (0, None).
Proof.
  unfold stripeService.overage.
  repeat case_match; eauto using Z.ltb_lt.
  all: left; do 2 eexists; split; [|reflexivity]; apply Z.ltb_lt; assumption.
Qed.

Lemma overage_zero_none (user : User.t) (priceConfig : SubscriptionPrice.t) :
  fst (stripeService.overage user priceConfig) = 0 ->
  stripeService.overage user priceConfig = (0, None).
Proof.
  destruct (overage_shape user priceConfig) as [(q & ty & Hq & ->) | ->]; [|reflexivity].
  simpl. lia.
Qed.

Section Marking.
Variable userId : string.
Variable ty : UsageType.
Variable sid : string.

Lemma inArray_own_id (ids : list string) (r : UsageRecord.t) :
  In (UsageRecord.id r) ids -> stripeService.inArray ids r = true.
Proof.
  intros Hin. unfold stripeService.inArray. apply existsb_exists.
  exists (UsageRecord.id r). split; [exact Hin | apply String.eqb_refl].
Qed.

Lemma unreported_in_array (rows : list UsageRecord.t) (r : UsageRecord.t) :
  In r rows ->
  stripeService.isUnreported userId ty r = true ->
  stripeService.inArray
    (map UsageRecord.id (List.filter (stripeService.isUnreported userId ty) rows)) r = true.
Proof.
  intros Hin Hun. apply inArray_own_id. apply in_map. apply filter_In. auto.
Qed.

Lemma marked_not_unreported (r : UsageRecord.t) :
  stripeService.isUnreported userId ty (stripeService.markReported sid r) = false.
Proof.
  unfold stripeService.isUnreported, stripeService.markReported. simpl.
  apply andb_false_r.
Qed.

Lemma none_unreported_after_marking (ids : list string) (rows : list UsageRecord.t) :
  (forall r, In r rows -> stripeService.isUnreported userId ty r = true ->
             stripeService.inArray ids r = true) ->
  List.filter (stripeService.isUnreported userId ty)
    (sql_update (stripeService.inArray ids) (stripeService.markReported sid) rows) = [].
Proof.
  unfold sql_update. induction rows as [|r rows IH]; intros Hids; [reflexivity|].
  simpl. rewrite IH by (intros r' Hr'; apply Hids; right; exact Hr').
  destruct (stripeService.inArray ids r) eqn:Hin.
  - rewrite marked_not_unreported. reflexivity.
  - destruct (stripeService.isUnreported userId ty r) eqn:Hun; [|reflexivity].
    rewrite (Hids r) in Hin; [discriminate | left; reflexivity | exact Hun].
Qed.

Lemma marking_marks_included (rows : list UsageRecord.t) (i : nat) (r : UsageRecord.t) :
  nth_error rows i = Some r ->
  stripeService.isUnreported userId ty r = true ->
  nth_error
    (sql_update
       (stripeService.inArray
          (map UsageRecord.id (List.filter (stripeService.isUnreported userId ty) rows)))
       (stripeService.markReported sid) rows) i
  = Some (stripeService.markReported sid r).
Proof.
  intros Hi Hun. unfold sql_update. rewrite nth_error_map, Hi. simpl.
  rewrite unreported_in_array; [reflexivity | eapply nth_error_In; eassumption | exact Hun].
Qed.
End Marking.

Lemma report_quiet_without_overage (userId : string) (w : World) (user : User.t) :
  selectedUser userId w = Some user ->
  (forall priceConfig, selectedPrice user w = Some priceConfig ->
     stripeService.overage user priceConfig = (0, None)) ->
  reportQuiet w (snd (stripeService.reportOveragesToStripe userId w)).
Proof.
  intros Hu Ho.
  destruct (report_outcome userId w) as (w' & -> & _ & [Hq|Hr]); [exact Hq|].
  destruct Hr as (user' & p' & q & ty & Hu' & _ & Hp' & Ho' & _).
  assert (user' = user) as -> by congruence.
  rewrite (Ho _ Hp') in Ho'. discriminate.
Qed.

Lemma quiet_noProviderCall (w w' : World) : reportQuiet w w' -> noProviderCall w w'.
Proof. intros (_ & He & Hc & _). split; assumption. Qed.

(** C6.  The overage computed by reportOveragesToStripe is the reference
    one, with a null counter or allowance read as 0: calls over the
    included calls for 'starter', minutes over the included minutes for
    'growth' and 'pro', none for 'unlimited'.  When the computed overage is
    0, and always for an 'unlimited' account, the run makes no call to the
    provider.  With 20 included calls, 25 used calls give 5 and 20 used
    calls give 0. *)
Theorem overage_decision_matches_reference :
  (forall (plan : SubscriptionPlan) (user : User.t) (priceConfig : SubscriptionPrice.t),
     User.subscriptionPlan user = Some (planName plan) ->
     stripeService.overage user priceConfig =
       match spec_overage plan
               (Js.orZero (User.monthlyCallsUsed user))
               (Js.orZero (SubscriptionPrice.includedCalls priceConfig))
               (Js.orZero (User.monthlyMinutesUsed user))
               (Js.orZero (SubscriptionPrice.includedMinutes priceConfig)) with
       | Some (q, ty) => (q, Some ty)
       | None => (0, None)
       end)
  /\ (forall (userId : string) (w : World) (user : User.t) (priceConfig : SubscriptionPrice.t),
        selectedUser userId w = Some user ->
        selectedPrice user w = Some priceConfig ->
        fst (stripeService.overage user priceConfig) = 0 ->
        noProviderCall w (snd (stripeService.reportOveragesToStripe userId w)))
  /\ (forall (userId : string) (w : World) (user : User.t),
        selectedUser userId w = Some user ->
        User.subscriptionPlan user = Some "unlimited" ->
        (forall priceConfig, stripeService.overage user priceConfig = (0, None))
        /\ noProviderCall w (snd (stripeService.reportOveragesToStripe userId w)))
  /\ (forall (user : User.t) (priceConfig : SubscriptionPrice.t),
        User.subscriptionPlan user = Some "starter" ->
        SubscriptionPrice.includedCalls priceConfig = Some 20 ->
        (User.monthlyCallsUsed user = Some 25 ->
         stripeService.overage user priceConfig = (5, Some call))
        /\ (User.monthlyCallsUsed user = Some 20 ->
            stripeService.overage user priceConfig = (0, None))).
Proof.
  split; [|split; [|split]].
  - intros plan user priceConfig Hplan.
    unfold stripeService.overage, spec_overage. rewrite Hplan.
    destruct plan; cbn [planName eqText String.eqb Ascii.eqb Bool.eqb orb].
    + destruct (Z.ltb_spec 0 (Z.max 0
        (Js.orZero (User.monthlyCallsUsed user)
         - Js.orZero (SubscriptionPrice.includedCalls priceConfig)))) as [Hlt|Hge];
        destruct (Z.eqb_spec (Z.max 0
        (Js.orZero (User.monthlyCallsUsed user)
         - Js.orZero (SubscriptionPrice.includedCalls priceConfig))) 0) as [Heq|Hne];
        try reflexivity; lia.
    + destruct (Z.ltb_spec 0 (Z.max 0
        (Js.orZero (User.monthlyMinutesUsed user)
         - Js.orZero (SubscriptionPrice.includedMinutes priceConfig)))) as [Hlt|Hge];
        destruct (Z.eqb_spec (Z.max 0
        (Js.orZero (User.monthlyMinutesUsed user)
         - Js.orZero (SubscriptionPrice.includedMinutes priceConfig))) 0) as [Heq|Hne];
        try reflexivity; lia.
    + destruct (Z.ltb_spec 0 (Z.max 0
        (Js.orZero (User.monthlyMinutesUsed user)
         - Js.orZero (SubscriptionPrice.includedMinutes priceConfig)))) as [Hlt|Hge];
        destruct (Z.eqb_spec (Z.max 0
        (Js.orZero (User.monthlyMinutesUsed user)
         - Js.orZero (SubscriptionPrice.includedMinutes priceConfig))) 0) as [Heq|Hne];
        try reflexivity; lia.
    + reflexivity.
  - intros userId w user priceConfig Hu Hp Hz.
    apply quiet_noProviderCall, (report_quiet_without_overage userId w user Hu).
    intros p' Hp'. assert (p' = priceConfig) as -> by congruence.
    apply overage_zero_none, Hz.
  - intros userId w user Hu Hplan.
    assert (Hnone : forall priceConfig, stripeService.overage user priceConfig = (0, None)).
    { intros priceConfig. unfold stripeService.overage. rewrite Hplan. reflexivity. }
    split; [exact Hnone|].
    apply quiet_noProviderCall, (report_quiet_without_overage userId w user Hu).
    intros p' _. apply Hnone.
  - intros user priceConfig Hplan Hinc. split; intros Hused;
      unfold stripeService.overage; rewrite Hplan, Hinc, Hused; reflexivity.
Qed.

Lemma overage_decision_matches_reference_witness :
  stripeService.overage Sample.user Sample.price = (5, Some call)
  /\ noProviderCall
       (Sample.world Sample.healthy Sample.userAtLimit)
       (snd (stripeService.reportOveragesToStripe "u1"
               (Sample.world Sample.healthy Sample.userAtLimit)))
  /\ noProviderCall
       (Sample.world Sample.healthy Sample.userUnlimited)
       (snd (stripeService.reportOveragesToStripe "u1"
               (Sample.world Sample.healthy Sample.userUnlimited)))
  /\ stripeService.overage Sample.userAtLimit Sample.price = (0, None)
  /\ stripeService.overage Sample.user Sample.price
     = match spec_overage starter 25 20 0 0 with
       | Some (q, ty) => (q, Some ty)
       | None => (0, None)
       end.
Proof.
  destruct overage_decision_matches_reference as (Href & Hzero & Hunl & Hex).
  split; [|split; [|split; [|split]]].
  - apply (Hex Sample.user Sample.price); reflexivity.
  - apply (Hzero "u1" _ Sample.userAtLimit Sample.price); reflexivity.
  - apply (Hunl "u1" _ Sample.userUnlimited); reflexivity.
  - apply (Hex Sample.userAtLimit Sample.price); reflexivity.
  - apply (Href starter Sample.user Sample.price). reflexivity.
Defined.

Lemma overage_plan (user : User.t) (priceConfig : SubscriptionPrice.t) (q : Z)
    (ty : UsageType) :
  stripeService.overage user priceConfig = (q, Some ty) ->
  Js.truthy (User.subscriptionPlan user) = true /\ (0 <? q) = true.
Proof.
  unfold stripeService.overage.
  destruct (User.subscriptionPlan user) as [[|c s]|]; cbn [eqText String.eqb orb].
  all: try discriminate.
  intros H. split; [reflexivity|].
  repeat case_match; simplify_eq; assumption.
Qed.

Lemma find_existsb {A} (p : A -> bool) (l : list A) :
  existsb p l = true -> exists a, find p l = Some a.
Proof.
  induction l as [|a l IH]; [discriminate|]. cbn [existsb find].
  destruct (p a); [eauto | exact IH].
Qed.

Ltac other_ops :=
  repeat match goal with
  | |- context [occurrences ?op ((?op', ?b) :: ?t)] =>
      change (occurrences op ((op', b) :: t)) with (occurrences op t)
  end.

(** The run up to the submission block, step by step. *)
Lemma report_submission_run (userId : string) (user : User.t) (ty : UsageType) (w : World) :
  submissionReached userId user ty w ->
  let ev := stripeService.meterEvent userId user ty
              (stripeService.totalQuantity (unreportedOf userId ty w)) (clock w) in
  let sid := stripeService.usageRecordIdOf
               (meterEventObjectId (env w) ev, Stripe.identifier ev) in
  exists w',
    stripeService.reportOveragesToStripe userId w = (Ok tt, w')
    /\ (executes w StripeMeterEventsCreate -> executes w UpdateUsageRecords ->
        usageRecords w' =
          sql_update (stripeService.inArray (map UsageRecord.id (unreportedOf userId ty w)))
            (stripeService.markReported sid) (usageRecords w)
        /\ stripeMeterEvents w' = stripeMeterEvents w ++ [ev])
    /\ (executes w StripeMeterEventsCreate -> nextFails w UpdateUsageRecords ->
        usageRecords w' = usageRecords w
        /\ stripeMeterEvents w' = stripeMeterEvents w ++ [ev]
        /\ exists logs,
             console w' =
               ConsoleError "[reportOveragesToStripe] Error:" (OpFailed UpdateUsageRecords)
               :: ConsoleError "[CRITICAL] Failed to send meter event to Stripe for user"
                    (OpFailed UpdateUsageRecords)
               :: logs)
    /\ (nextFails w StripeMeterEventsCreate ->
        usageRecords w' = usageRecords w
        /\ stripeMeterEvents w' = stripeMeterEvents w
        /\ exists logs,
             console w' =
               ConsoleError "[reportOveragesToStripe] Error:" (OpFailed StripeMeterEventsCreate)
               :: ConsoleError "[CRITICAL] Failed to send meter event to Stripe for user"
                    (OpFailed StripeMeterEventsCreate)
               :: logs).
Proof.
  intros (p & q & sub & Hu & Hsid & Hp & Ho & Hne & Hmp & Hfind & Hitem & E1 & E2 & E3 & E4).
  destruct (overage_plan _ _ _ _ Ho) as (Hplan & Hq).
  destruct (find_existsb _ _ Hitem) as (item & Hit).
  unfold selectedUser in Hu. unfold selectedPrice in Hp. unfold unreportedOf in *.
  unfold executes, nextFails in *. cbv zeta.
  assert (Hlen : (length (List.filter (stripeService.isUnreported userId ty) (usageRecords w))
                  =? 0)%nat = false).
  { destruct (List.filter _ (usageRecords w)); [contradiction | reflexivity]. }
  unfold_report.
  rewrite E1. wsimpl. rewrite Hu, Hsid, Hplan. cbn [negb orb]. wsimpl. other_ops.
  rewrite E2. wsimpl. rewrite Hp, Ho, Hq. wsimpl. other_ops.
  rewrite E3. wsimpl. rewrite Hlen, Hmp. cbn [negb]. wsimpl.
  rewrite Hfind. wsimpl. other_ops. rewrite E4. wsimpl. rewrite Hit. wsimpl. other_ops.
  destruct (faults (env w) StripeMeterEventsCreate _) eqn:Em; wsimpl.
  - eexists. split; [reflexivity|]. wsimpl.
    split; [discriminate|]. split; [discriminate|].
    intros _. repeat split. eexists. reflexivity.
  - other_ops. destruct (faults (env w) UpdateUsageRecords _) eqn:Eu; wsimpl.
    + eexists. split; [reflexivity|]. wsimpl.
      split; [discriminate|]. split; [|discriminate].
      intros _ _. repeat split. eexists. reflexivity.
    + eexists. split; [reflexivity|]. wsimpl.
      split; [|split; discriminate].
      intros _ _. split; reflexivity.
Qed.

Lemma report_submission (userId : string) (w : World) (user : User.t) (ty : UsageType) :
  submissionReached userId user ty w ->
  let w' := snd (stripeService.reportOveragesToStripe userId w) in
  let ev := stripeService.meterEvent userId user ty
              (stripeService.totalQuantity (unreportedOf userId ty w)) (clock w) in
  let sid := stripeService.usageRecordIdOf
               (meterEventObjectId (env w) ev, Stripe.identifier ev) in
  (executes w StripeMeterEventsCreate ->
   executes w UpdateUsageRecords ->
   stripeMeterEvents w' = stripeMeterEvents w ++ [ev]
   /\ forall i r,
        nth_error (usageRecords w) i = Some r ->
        stripeService.isUnreported userId ty r = true ->
        nth_error (usageRecords w') i = Some (stripeService.markReported sid r))
  /\ (nextFails w StripeMeterEventsCreate ->
      usageRecords w' = usageRecords w
      /\ stripeMeterEvents w' = stripeMeterEvents w
      /\ exists logs,
           console w' =
             ConsoleError "[reportOveragesToStripe] Error:" (OpFailed StripeMeterEventsCreate)
             :: ConsoleError "[CRITICAL] Failed to send meter event to Stripe for user"
                  (OpFailed StripeMeterEventsCreate)
             :: logs)
  /\ (executes w StripeMeterEventsCreate ->
      nextFails w UpdateUsageRecords ->
      usageRecords w' = usageRecords w
      /\ stripeMeterEvents w' = stripeMeterEvents w ++ [ev]).
Proof.
  intros Hreach.
  destruct (report_submission_run userId user ty w Hreach) as (w2 & E & Hok & Hwrite & Hmeter).
  rewrite E. cbv zeta in *. cbn [snd]. split; [|split].
  - intros Hm Hu. destruct (Hok Hm Hu) as (Hl & He). split; [exact He|].
    intros i r Hi Hun. rewrite Hl. apply marking_marks_included; assumption.
  - exact Hmeter.
  - intros Hm Hu. destruct (Hwrite Hm Hu) as (Hl & He & _). split; assumption.
Qed.

Lemma sample_submissionReached (e : Env) :
  faults e SelectUsers 0 = false ->
  faults e SelectSubscriptionPrices 0 = false ->
  faults e SelectUsageRecords 0 = false ->
  faults e StripeSubscriptionsRetrieve 0 = false ->
  submissionReached "u1" Sample.user call (Sample.world e Sample.user).
Proof.
  intros H1 H2 H3 H4. exists Sample.price, 5, Sample.subscription.
  repeat split; try assumption. discriminate.
Qed.

(** The provider rejects the meter event of the sample account: the run
    ends on the failed submission, and the caller gets a normal return. *)
Lemma reportOverages_provider_error_not_propagated :
  head (trace (snd (stripeService.reportOveragesToStripe "u1"
                      (Sample.world Sample.meterDown Sample.user))))
    = Some (StripeMeterEventsCreate, false)
  /\ fst (stripeService.reportOveragesToStripe "u1"
            (Sample.world Sample.meterDown Sample.user)) = Ok tt.
Proof. split; vm_compute; reflexivity. Qed.

(** The marking write fails after the provider accepted the event of the
    sample account: the event stays accepted, no entry is marked, and the
    caller gets a normal return. *)
Example reportOverages_marking_write_fails :
  let w := Sample.world (mkEnv (Sample.down UpdateUsageRecords) (fun _ => None)) Sample.user in
  let r := stripeService.reportOveragesToStripe "u1" w in
  fst r = Ok tt
  /\ length (stripeMeterEvents (snd r)) = 1%nat
  /\ usageRecords (snd r) = usageRecords w.
Proof. repeat split. Qed.

(** C4 (amended).  reportOveragesToStripe always returns normally to its
    caller.  It changes ledger entries only when the provider accepted the
    submission.  When the run gets to the submission and the provider
    accepts it, the aggregated event is the one accepted and, the marking
    write being executed, every entry included in it has reported = true
    and the event identifier.  When the provider rejects the submission, no
    entry is marked, no event is accepted, and the provider's error is
    logged twice (by the handler of the submission block, which re-throws
    it, and by the outer handler, which swallows it).  When the marking
    write fails after an accepted submission, the entries stay unmarked. *)
Theorem reportOverages_marks_only_after_submission (userId : string) (w : World) :
  let w' := snd (stripeService.reportOveragesToStripe userId w) in
  fst (stripeService.reportOveragesToStripe userId w) = Ok tt
  /\ (usageRecords w' <> usageRecords w ->
      exists ev, stripeMeterEvents w' = stripeMeterEvents w ++ [ev])
  /\ (head (trace w') = Some (StripeMeterEventsCreate, false) ->
      usageRecords w' = usageRecords w
      /\ stripeMeterEvents w' = stripeMeterEvents w
      /\ exists logs,
           console w' =
             ConsoleError "[reportOveragesToStripe] Error:" (OpFailed StripeMeterEventsCreate)
             :: ConsoleError "[CRITICAL] Failed to send meter event to Stripe for user"
                  (OpFailed StripeMeterEventsCreate)
             :: logs)
  /\ (forall user ty,
        submissionReached userId user ty w ->
        let ev := stripeService.meterEvent userId user ty
                    (stripeService.totalQuantity (unreportedOf userId ty w)) (clock w) in
        let sid := stripeService.usageRecordIdOf
                     (meterEventObjectId (env w) ev, Stripe.identifier ev) in
        (* the provider accepts the event and the marking write is executed *)
        (executes w StripeMeterEventsCreate ->
         executes w UpdateUsageRecords ->
         stripeMeterEvents w' = stripeMeterEvents w ++ [ev]
         /\ forall i r,
              nth_error (usageRecords w) i = Some r ->
              stripeService.isUnreported userId ty r = true ->
              nth_error (usageRecords w') i = Some (stripeService.markReported sid r))
        (* the provider rejects the event *)
        /\ (nextFails w StripeMeterEventsCreate ->
            usageRecords w' = usageRecords w
            /\ stripeMeterEvents w' = stripeMeterEvents w
            /\ exists logs,
                 console w' =
                   ConsoleError "[reportOveragesToStripe] Error:"
                     (OpFailed StripeMeterEventsCreate)
                   :: ConsoleError "[CRITICAL] Failed to send meter event to Stripe for user"
                        (OpFailed StripeMeterEventsCreate)
                   :: logs)
        (* the provider accepts the event, the marking write fails *)
        /\ (executes w StripeMeterEventsCreate ->
            nextFails w UpdateUsageRecords ->
            usageRecords w' = usageRecords w
            /\ stripeMeterEvents w' = stripeMeterEvents w ++ [ev])).
Proof.
  pose proof (report_submission userId w) as Hreached.
  destruct (report_outcome userId w) as (w' & E & _ & Hcases).
  rewrite E in *. cbn [fst snd] in *.
  split; [reflexivity|].
  destruct Hcases as [(Hl & He & _ & e & Hhd & Hns & Hnu) | Hr].
  - split; [congruence|]. split; [|exact Hreached].
    intros Hh; rewrite Hhd in Hh; simplify_eq; simpl in *; congruence.
  - destruct Hr as (user & p & q & ty & Hu & _ & _ & _ & _ & _ & Hsub).
    cbn zeta in Hsub.
    destruct Hsub as [(Hl & He & b & Hhd) | [(Hl & He & Hhd & logs & Hlog)
                     | [(Hl & He & Hhd) | (Hl & He & Hhd)]]].
    + split; [congruence|]. split; [|exact Hreached].
      intros Hh; rewrite Hhd in Hh; discriminate.
    + split; [congruence|]. split; [|exact Hreached].
      intros _. repeat split; try assumption. exists logs. exact Hlog.
    + split; [eauto|]. split; [|exact Hreached].
      intros Hh; rewrite Hhd in Hh; discriminate.
    + split; [eauto|]. split; [|exact Hreached].
      intros Hh; rewrite Hhd in Hh; discriminate.
Qed.

Lemma reportOverages_marks_only_after_submission_witness :
  let down := Sample.world Sample.meterDown Sample.user in
  let up := Sample.world Sample.healthy Sample.user in
  let writeDown :=
    Sample.world (mkEnv (Sample.down UpdateUsageRecords) (fun _ => None)) Sample.user in
  (* the provider is down: nothing is marked *)
  usageRecords (snd (stripeService.reportOveragesToStripe "u1" down))
    = [Sample.callEntry; Sample.minuteEntry]
  (* the provider accepts: one event, and the call entry, the only one
     included, is marked *)
  /\ stripeMeterEvents (snd (stripeService.reportOveragesToStripe "u1" up))
     = [] ++ [Stripe.mkMeterEvent "otto_calls" "1" (Some "cus_1") "u1_1000"]
  /\ nth_error (usageRecords (snd (stripeService.reportOveragesToStripe "u1" up))) 0
     = Some (stripeService.markReported "u1_1000" Sample.callEntry)
  (* the marking write fails: the event is accepted, nothing is marked *)
  /\ usageRecords (snd (stripeService.reportOveragesToStripe "u1" writeDown))
     = [Sample.callEntry; Sample.minuteEntry].
Proof.
  intros down up writeDown. split; [|split; [|split]].
  - destruct (reportOverages_marks_only_after_submission "u1" down) as (_ & _ & _ & Hreached).
    destruct (Hreached Sample.user call) as (_ & Hfail & _);
      [apply sample_submissionReached; reflexivity|].
    destruct Hfail as (Hl & _); [reflexivity|]. exact Hl.
  - destruct (reportOverages_marks_only_after_submission "u1" up) as (_ & _ & _ & Hreached).
    destruct (Hreached Sample.user call) as (Hok & _);
      [apply sample_submissionReached; reflexivity|].
    destruct Hok as (He & _); [reflexivity..|]. exact He.
  - destruct (reportOverages_marks_only_after_submission "u1" up) as (_ & _ & _ & Hreached).
    destruct (Hreached Sample.user call) as (Hok & _);
      [apply sample_submissionReached; reflexivity|].
    destruct Hok as (_ & Hmark); [reflexivity..|].
    apply (Hmark 0%nat Sample.callEntry); reflexivity.
  - destruct (reportOverages_marks_only_after_submission "u1" writeDown)
      as (_ & _ & _ & Hreached).
    destruct (Hreached Sample.user call) as (_ & _ & Hwrite);
      [apply sample_submissionReached; reflexivity|].
    destruct Hwrite as (Hl & _); [reflexivity..|]. exact Hl.
Defined.

(** C7.  When an invocation of reportOveragesToStripe has submitted the
    unreported entries of a kind and marked them (its run ends with the
    marking write executed), an invocation that follows with the same
    ledger, accounts and plan table finds no unreported entry of that kind
    and makes no call to the provider: one event is accepted over the two
    invocations. *)
Theorem reportOverages_idempotent (userId : string) (w w1' : World) :
  let w1 := snd (stripeService.reportOveragesToStripe userId w) in
  let w2 := snd (stripeService.reportOveragesToStripe userId w1') in
  head (trace w1) = Some (UpdateUsageRecords, true) ->
  usageRecords w1' = usageRecords w1 ->
  users w1' = users w1 ->
  subscriptionPrices w1' = subscriptionPrices w1 ->
  stripeMeterEvents w1' = stripeMeterEvents w1 ->
  (exists ty, unreportedOf userId ty w <> [] /\ unreportedOf userId ty w1' = [])
  /\ noProviderCall w1' w2
  /\ length (stripeMeterEvents w2) = S (length (stripeMeterEvents w)).
Proof.
  destruct (report_outcome userId w) as (w1 & E1 & F1 & C1).
  destruct (report_outcome userId w1') as (w2 & E2 & F2 & C2).
  rewrite E1, E2. cbn [fst snd]. intros Hhd Hl Husers Hprices Hev.
  destruct F1 as (_ & _ & _ & Fu & Fp & _).
  destruct C1 as [(_ & _ & _ & e & Hhd' & _ & Hnu) | Hr].
  { rewrite Hhd' in Hhd. simplify_eq; simpl in *; congruence. }
  destruct Hr as (user & p & q & ty & Hu & _ & Hp & Ho & _ & Hne & Hsub).
  cbn zeta in Hsub.
  destruct Hsub as [(_ & _ & b & Hhd') | [(_ & _ & Hhd' & _)
                   | [(_ & _ & Hhd') | (Hmarked & He & _)]]];
    try (rewrite Hhd' in Hhd; discriminate).
  assert (Hnone : unreportedOf userId ty w1' = []).
  { unfold unreportedOf. rewrite Hl, Hmarked.
    apply none_unreported_after_marking.
    intros r Hin Hun. apply unreported_in_array; assumption. }
  split; [exists ty; split; assumption|].
  assert (Hquiet : noProviderCall w1' w2).
  { destruct C2 as [Hq | Hr2]; [apply quiet_noProviderCall, Hq|].
    destruct Hr2 as (user' & p' & q' & ty' & Hu' & _ & Hp' & Ho' & _ & Hne' & _).
    exfalso.
    unfold selectedUser in Hu, Hu'. rewrite Husers, Fu in Hu'.
    assert (user' = user) as -> by congruence.
    unfold selectedPrice in Hp, Hp'. rewrite Hprices, Fp in Hp'.
    assert (p' = p) as -> by congruence.
    assert (ty' = ty) as -> by congruence.
    contradiction. }
  split; [exact Hquiet|].
  destruct Hquiet as (_ & ->). rewrite Hev, He, length_app. simpl. lia.
Qed.

Lemma reportOverages_idempotent_witness :
  let w := Sample.world Sample.healthy Sample.user in
  let w1 := snd (stripeService.reportOveragesToStripe "u1" w) in
  let w2 := snd (stripeService.reportOveragesToStripe "u1" w1) in
  length (stripeMeterEvents w2) = 1%nat
  /\ stripeCalls (trace w2) = stripeCalls (trace w1).
Proof.
  intros w w1 w2.
  destruct (reportOverages_idempotent "u1" w w1) as (_ & (Hcalls & _) & Hlen);
    try reflexivity.
  split; [exact Hlen | exact Hcalls].
Defined.

(** ** Pieces of the status callback *)

Lemma occurrences_other (op op' : Op) (b : bool) (t : list (Op * bool)) :
  op' <> op -> occurrences op ((op', b) :: t) = occurrences op t.
Proof.
  intros Hne. unfold occurrences. cbn [List.filter fst].
  rewrite bool_decide_eq_false_2 by exact Hne. reflexivity.
Qed.

Lemma head_filter_In {A} (p : A -> bool) (l : list A) (x : A) :
  head (List.filter p l) = Some x -> In x l /\ p x = true.
Proof.
  intros H. apply filter_In. destruct (List.filter p l); [discriminate|].
  injection H as ->. left. reflexivity.
Qed.

Lemma insertByCreatedAt_In (r x : CallLog.t * string) (l : list (CallLog.t * string)) :
  In x (storage.insertByCreatedAt r l) -> x = r \/ In x l.
Proof.
  induction l as [|s l IH]; simpl.
  - intros [<-|[]]. left. reflexivity.
  - destruct (storage.createdAt_before _ _); simpl.
    + intros [<-|H]; auto.
    + intros [<-|H]; auto. destruct (IH H); auto.
Qed.

Lemma orderByCreatedAtDesc_In (x : CallLog.t * string) (l : list (CallLog.t * string)) :
  In x (storage.orderByCreatedAtDesc l) -> In x l.
Proof.
  unfold storage.orderByCreatedAtDesc. induction l as [|r l IH]; simpl; [auto|].
  intros H. apply insertByCreatedAt_In in H as [->|H]; auto.
Qed.

Lemma take_In {A} (n : nat) (l : list A) (x : A) : In x (take n l) -> In x l.
Proof.
  revert l. induction n as [|n IH]; intros [|y l]; simpl; try tauto.
  intros [->|H]; auto.
Qed.

Lemma recent_call_In (w : World) (restaurantId : string) (p : CallLog.t -> bool) (c : CallLog.t) :
  find p
    (map fst
       (take 100
          (storage.orderByCreatedAtDesc
             (List.filter
                (fun cr => String.eqb (CallLog.restaurantId (fst cr)) restaurantId)
                (flat_map
                   (fun c =>
                      map (fun r => (c, Restaurant.name r))
                        (List.filter
                           (fun r => String.eqb (CallLog.restaurantId c) (Restaurant.id r))
                           (restaurants w)))
                   (callLogs w)))))) = Some c ->
  In c (callLogs w).
Proof.
  intros H. apply find_some in H as [H _].
  apply in_map_iff in H as ([c' n] & <- & H).
  apply take_In, orderByCreatedAtDesc_In, filter_In in H as [H _].
  apply in_flat_map in H as (c0 & Hc0 & H).
  apply in_map_iff in H as (r & Hr & _). injection Hr as <- _. exact Hc0.
Qed.

(** The look-up only reads: it finds a row of the table and leaves the
    world as it is, up to SELECTs on call_logs in the trace. *)
Lemma findCallLog_found (restaurantId : string) (body : routes.Body) (w : World)
    (l : list LogEntry) (c : CallLog.t) :
  found restaurantId body w = Some c ->
  In c (callLogs w)
  /\ exists t,
       routes.findCallLog restaurantId body (set_console l w)
         = (Ok (Some c), set_trace t (set_console l w))
       /\ (forall op, op <> SelectCallLogs -> occurrences op t = occurrences op (trace w))
       /\ stripeCalls t = stripeCalls (trace w).
Proof.
  unfold found, routes.findCallLog, storage.getCallLogByTwilioSid,
    storage.getCallLogsByRestaurant.
  unfold_monad. intros H. split_run.
  all: try match goal with H : head (List.filter _ _) = Some _ |- _ =>
             pose proof (proj1 (head_filter_In _ _ _ H)) end.
  all: try match goal with H : find _ (map fst _) = Some _ |- _ =>
             pose proof (recent_call_In _ _ _ _ H) end.
  all: try (match goal with H : ?x = Some _, H' : context [isNull ?x] |- _ =>
              rewrite H in H' end; congruence).
  all: split; [assumption|].
  all: match goal with |- context [set_trace ?t _] => exists t end.
  all: split;
    [ match goal with H : ?x = Some _ |- context [Ok ?x] => rewrite H end; reflexivity
    | split; [intros op Hop; rewrite ?occurrences_other by congruence; reflexivity
             | reflexivity ] ].
Qed.

Lemma updateCallLog_run (id : string) (updates : CallLogUpdates.t) (w : World) :
  CallLogUpdates.accepted updates = true ->
  executes w UpdateCallLogs ->
  exists r,
    storage.updateCallLog id updates w =
      (Ok r,
       set_callLogs
         (sql_update (fun c => String.eqb (CallLog.id c) id) (CallLogUpdates.set updates)
            (callLogs w))
         (set_trace ((UpdateCallLogs, true) :: trace w) w)).
Proof.
  intros Hacc Hex. unfold storage.updateCallLog. rewrite Hacc.
  unfold bind, gets, modify, ret. rewrite (perform_executes _ _ Hex).
  eexists. reflexivity.
Qed.

Lemma getAgentConfiguration_run (restaurantId : string) (w : World) :
  executes w SelectAgentConfigurations ->
  storage.getAgentConfiguration restaurantId w =
    (Ok (head (List.filter
                 (fun a => String.eqb (AgentConfiguration.restaurantId a) restaurantId)
                 (agentConfigurations w))),
     set_trace ((SelectAgentConfigurations, true) :: trace w) w).
Proof.
  intros Hex. unfold storage.getAgentConfiguration, bind, gets, ret.
  rewrite (perform_executes _ _ Hex). reflexivity.
Qed.

(** An UPDATE of call_logs keeps every row, with its id. *)
Lemma update_keeps_row (where_ : CallLog.t -> bool) (updates : CallLogUpdates.t)
    (rows : list CallLog.t) (id : string) :
  (exists c, In c rows /\ CallLog.id c = id) ->
  exists c, In c (sql_update where_ (CallLogUpdates.set updates) rows) /\ CallLog.id c = id.
Proof.
  intros (c & Hin & Hid).
  exists (if where_ c then CallLogUpdates.set updates c else c). split.
  - unfold sql_update. apply in_map_iff. exists c. split; [reflexivity | exact Hin].
  - destruct (where_ c); exact Hid.
Qed.

Section RowUpdates.
Variable id : string.

Let byId := fun c => String.eqb (CallLog.id c) id.

(** An update that does not touch the timestamp keeps the record unclaimed. *)
Lemma unclaimed_after_update (updates : CallLogUpdates.t) (rows : list CallLog.t)
    (c : CallLog.t) :
  CallLogUpdates.usageRecordedAt updates = None ->
  In c rows -> CallLog.id c = id -> CallLog.usageRecordedAt c = None ->
  unclaimed id (sql_update byId (CallLogUpdates.set updates) rows) = true.
Proof.
  intros Hu Hin Hid Hnull. unfold unclaimed. apply existsb_exists.
  exists (CallLogUpdates.set updates c). split.
  - unfold sql_update. apply in_map_iff. exists c. split; [|exact Hin].
    subst byId. cbv beta. rewrite Hid, String.eqb_refl. reflexivity.
  - unfold CallLogUpdates.set. cbn [CallLog.id CallLog.usageRecordedAt].
    rewrite Hu, Hid, Hnull, String.eqb_refl. reflexivity.
Qed.

(** Rolling back clears the timestamp of every row with this id. *)
Lemma rollback_clears (rows : list CallLog.t) :
  Forall (fun c => CallLog.id c = id -> CallLog.usageRecordedAt c = None)
    (sql_update byId (CallLogUpdates.set (CallLogUpdates.only_usageRecordedAt None)) rows).
Proof.
  unfold sql_update. subst byId. apply List.Forall_forall. intros c Hin.
  apply in_map_iff in Hin as [c0 [<- _]]. intros Hid.
  destruct (String.eqb (CallLog.id c0) id) eqn:Hc; [reflexivity|].
  rewrite Hid, String.eqb_refl in Hc. discriminate.
Qed.

(** The status written by an update is the status of every row with this id. *)
Lemma update_sets_status (updates : CallLogUpdates.t) (st : CallLogStatus)
    (rows : list CallLog.t) :
  CallLogUpdates.status updates = Some st ->
  Forall (fun c => CallLog.id c = id -> CallLog.status c = st)
    (sql_update byId (CallLogUpdates.set updates) rows).
Proof.
  intros Hst. unfold sql_update. subst byId. apply List.Forall_forall. intros c Hin.
  apply in_map_iff in Hin as [c0 [<- _]]. intros Hid.
  destruct (String.eqb (CallLog.id c0) id) eqn:Hc.
  - unfold CallLogUpdates.set. cbn [CallLog.status]. rewrite Hst. reflexivity.
  - rewrite Hid, String.eqb_refl in Hc. discriminate.
Qed.

End RowUpdates.

Lemma eqText_completed (v : option string) :
  v = Some "completed" -> eqText v "completed" = true.
Proof. intros ->. reflexivity. Qed.

Lemma eqText_not_completed (v : option string) :
  v <> Some "completed" -> eqText v "completed" = false.
Proof.
  intros Hne. destruct v as [s|]; [|reflexivity]. simpl.
  apply String.eqb_neq. congruence.
Qed.

Lemma buildUpdates_keeps_claim (body : routes.Body) (c : CallLog.t) (now : Z) :
  CallLogUpdates.usageRecordedAt (routes.buildUpdates body c now) = None.
Proof. reflexivity. Qed.

(** Up to the response: the handler finds [c], then runs updateAndRecord. *)
Lemma statusCallback_found (restaurantId : string) (body : routes.Body) (w : World)
    (c : CallLog.t) :
  found restaurantId body w = Some c ->
  In c (callLogs w)
  /\ exists t,
       (forall op, op <> SelectCallLogs -> occurrences op t = occurrences op (trace w))
       /\ stripeCalls t = stripeCalls (trace w)
       /\ routes.statusCallback restaurantId body w =
            respond (routes.updateAndRecord restaurantId body c
                       (set_trace t
                          (set_console (ConsoleLog "Status callback" :: console w) w))).
Proof.
  intros Hfound.
  destruct (findCallLog_found restaurantId body w
              (ConsoleLog "Status callback" :: console w) c Hfound)
    as (Hin & t & Hrun & Hocc & Hcalls).
  split; [exact Hin|]. exists t. split; [exact Hocc|]. split; [exact Hcalls|].
  unfold routes.statusCallback, respond.
  unfold try_catch, bind, console_log, console_error, modify, ret.
  rewrite Hrun.
  destruct (routes.updateAndRecord _ _ _ _) as [[[]|e] w']; reflexivity.
Qed.

(** A completed call that was not billed: the handler updates the row,
    wins the claim and goes on to record the usage. *)
Lemma statusCallback_claimed (restaurantId : string) (body : routes.Body) (w : World)
    (c : CallLog.t) :
  found restaurantId body w = Some c ->
  routes.CallStatus body = Some "completed" ->
  CallLog.usageRecordedAt c = None ->
  CallLogUpdates.accepted (routes.buildUpdates body c (clock w)) = true ->
  reliable w UpdateCallLogs ->
  exists t,
    (forall op, op <> SelectCallLogs -> occurrences op t = occurrences op (trace w))
    /\ stripeCalls t = stripeCalls (trace w)
    /\ routes.statusCallback restaurantId body w =
         respond (routes.recordClaimedUsage restaurantId body c
                    (routes.buildUpdates body c (clock w))
                    (claimedWorld c (routes.buildUpdates body c (clock w)) t w)).
Proof.
  intros Hfound Hcompleted Hnull Hacc Hrel.
  destruct (statusCallback_found restaurantId body w c Hfound)
    as (Hin & t & Hocc & Hcalls & ->).
  exists t. split; [exact Hocc|]. split; [exact Hcalls|]. f_equal.
  unfold routes.updateAndRecord. unfold bind at 1. unfold newDate, gets. wsimpl.
  unfold bind at 1.
  edestruct (updateCallLog_run (CallLog.id c) (routes.buildUpdates body c (clock w)))
    as (r & ->); [exact Hacc | apply Hrel |]. wsimpl.
  unfold bind at 1. unfold console_log, modify. wsimpl.
  rewrite (eqText_completed _ Hcompleted), Hnull. cbn [isNull andb].
  unfold bind at 1.
  rewrite markUsageRecorded_run by apply Hrel. wsimpl.
  erewrite unclaimed_after_update; [reflexivity | apply buildUpdates_keeps_claim | exact Hin
                                   | reflexivity | exact Hnull].
Qed.

(** ** recordUsage *)

Lemma recordUsage_written (userId restaurantId : string) (type : UsageType) (quantity : Z)
    (w : World) (user : User.t) :
  selectedUser userId w = Some user ->
  executes w SelectUsers ->
  executes w InsertUsageRecords ->
  executes w UpdateUsers ->
  stripeService.recordUsage userId restaurantId type quantity w =
    stripeService.reportOveragesToStripe userId
      (usageWritten userId restaurantId type quantity user w).
Proof.
  unfold selectedUser, executes. intros Hu Hsel Hins Hupd.
  unfold stripeService.recordUsage, stripeService.gen_random_uuid.
  unfold_monad. wsimpl.
  rewrite Hsel. wsimpl. rewrite Hu. wsimpl.
  rewrite occurrences_other by discriminate. rewrite Hins. wsimpl.
  rewrite !occurrences_other by discriminate. rewrite Hupd. wsimpl.
  reflexivity.
Qed.

Lemma recordUsage_insert_fails (userId restaurantId : string) (type : UsageType)
    (quantity : Z) (w : World) (user : User.t) :
  selectedUser userId w = Some user ->
  executes w SelectUsers ->
  nextFails w InsertUsageRecords ->
  stripeService.recordUsage userId restaurantId type quantity w =
    (Throw (OpFailed InsertUsageRecords),
     set_trace ((InsertUsageRecords, false) :: (SelectUsers, true) :: trace w) w).
Proof.
  unfold selectedUser, executes, nextFails. intros Hu Hsel Hins.
  unfold stripeService.recordUsage, stripeService.gen_random_uuid.
  unfold_monad. wsimpl.
  rewrite Hsel. wsimpl. rewrite Hu. wsimpl.
  rewrite occurrences_other by discriminate. rewrite Hins. wsimpl.
  reflexivity.
Qed.

(** C2.  A completed call that was not billed is found and claimed, its
    agent has a billing user with an account, and the first write to the
    ledger (the INSERT of the call entry) fails: the handler logs the error,
    writes null back to the usage-recorded timestamp of the call, leaves the
    ledger as it was without any call to the provider, and answers 200. *)
Theorem statusCallback_rolls_back_on_ledger_failure
    (restaurantId : string) (body : routes.Body) (w : World)
    (c : CallLog.t) (billingUserId : string) (user : User.t) :
  found restaurantId body w = Some c ->
  routes.CallStatus body = Some "completed" ->
  CallLog.usageRecordedAt c = None ->
  CallLogUpdates.accepted (routes.buildUpdates body c (clock w)) = true ->
  billingUserFor restaurantId w = Some billingUserId ->
  selectedUser billingUserId w = Some user ->
  reliable w UpdateCallLogs ->
  executes w SelectAgentConfigurations ->
  executes w SelectUsers ->
  nextFails w InsertUsageRecords ->
  let w' := snd (routes.statusCallback restaurantId body w) in
  fst (routes.statusCallback restaurantId body w) = Ok (routes.mkResponse 200 "OK")
  /\ Forall (fun r => CallLog.id r = CallLog.id c -> CallLog.usageRecordedAt r = None)
       (callLogs w')
  /\ (exists r, In r (callLogs w') /\ CallLog.id r = CallLog.id c)
  /\ usageRecords w' = usageRecords w
  /\ noProviderCall w w'
  /\ In (ConsoleError "Failed to record usage:" (OpFailed InsertUsageRecords)) (console w').
Proof.
  intros Hfound Hcompleted Hnull Hacc Hbilling Huser Hrel Hagent Hsel Hins.
  cut (exists W',
         routes.statusCallback restaurantId body w = (Ok (routes.mkResponse 200 "OK"), W')
         /\ Forall (fun r => CallLog.id r = CallLog.id c -> CallLog.usageRecordedAt r = None)
              (callLogs W')
         /\ (exists r, In r (callLogs W') /\ CallLog.id r = CallLog.id c)
         /\ usageRecords W' = usageRecords w
         /\ noProviderCall w W'
         /\ In (ConsoleError "Failed to record usage:" (OpFailed InsertUsageRecords))
              (console W')).
  { intros (W' & -> & HP). cbn [fst snd]. split; [reflexivity | exact HP]. }
  destruct (statusCallback_claimed restaurantId body w c Hfound Hcompleted Hnull Hacc Hrel)
    as (t & Hocc & Hcalls & ->).
  destruct (statusCallback_found restaurantId body w c Hfound) as (Hin & _).
  unfold billingUserFor in Hbilling. unfold executes in Hagent.
  unfold routes.recordClaimedUsage, routes.try_catch_started.
  unfold bind at 1.
  rewrite getAgentConfiguration_run; cycle 1.
  { unfold executes, claimedWorld. wsimpl.
    rewrite !occurrences_other, Hocc by discriminate. exact Hagent. }
  unfold claimedWorld at 1. wsimpl. rewrite Hbilling.
  unfold bind at 1.
  rewrite (recordUsage_insert_fails _ _ _ _ _ user); cycle 1.
  { exact Huser. }
  { unfold executes, claimedWorld. wsimpl.
    rewrite !occurrences_other, Hocc by discriminate. exact Hsel. }
  { unfold nextFails, claimedWorld. wsimpl.
    rewrite !occurrences_other, Hocc by discriminate. exact Hins. }
  unfold bind at 1. unfold console_error, modify. wsimpl. cbn [negb].
  unfold bind at 1. unfold console_log, modify. wsimpl.
  unfold bind at 1.
  edestruct (updateCallLog_run (CallLog.id c) (CallLogUpdates.only_usageRecordedAt None))
    as (r & ->); [reflexivity | apply Hrel |].
  unfold ret, respond, claimedWorld. wsimpl.
  eexists. split; [reflexivity|]. wsimpl.
  split; [apply rollback_clears|].
  split.
  { unfold claimSet. do 3 apply update_keeps_row. exists c. split; [exact Hin | reflexivity]. }
  split; [reflexivity|].
  split; [split; [cbn [stripeCalls List.filter fst isStripeOp]; exact Hcalls | reflexivity]|].
  right. left. reflexivity.
Qed.

Lemma statusCallback_rolls_back_on_ledger_failure_witness :
  let w' := snd (routes.statusCallback "rest1" (Sample.completedCallback "61")
                   (Sample.world Sample.ledgerDown Sample.user)) in
  Forall (fun r => CallLog.id r = "c1" -> CallLog.usageRecordedAt r = None) (callLogs w')
  /\ usageRecords w' = [Sample.callEntry; Sample.minuteEntry].
Proof.
  destruct (statusCallback_rolls_back_on_ledger_failure "rest1"
              (Sample.completedCallback "61")
              (Sample.world Sample.ledgerDown Sample.user) Sample.callLog "u1" Sample.user)
    as (_ & Hclear & _ & Hledger & _);
    [ reflexivity | reflexivity | reflexivity | reflexivity | reflexivity | reflexivity
    | intros n; reflexivity | reflexivity | reflexivity | reflexivity | ].
  split; [exact Hclear | exact Hledger].
Defined.

(** ** Recording the usage of a claimed call *)

Lemma report_run (userId : string) (w : World) :
  stripeService.reportOveragesToStripe userId w =
    (Ok tt, snd (stripeService.reportOveragesToStripe userId w)).
Proof. destruct (report_outcome userId w) as (w' & -> & _). reflexivity. Qed.

Lemma report_frame (userId : string) (w : World) :
  sameOutsideLedger w (snd (stripeService.reportOveragesToStripe userId w)).
Proof. destruct (report_outcome userId w) as (w' & -> & F & _). exact F. Qed.

Lemma report_env (userId : string) (w : World) :
  env (snd (stripeService.reportOveragesToStripe userId w)) = env w.
Proof. apply (report_frame userId w). Qed.

Lemma report_users (userId : string) (w : World) :
  users (snd (stripeService.reportOveragesToStripe userId w)) = users w.
Proof. apply (report_frame userId w). Qed.

Lemma report_callLogs (userId : string) (w : World) :
  callLogs (snd (stripeService.reportOveragesToStripe userId w)) = callLogs w.
Proof. apply (report_frame userId w). Qed.

Lemma kinds_after_marking (where_ : UsageRecord.t -> bool) (sid : string)
    (rows : list UsageRecord.t) :
  map kindQuantity (sql_update where_ (stripeService.markReported sid) rows)
  = map kindQuantity rows.
Proof.
  unfold sql_update. rewrite map_map. apply map_ext. intros r.
  destruct (where_ r); reflexivity.
Qed.

(** Reporting changes neither the kind nor the quantity of an entry. *)
Lemma report_kinds (userId : string) (w : World) :
  map kindQuantity (usageRecords (snd (stripeService.reportOveragesToStripe userId w)))
  = map kindQuantity (usageRecords w).
Proof.
  destruct (report_outcome userId w) as (w' & -> & _ & Hcases). cbn [snd].
  destruct Hcases as [(-> & _) | Hr]; [reflexivity|].
  destruct Hr as (user & p & q & ty & _ & _ & _ & _ & _ & _ & Hsub). cbn zeta in Hsub.
  destruct Hsub as [(-> & _) | [(-> & _) | [(-> & _) | (-> & _)]]]; try reflexivity.
  apply kinds_after_marking.
Qed.

Lemma selected_after_increment (userId : string) (f : User.t -> User.t)
    (rows : list User.t) (user : User.t) :
  (forall u, User.id (f u) = User.id u) ->
  head (List.filter (fun u => String.eqb (User.id u) userId) rows) = Some user ->
  head (List.filter (fun u => String.eqb (User.id u) userId)
          (sql_update (fun u => String.eqb (User.id u) userId) f rows)) = Some (f user).
Proof.
  intros Hid. unfold sql_update. induction rows as [|u rows IH]; [discriminate|].
  simpl. destruct (String.eqb (User.id u) userId) eqn:Hu.
  - rewrite Hid, Hu. simpl. intros [= ->]. reflexivity.
  - rewrite Hu. exact IH.
Qed.

Lemma incrementUsage_id (type : UsageType) (quantity : Z) (u : User.t) :
  User.id (stripeService.incrementUsage type quantity u) = User.id u.
Proof. destruct type; reflexivity. Qed.

Lemma recordClaimedUsage_recorded (restaurantId : string) (body : routes.Body)
    (c : CallLog.t) (updates : CallLogUpdates.t) (W : World)
    (billingUserId : string) (user : User.t) :
  billingUserFor restaurantId W = Some billingUserId ->
  selectedUser billingUserId W = Some user ->
  executes W SelectAgentConfigurations ->
  reliable W SelectUsers ->
  reliable W InsertUsageRecords ->
  reliable W UpdateUsers ->
  routes.recordClaimedUsage restaurantId body c updates W =
    (Ok tt,
     recordedWorld billingUserId restaurantId
       (Js.ceilDiv60 (routes.durationSeconds body c updates)) user W).
Proof.
  intros Hbilling Huser Hagent Hsel Hins Hupd.
  unfold billingUserFor in Hbilling.
  unfold routes.recordClaimedUsage, routes.try_catch_started, recordedWorld.
  unfold bind at 1. rewrite getAgentConfiguration_run by exact Hagent.
  wsimpl. rewrite Hbilling.
  unfold bind at 1.
  rewrite (recordUsage_written _ _ _ _ _ user) by
    first [exact Huser | apply Hsel | apply Hins | apply Hupd].
  rewrite report_run. unfold ret.
  set (w1 := snd (stripeService.reportOveragesToStripe billingUserId _)).
  assert (Henv1 : env w1 = env W) by (subst w1; rewrite report_env; reflexivity).
  unfold bind at 1.
  destruct (Js.ceilDiv60 (routes.durationSeconds body c updates)) as [m|];
    [destruct (0 <? m)|]; try reflexivity.
  rewrite (recordUsage_written _ _ _ _ _ (stripeService.incrementUsage call 1 user)).
  - rewrite report_run. reflexivity.
  - subst w1. unfold selectedUser. rewrite report_users. unfold usageWritten. wsimpl.
    apply selected_after_increment; [apply incrementUsage_id | exact Huser].
  - unfold executes. rewrite Henv1. apply Hsel.
  - unfold executes. rewrite Henv1. apply Hins.
  - unfold executes. rewrite Henv1. apply Hupd.
Qed.

(** [Number(CallDuration ?? 0)] is only reached with no CallDuration or an
    empty one. *)
Lemma durationSeconds_Number_blank (body : routes.Body) (c : CallLog.t) (now : Z) :
  CallLogUpdates.duration (routes.buildUpdates body c now) = None ->
  CallLog.duration c = None ->
  routes.CallDuration body = None \/ routes.CallDuration body = Some "".
Proof.
  unfold routes.buildUpdates. cbn [CallLogUpdates.duration]. intros Hupd Hdur.
  rewrite Hdur in Hupd. cbn [routes.truthyInt negb andb] in Hupd.
  rewrite andb_true_r in Hupd.
  destruct (routes.CallDuration body) as [s|]; [|left; reflexivity].
  right. destruct (String.eqb_spec s ""); [congruence|].
  unfold Js.truthy in Hupd. destruct (String.eqb_spec s ""); [congruence|discriminate].
Qed.

Lemma ceilDiv60_is_ceiling (d : Z) :
  exists m, Js.ceilDiv60 (Js.Num d) = Js.Num m /\ 60 * (m - 1) < d <= 60 * m.
Proof.
  exists (- ((- d) / 60)). split; [reflexivity|].
  pose proof (Z.div_mod (- d) 60). pose proof (Z.mod_pos_bound (- d) 60). lia.
Qed.

(** The handler's path for a completed, unbilled call whose usage is
    recorded. *)
Lemma statusCallback_recorded (restaurantId : string) (body : routes.Body) (w : World)
    (c : CallLog.t) (billingUserId : string) (user : User.t) :
  found restaurantId body w = Some c ->
  routes.CallStatus body = Some "completed" ->
  CallLog.usageRecordedAt c = None ->
  CallLogUpdates.accepted (routes.buildUpdates body c (clock w)) = true ->
  billingUserFor restaurantId w = Some billingUserId ->
  selectedUser billingUserId w = Some user ->
  reliable w UpdateCallLogs ->
  executes w SelectAgentConfigurations ->
  reliable w SelectUsers ->
  reliable w InsertUsageRecords ->
  reliable w UpdateUsers ->
  In c (callLogs w)
  /\ exists t,
       stripeCalls t = stripeCalls (trace w)
       /\ routes.statusCallback restaurantId body w =
            (Ok (routes.mkResponse 200 "OK"),
             recordedWorld billingUserId restaurantId
               (Js.ceilDiv60
                  (routes.durationSeconds body c (routes.buildUpdates body c (clock w))))
               user
               (claimedWorld c (routes.buildUpdates body c (clock w)) t w)).
Proof.
  intros Hfound Hcompleted Hnull Hacc Hbilling Huser Hrel Hagent Hsel Hins Hupd.
  destruct (statusCallback_claimed restaurantId body w c Hfound Hcompleted Hnull Hacc Hrel)
    as (t & Hocc & Hcalls & ->).
  destruct (statusCallback_found restaurantId body w c Hfound) as (Hin & _).
  split; [exact Hin|]. exists t. split; [exact Hcalls|].
  rewrite (recordClaimedUsage_recorded _ _ _ _ _ billingUserId user);
    [reflexivity | exact Hbilling | exact Huser | | apply Hsel | apply Hins | apply Hupd].
  unfold executes, claimedWorld. wsimpl.
  rewrite !occurrences_other, Hocc by discriminate. exact Hagent.
Qed.

Lemma claimed_rows (c : CallLog.t) (updates : CallLogUpdates.t) (t : list (Op * bool))
    (w : World) :
  In c (callLogs w) ->
  Forall (fun r => CallLog.id r = CallLog.id c -> CallLog.usageRecordedAt r <> None)
    (callLogs (claimedWorld c updates t w))
  /\ exists r, In r (callLogs (claimedWorld c updates t w)) /\ CallLog.id r = CallLog.id c.
Proof.
  intros Hin. unfold claimedWorld. wsimpl. split.
  - apply update_sets_timestamp.
  - unfold claimSet. do 2 apply update_keeps_row. exists c. split; [exact Hin|reflexivity].
Qed.

Lemma recordedWorld_callLogs (u rid : string) (minutes : Js.number) (user : User.t)
    (W : World) :
  callLogs (recordedWorld u rid minutes user W) = callLogs W.
Proof.
  unfold recordedWorld. cbv zeta. wsimpl.
  destruct minutes as [m|]; [destruct (0 <? m)|]; rewrite ?report_callLogs;
    unfold usageWritten; wsimpl; rewrite ?report_callLogs; reflexivity.
Qed.

Lemma recordedWorld_kinds (u rid : string) (minutes : Js.number) (user : User.t)
    (W : World) :
  map kindQuantity (usageRecords (recordedWorld u rid minutes user W))
  = map kindQuantity (usageRecords W) ++ (call, 1) :: minuteEntries minutes.
Proof.
  unfold recordedWorld, minuteEntries. cbv zeta. wsimpl.
  destruct minutes as [m|]; [destruct (0 <? m)|]; rewrite ?report_kinds;
    unfold usageWritten; wsimpl; rewrite ?map_app, ?report_kinds; wsimpl;
    rewrite ?map_app; cbn [map kindQuantity newEntry UsageRecord.type UsageRecord.quantity];
    rewrite <- ?app_assoc; reflexivity.
Qed.

(** C9.  When the handler records the usage of a completed call, the ledger
    grows by one 'call' entry of quantity 1 followed by a 'minute' entry of
    quantity ceil(durationSeconds / 60) exactly when that number is greater
    than 0; the quantity is the ceiling (60 (m - 1) < d <= 60 m), and 61
    seconds give 2 minutes. *)
Theorem statusCallback_bills_ceiling_minutes
    (restaurantId : string) (body : routes.Body) (w : World)
    (c : CallLog.t) (billingUserId : string) (user : User.t) :
  found restaurantId body w = Some c ->
  routes.CallStatus body = Some "completed" ->
  CallLog.usageRecordedAt c = None ->
  CallLogUpdates.accepted (routes.buildUpdates body c (clock w)) = true ->
  billingUserFor restaurantId w = Some billingUserId ->
  selectedUser billingUserId w = Some user ->
  reliable w UpdateCallLogs ->
  executes w SelectAgentConfigurations ->
  reliable w SelectUsers ->
  reliable w InsertUsageRecords ->
  reliable w UpdateUsers ->
  let w' := snd (routes.statusCallback restaurantId body w) in
  let seconds := routes.durationSeconds body c (routes.buildUpdates body c (clock w)) in
  fst (routes.statusCallback restaurantId body w) = Ok (routes.mkResponse 200 "OK")
  /\ map kindQuantity (usageRecords w')
     = map kindQuantity (usageRecords w) ++ (call, 1) :: minuteEntries (Js.ceilDiv60 seconds)
  /\ (forall d, seconds = Js.Num d ->
        exists m, Js.ceilDiv60 seconds = Js.Num m /\ 60 * (m - 1) < d <= 60 * m)
  /\ Js.ceilDiv60 (Js.Num 61) = Js.Num 2.
Proof.
  intros Hfound Hcompleted Hnull Hacc Hbilling Huser Hrel Hagent Hsel Hins Hupd.
  destruct (statusCallback_recorded restaurantId body w c billingUserId user)
    as (Hin & t & Hcalls & ->); try assumption.
  cbn [fst snd]. split; [reflexivity|]. split.
  - rewrite recordedWorld_kinds. reflexivity.
  - split; [|reflexivity]. intros d ->. apply ceilDiv60_is_ceiling.
Qed.

Lemma statusCallback_bills_ceiling_minutes_witness :
  map kindQuantity
    (usageRecords
       (snd (routes.statusCallback "rest1" (Sample.completedCallback "61")
               (Sample.world Sample.healthy Sample.user))))
  = [(call, 1); (minute, 2); (call, 1); (minute, 2)].
Proof.
  refine (proj1 (proj2
    (statusCallback_bills_ceiling_minutes "rest1" (Sample.completedCallback "61")
       (Sample.world Sample.healthy Sample.user) Sample.callLog "u1" Sample.user
       _ _ _ _ _ _ _ _ _ _ _))); try reflexivity; intros n; reflexivity.
Defined.

(** ** When the provider is down, when there is no subscription *)

Lemma report_provider_down (userId : string) (w : World) :
  providerDown w ->
  usageRecords (snd (stripeService.reportOveragesToStripe userId w)) = usageRecords w
  /\ stripeMeterEvents (snd (stripeService.reportOveragesToStripe userId w))
     = stripeMeterEvents w.
Proof.
  intros Hdown.
  destruct (report_outcome userId w) as (w' & E & _ & Hcases).
  rewrite E. cbn [snd].
  destruct Hcases as [(Hl & He & _) | Hr]; [split; assumption|].
  destruct Hr as (user & p & q & ty & _ & _ & _ & _ & _ & _ & Hsub). cbn zeta in Hsub.
  destruct Hsub as [(Hl & He & _) | [(Hl & He & _) | [(Hl & He & Hhd) | (Hl & He & Hhd)]]];
    try (split; assumption).
  all: exfalso; revert E Hhd; clear - Hdown; unfold_report; intros E Hhd; split_run.
  all: destruct Hdown as [Hd|Hd];
    match goal with H : faults _ ?op _ = false |- _ =>
      rewrite Hd in H; discriminate H end.
Qed.

Lemma report_no_subscription (userId : string) (w : World) (user : User.t) :
  selectedUser userId w = Some user ->
  Js.truthy (User.stripeSubscriptionId user) = false ->
  executes w SelectUsers ->
  snd (stripeService.reportOveragesToStripe userId w)
  = set_trace ((SelectUsers, true) :: trace w) w.
Proof.
  unfold selectedUser, executes. intros Hu Hsub Hsel.
  unfold_report. rewrite Hsel. wsimpl. rewrite Hu, Hsub. reflexivity.
Qed.

Lemma incrementUsage_subscription (type : UsageType) (quantity : Z) (u : User.t) :
  User.stripeSubscriptionId (stripeService.incrementUsage type quantity u)
  = User.stripeSubscriptionId u.
Proof. destruct type; reflexivity. Qed.

Lemma newEntry_unreported (u rid : string) (ty : UsageType) (q : Z) (user : User.t)
    (w : World) :
  unreportedEntry (newEntry u rid ty q user w).
Proof. split; reflexivity. Qed.

Lemma recordedWorld_provider_down (u rid : string) (minutes : Js.number) (user : User.t)
    (W : World) :
  providerDown W ->
  (exists entries,
     usageRecords (recordedWorld u rid minutes user W) = usageRecords W ++ entries
     /\ map kindQuantity entries = (call, 1) :: minuteEntries minutes
     /\ Forall unreportedEntry entries)
  /\ stripeMeterEvents (recordedWorld u rid minutes user W) = stripeMeterEvents W.
Proof.
  intros Hdown. unfold recordedWorld, minuteEntries. cbv zeta. wsimpl.
  set (X1 := usageWritten u rid call 1 user _).
  assert (Hd1 : providerDown X1) by exact Hdown.
  destruct (report_provider_down u X1 Hd1) as (Hl1 & He1).
  set (w1 := snd (stripeService.reportOveragesToStripe u X1)) in *.
  assert (Hcall : exists e,
            usageRecords w1 = usageRecords W ++ [e]
            /\ kindQuantity e = (call, 1) /\ unreportedEntry e).
  { eexists. rewrite Hl1. unfold X1, usageWritten. wsimpl.
    split; [reflexivity|]. split; [reflexivity | apply newEntry_unreported]. }
  destruct Hcall as (e1 & Hc1 & Hk1 & Hu1).
  assert (Hc2 : stripeMeterEvents w1 = stripeMeterEvents W) by (rewrite He1; reflexivity).
  destruct minutes as [m|]; [destruct (0 <? m)|].
  - set (X2 := usageWritten u rid minute m _ w1).
    assert (Hd2 : providerDown X2).
    { unfold providerDown, X2, usageWritten. wsimpl. unfold w1. rewrite report_env.
      exact Hdown. }
    destruct (report_provider_down u X2 Hd2) as (Hl2 & He2).
    rewrite Hl2, He2. unfold X2, usageWritten. wsimpl. rewrite Hc1, Hc2.
    split; [|reflexivity]. eexists. rewrite <- app_assoc. split; [reflexivity|].
    cbn [app map]. rewrite Hk1. split; [reflexivity|].
    constructor; [exact Hu1|]. constructor; [apply newEntry_unreported | constructor].
  - split; [|exact Hc2]. exists [e1]. split; [exact Hc1|]. cbn [map]. rewrite Hk1.
    split; [reflexivity|]. constructor; [exact Hu1 | constructor].
  - split; [|exact Hc2]. exists [e1]. split; [exact Hc1|]. cbn [map]. rewrite Hk1.
    split; [reflexivity|]. constructor; [exact Hu1 | constructor].
Qed.

(** C3.  A completed call is claimed and its ledger entries are written,
    and the provider cannot be reached: the handler answers 200, the
    usage-recorded timestamp of the call stays non-null, the ledger is the
    old ledger followed by the new entries (the call entry, and the minute
    entry if there are minutes), all of them with reported = false and no
    provider identifier, and the provider has accepted no event. *)
Theorem statusCallback_keeps_claim_on_provider_failure
    (restaurantId : string) (body : routes.Body) (w : World)
    (c : CallLog.t) (billingUserId : string) (user : User.t) :
  found restaurantId body w = Some c ->
  routes.CallStatus body = Some "completed" ->
  CallLog.usageRecordedAt c = None ->
  CallLogUpdates.accepted (routes.buildUpdates body c (clock w)) = true ->
  billingUserFor restaurantId w = Some billingUserId ->
  selectedUser billingUserId w = Some user ->
  reliable w UpdateCallLogs ->
  executes w SelectAgentConfigurations ->
  reliable w SelectUsers ->
  reliable w InsertUsageRecords ->
  reliable w UpdateUsers ->
  providerDown w ->
  let w' := snd (routes.statusCallback restaurantId body w) in
  let seconds := routes.durationSeconds body c (routes.buildUpdates body c (clock w)) in
  fst (routes.statusCallback restaurantId body w) = Ok (routes.mkResponse 200 "OK")
  /\ Forall (fun r => CallLog.id r = CallLog.id c -> CallLog.usageRecordedAt r <> None)
       (callLogs w')
  /\ (exists r, In r (callLogs w') /\ CallLog.id r = CallLog.id c)
  /\ (exists entries,
        usageRecords w' = usageRecords w ++ entries
        /\ map kindQuantity entries = (call, 1) :: minuteEntries (Js.ceilDiv60 seconds)
        /\ Forall unreportedEntry entries)
  /\ stripeMeterEvents w' = stripeMeterEvents w.
Proof.
  intros Hfound Hcompleted Hnull Hacc Hbilling Huser Hrel Hagent Hsel Hins Hupd Hdown.
  destruct (statusCallback_recorded restaurantId body w c billingUserId user)
    as (Hin & t & Hcalls & ->); try assumption.
  cbn [fst snd]. split; [reflexivity|].
  rewrite recordedWorld_callLogs.
  destruct (claimed_rows c (routes.buildUpdates body c (clock w)) t w Hin) as (Hset & Hrow).
  split; [exact Hset|]. split; [exact Hrow|].
  exact (recordedWorld_provider_down _ _ _ _
           (claimedWorld c (routes.buildUpdates body c (clock w)) t w) Hdown).
Qed.

Lemma statusCallback_keeps_claim_on_provider_failure_witness :
  let w' := snd (routes.statusCallback "rest1" (Sample.completedCallback "61")
                   (Sample.world Sample.meterDown Sample.user)) in
  Forall (fun r => CallLog.id r = "c1" -> CallLog.usageRecordedAt r <> None) (callLogs w')
  /\ stripeMeterEvents w' = [].
Proof.
  destruct (statusCallback_keeps_claim_on_provider_failure "rest1"
              (Sample.completedCallback "61")
              (Sample.world Sample.meterDown Sample.user) Sample.callLog "u1" Sample.user)
    as (_ & Hclaim & _ & _ & Hev);
    [ reflexivity | reflexivity | reflexivity | reflexivity | reflexivity | reflexivity
    | intros n; reflexivity | reflexivity
    | intros n; reflexivity | intros n; reflexivity | intros n; reflexivity
    | right; intros n; reflexivity | ].
  split; [exact Hclaim | exact Hev].
Defined.

Lemma recordedWorld_no_subscription (u rid : string) (minutes : Js.number) (user : User.t)
    (W : World) :
  selectedUser u W = Some user ->
  Js.truthy (User.stripeSubscriptionId user) = false ->
  reliable W SelectUsers ->
  (exists entries,
     usageRecords (recordedWorld u rid minutes user W) = usageRecords W ++ entries
     /\ map kindQuantity entries = (call, 1) :: minuteEntries minutes
     /\ Forall unreportedEntry entries)
  /\ stripeMeterEvents (recordedWorld u rid minutes user W) = stripeMeterEvents W
  /\ stripeCalls (trace (recordedWorld u rid minutes user W)) = stripeCalls (trace W)
  /\ consoleErrors (console (recordedWorld u rid minutes user W)) = consoleErrors (console W).
Proof.
  intros Huser Hsub Hsel. unfold recordedWorld, minuteEntries. cbv zeta.
  rewrite (report_no_subscription u _ (stripeService.incrementUsage call 1 user)); cycle 1.
  { unfold selectedUser, usageWritten. wsimpl.
    apply selected_after_increment; [apply incrementUsage_id | exact Huser]. }
  { rewrite incrementUsage_subscription. exact Hsub. }
  { apply Hsel. }
  destruct minutes as [m|]; [destruct (0 <? m)|].
  - rewrite (report_no_subscription u _
               (stripeService.incrementUsage minute m
                  (stripeService.incrementUsage call 1 user))); cycle 1.
    { unfold selectedUser, usageWritten. wsimpl.
      apply selected_after_increment; [apply incrementUsage_id|].
      apply selected_after_increment; [apply incrementUsage_id | exact Huser]. }
    { rewrite !incrementUsage_subscription. exact Hsub. }
    { apply Hsel. }
    unfold usageWritten. wsimpl. split; [|repeat split; reflexivity].
    eexists. rewrite <- app_assoc. split; [reflexivity|]. split; [reflexivity|].
    repeat constructor.
  - unfold usageWritten. wsimpl. split; [|repeat split; reflexivity].
    eexists. split; [reflexivity|]. split; [reflexivity|]. repeat constructor.
  - unfold usageWritten. wsimpl. split; [|repeat split; reflexivity].
    eexists. split; [reflexivity|]. split; [reflexivity|]. repeat constructor.
Qed.

(** A completed call of an agent whose billing account has no subscription:
    the call stays claimed and its usage is in the ledger. *)
Lemma statusCallback_claims_without_subscription :
  map CallLog.usageRecordedAt
    (callLogs (snd (routes.statusCallback "rest1" (Sample.completedCallback "61")
                      (Sample.world Sample.healthy Sample.userNoSubscription))))
    = [Some 1000]
  /\ User.stripeSubscriptionId Sample.userNoSubscription = None
  /\ map kindQuantity
       (usageRecords (snd (routes.statusCallback "rest1" (Sample.completedCallback "61")
                             (Sample.world Sample.healthy Sample.userNoSubscription))))
     = [(call, 1); (minute, 2); (call, 1); (minute, 2)].
Proof. repeat split; vm_compute; reflexivity. Qed.

(** C5 (amended).  The handler clears the claim of a completed call when
    the agent has no configuration or no billing user: the usage-recorded
    timestamp is null again, nothing is written to the ledger, the provider
    is not called, a warning is logged and the answer is 200.  When the
    billing user's account has no subscription, nothing is an error either:
    the usage is written to the ledger, overage reporting does nothing (no
    provider call, no error logged), and the call stays claimed. *)
Theorem statusCallback_without_billing_configuration
    (restaurantId : string) (body : routes.Body) (w : World) (c : CallLog.t) :
  found restaurantId body w = Some c ->
  routes.CallStatus body = Some "completed" ->
  CallLog.usageRecordedAt c = None ->
  CallLogUpdates.accepted (routes.buildUpdates body c (clock w)) = true ->
  reliable w UpdateCallLogs ->
  executes w SelectAgentConfigurations ->
  let w' := snd (routes.statusCallback restaurantId body w) in
  let seconds := routes.durationSeconds body c (routes.buildUpdates body c (clock w)) in
  (billingUserFor restaurantId w = None ->
   fst (routes.statusCallback restaurantId body w) = Ok (routes.mkResponse 200 "OK")
   /\ Forall (fun r => CallLog.id r = CallLog.id c -> CallLog.usageRecordedAt r = None)
        (callLogs w')
   /\ usageRecords w' = usageRecords w
   /\ noProviderCall w w'
   /\ console w' =
        ConsoleWarn "Agent has no billing user set, rolling back usage claim"
        :: ConsoleLog "Updated call log with status"
        :: ConsoleLog "Status callback" :: console w)
  /\ (forall billingUserId user,
        billingUserFor restaurantId w = Some billingUserId ->
        selectedUser billingUserId w = Some user ->
        Js.truthy (User.stripeSubscriptionId user) = false ->
        reliable w SelectUsers ->
        reliable w InsertUsageRecords ->
        reliable w UpdateUsers ->
        fst (routes.statusCallback restaurantId body w) = Ok (routes.mkResponse 200 "OK")
        /\ Forall (fun r => CallLog.id r = CallLog.id c -> CallLog.usageRecordedAt r <> None)
             (callLogs w')
        /\ (exists r, In r (callLogs w') /\ CallLog.id r = CallLog.id c)
        /\ (exists entries,
              usageRecords w' = usageRecords w ++ entries
              /\ map kindQuantity entries = (call, 1) :: minuteEntries (Js.ceilDiv60 seconds)
              /\ Forall unreportedEntry entries)
        /\ noProviderCall w w'
        /\ consoleErrors (console w') = consoleErrors (console w)).
Proof.
  intros Hfound Hcompleted Hnull Hacc Hrel Hagent. cbv zeta. split.
  - intros Hbilling.
    cut (exists W',
           routes.statusCallback restaurantId body w = (Ok (routes.mkResponse 200 "OK"), W')
           /\ Forall (fun r => CallLog.id r = CallLog.id c -> CallLog.usageRecordedAt r = None)
                (callLogs W')
           /\ usageRecords W' = usageRecords w
           /\ noProviderCall w W'
           /\ console W' =
                ConsoleWarn "Agent has no billing user set, rolling back usage claim"
                :: ConsoleLog "Updated call log with status"
                :: ConsoleLog "Status callback" :: console w).
    { intros (W' & -> & HP). cbn [fst snd]. split; [reflexivity | exact HP]. }
    destruct (statusCallback_claimed restaurantId body w c Hfound Hcompleted Hnull Hacc Hrel)
      as (t & Hocc & Hcalls & ->).
    unfold billingUserFor in Hbilling. unfold executes in Hagent.
    unfold routes.recordClaimedUsage, routes.try_catch_started.
    unfold bind at 1.
    rewrite getAgentConfiguration_run; cycle 1.
    { unfold executes, claimedWorld. wsimpl.
      rewrite !occurrences_other, Hocc by discriminate. exact Hagent. }
    unfold claimedWorld at 1. wsimpl. rewrite Hbilling.
    unfold bind at 1. unfold console_warn, modify. wsimpl.
    unfold bind at 1.
    edestruct (updateCallLog_run (CallLog.id c) (CallLogUpdates.only_usageRecordedAt None))
      as (r & ->); [reflexivity | apply Hrel |].
    unfold ret, respond, claimedWorld. wsimpl.
    eexists. split; [reflexivity|]. wsimpl.
    split; [apply rollback_clears|]. split; [reflexivity|].
    split; [|reflexivity].
    split; [cbn [stripeCalls List.filter fst isStripeOp]; exact Hcalls | reflexivity].
  - intros billingUserId user Hbilling Huser Hsub Hsel Hins Hupd.
    destruct (statusCallback_recorded restaurantId body w c billingUserId user)
      as (Hin & t & Hcalls & ->); try assumption.
    cbn [fst snd]. split; [reflexivity|].
    rewrite recordedWorld_callLogs.
    destruct (claimed_rows c (routes.buildUpdates body c (clock w)) t w Hin) as (Hset & Hrow).
    split; [exact Hset|]. split; [exact Hrow|].
    destruct (recordedWorld_no_subscription billingUserId restaurantId
                (Js.ceilDiv60
                   (routes.durationSeconds body c (routes.buildUpdates body c (clock w))))
                user (claimedWorld c (routes.buildUpdates body c (clock w)) t w))
      as (Hentries & Hev & Htr & Hcon); [exact Huser | exact Hsub | apply Hsel |].
    split; [exact Hentries|]. split; [|exact Hcon].
    split; [|exact Hev].
    rewrite Htr. unfold claimedWorld. wsimpl.
    cbn [stripeCalls List.filter fst isStripeOp]. exact Hcalls.
Qed.

Lemma statusCallback_without_billing_configuration_witness :
  let noAgent :=
    set_agentConfigurations [] (Sample.world Sample.healthy Sample.userNoSubscription) in
  Forall (fun r => CallLog.id r = "c1" -> CallLog.usageRecordedAt r = None)
    (callLogs (snd (routes.statusCallback "rest1" (Sample.completedCallback "61") noAgent)))
  /\ noProviderCall
       (Sample.world Sample.healthy Sample.userNoSubscription)
       (snd (routes.statusCallback "rest1" (Sample.completedCallback "61")
               (Sample.world Sample.healthy Sample.userNoSubscription))).
Proof.
  intros noAgent. split.
  - destruct (statusCallback_without_billing_configuration "rest1"
                (Sample.completedCallback "61") noAgent Sample.callLog) as (Hnone & _);
      [ reflexivity | reflexivity | reflexivity | reflexivity
      | intros n; reflexivity | reflexivity | ].
    destruct Hnone as (_ & Hclear & _); [reflexivity | exact Hclear].
  - destruct (statusCallback_without_billing_configuration "rest1"
                (Sample.completedCallback "61")
                (Sample.world Sample.healthy Sample.userNoSubscription) Sample.callLog)
      as (_ & Hsome);
      [ reflexivity | reflexivity | reflexivity | reflexivity
      | intros n; reflexivity | reflexivity | ].
    destruct (Hsome "u1" Sample.userNoSubscription) as (_ & _ & _ & _ & Hquiet & _);
      [ reflexivity | reflexivity | reflexivity
      | intros n; reflexivity | intros n; reflexivity | intros n; reflexivity | ].
    exact Hquiet.
Defined.

(** C10.  A status callback that finds a call log and whose CallStatus is
    anything but 'completed' (or is absent) writes status 'failed': the
    [updates] object always carries 'completed' or 'failed', never the
    previous status, and once the UPDATE is executed every row with the id
    of the call log has status 'failed'. *)
Theorem statusCallback_collapses_to_failed
    (restaurantId : string) (body : routes.Body) (w : World) (c : CallLog.t) :
  found restaurantId body w = Some c ->
  routes.CallStatus body <> Some "completed" ->
  CallLogUpdates.accepted (routes.buildUpdates body c (clock w)) = true ->
  executes w UpdateCallLogs ->
  let w' := snd (routes.statusCallback restaurantId body w) in
  CallLogUpdates.status (routes.buildUpdates body c (clock w)) = Some failed
  /\ fst (routes.statusCallback restaurantId body w) = Ok (routes.mkResponse 200 "OK")
  /\ Forall (fun r => CallLog.id r = CallLog.id c -> CallLog.status r = failed) (callLogs w')
  /\ (exists r, In r (callLogs w') /\ CallLog.id r = CallLog.id c).
Proof.
  intros Hfound Hstatus Hacc Hex.
  assert (Hfailed : CallLogUpdates.status (routes.buildUpdates body c (clock w)) = Some failed).
  { unfold routes.buildUpdates. cbn [CallLogUpdates.status].
    rewrite (eqText_not_completed _ Hstatus). reflexivity. }
  cut (exists W',
         routes.statusCallback restaurantId body w = (Ok (routes.mkResponse 200 "OK"), W')
         /\ Forall (fun r => CallLog.id r = CallLog.id c -> CallLog.status r = failed)
              (callLogs W')
         /\ (exists r, In r (callLogs W') /\ CallLog.id r = CallLog.id c)).
  { intros (W' & -> & HP). cbn [fst snd]. split; [exact Hfailed|].
    split; [reflexivity | exact HP]. }
  destruct (statusCallback_found restaurantId body w c Hfound)
    as (Hin & t & Hocc & Hcalls & ->).
  unfold routes.updateAndRecord. unfold bind at 1. unfold newDate, gets. wsimpl.
  unfold bind at 1.
  edestruct (updateCallLog_run (CallLog.id c) (routes.buildUpdates body c (clock w)))
    as (r & ->); [exact Hacc | |].
  { unfold executes. wsimpl. rewrite Hocc by discriminate. exact Hex. }
  unfold bind at 1. unfold console_log, modify. wsimpl.
  rewrite (eqText_not_completed _ Hstatus). cbn [andb].
  unfold ret, respond. eexists. split; [reflexivity|]. wsimpl. split.
  - apply update_sets_status. exact Hfailed.
  - apply update_keeps_row. exists c. split; [exact Hin | reflexivity].
Qed.

Lemma statusCallback_collapses_to_failed_witness :
  Forall (fun r => CallLog.id r = "c1" -> CallLog.status r = failed)
    (callLogs (snd (routes.statusCallback "rest1" Sample.ringingCallback
                      (Sample.world Sample.healthy Sample.user)))).
Proof.
  destruct (statusCallback_collapses_to_failed "rest1" Sample.ringingCallback
              (Sample.world Sample.healthy Sample.user) Sample.callLog)
    as (_ & _ & Hall & _); [reflexivity | discriminate | reflexivity | reflexivity |].
  exact Hall.
Defined.

(** ** The sweepers *)

Lemma sql_update_no_match {A} (where_ : A -> bool) (set : A -> A) (rows : list A) :
  Forall (fun r => where_ r = false) rows ->
  sql_update where_ set rows = rows /\ sql_returning where_ set rows = [].
Proof.
  unfold sql_update, sql_returning. induction 1 as [|r rows Hr _ [IH1 IH2]]; [split; reflexivity|].
  simpl. rewrite Hr, IH1, IH2. split; reflexivity.
Qed.

Lemma sql_update_frame {A} (where_ : A -> bool) (set : A -> A) (rows : list A)
    (i : nat) (r : A) :
  nth_error rows i = Some r -> where_ r = false ->
  nth_error (sql_update where_ set rows) i = Some r.
Proof.
  intros Hi Hr. unfold sql_update. rewrite nth_error_map, Hi. simpl. rewrite Hr. reflexivity.
Qed.

Lemma waitTime_where_changed (agent row : AgentConfiguration.t) :
  AgentConfiguration.resetWaitTimeAt row <> AgentConfiguration.resetWaitTimeAt agent ->
  WaitTimeResetScheduler.where_ agent row = false.
Proof.
  intros Hne. unfold WaitTimeResetScheduler.where_.
  destruct (AgentConfiguration.resetWaitTimeAt agent) as [t0|],
           (AgentConfiguration.resetWaitTimeAt row) as [t1|]; simpl;
    try apply andb_false_r; try congruence.
  destruct (Z.eqb_spec t1 t0); [congruence | apply andb_false_r].
Qed.

Lemma override_where_changed (override row : MenuOverride.t) :
  MenuOverride.resetAt row <> MenuOverride.resetAt override
  \/ MenuOverride.status row <> MenuOverride.status override ->
  MenuOverrideResetScheduler.where_ override row = false.
Proof.
  intros Hne. unfold MenuOverrideResetScheduler.where_.
  destruct Hne as [Hne|Hne].
  - destruct (MenuOverride.resetAt override) as [t0|],
             (MenuOverride.resetAt row) as [t1|]; simpl;
      try apply andb_false_r; try congruence.
    destruct (Z.eqb_spec t1 t0); [congruence | apply andb_false_r].
  - rewrite (bool_decide_eq_false_2 _ Hne). rewrite andb_false_r. reflexivity.
Qed.

(** C8.  A row whose reset-at timestamp (for a menu override: reset-at or
    status) differs from the value the sweeper read is left as it is by the
    sweeper's conditional UPDATE, whatever was written to it.  When every
    row with the id of the row being processed has been changed since the
    read, the UPDATE matches nothing: the table keeps the concurrent
    writes, the count is not incremented, the skip is logged with
    console.log (no error), and the loop goes on with the remaining rows. *)
Theorem sweepers_skip_concurrently_edited_rows :
  (forall (agent row : AgentConfiguration.t) (rows : list AgentConfiguration.t) (i : nat),
     nth_error rows i = Some row ->
     AgentConfiguration.resetWaitTimeAt row <> AgentConfiguration.resetWaitTimeAt agent ->
     nth_error
       (sql_update (WaitTimeResetScheduler.where_ agent) (WaitTimeResetScheduler.set agent) rows)
       i = Some row)
  /\ (forall (others : nat -> list AgentConfiguration.t -> list AgentConfiguration.t)
             (k : nat) (agent : AgentConfiguration.t) (rest : list AgentConfiguration.t)
             (resetCount : nat) (W : World),
        let edited := others k (agentConfigurations W) in
        let W' :=
          set_console
            (ConsoleLog "Agent reset was skipped - resetWaitTimeAt was modified concurrently"
             :: console W)
            (set_trace ((UpdateAgentConfigurations, true) :: trace W)
               (set_agentConfigurations edited W)) in
        Forall (fun row =>
                  AgentConfiguration.id row = AgentConfiguration.id agent ->
                  AgentConfiguration.resetWaitTimeAt row
                  <> AgentConfiguration.resetWaitTimeAt agent) edited ->
        executes W UpdateAgentConfigurations ->
        WaitTimeResetScheduler.resetAgent agent resetCount (set_agentConfigurations edited W)
          = (Ok resetCount, W')
        /\ agentConfigurations W' = edited
        /\ WaitTimeResetScheduler.resetAgents others k (agent :: rest) resetCount W
           = WaitTimeResetScheduler.resetAgents others (S k) rest resetCount W')
  /\ (forall (override row : MenuOverride.t) (rows : list MenuOverride.t) (i : nat),
        nth_error rows i = Some row ->
        MenuOverride.resetAt row <> MenuOverride.resetAt override
        \/ MenuOverride.status row <> MenuOverride.status override ->
        nth_error
          (sql_update (MenuOverrideResetScheduler.where_ override)
             MenuOverrideResetScheduler.set rows) i = Some row)
  /\ (forall (others : nat -> list MenuOverride.t -> list MenuOverride.t)
             (k : nat) (override : MenuOverride.t) (rest : list MenuOverride.t)
             (deletedCount : nat) (W : World),
        let edited := others k (menuOverrides W) in
        let W' :=
          set_console
            (ConsoleLog
               "Override deletion was skipped - status or resetAt was modified concurrently"
             :: console W)
            (set_trace ((UpdateMenuOverrides, true) :: trace W)
               (set_menuOverrides edited W)) in
        Forall (fun row =>
                  MenuOverride.id row = MenuOverride.id override ->
                  MenuOverride.resetAt row <> MenuOverride.resetAt override
                  \/ MenuOverride.status row <> MenuOverride.status override) edited ->
        executes W UpdateMenuOverrides ->
        MenuOverrideResetScheduler.deleteOverride override deletedCount
          (set_menuOverrides edited W) = (Ok deletedCount, W')
        /\ menuOverrides W' = edited
        /\ MenuOverrideResetScheduler.deleteOverrides others k (override :: rest)
             deletedCount W
           = MenuOverrideResetScheduler.deleteOverrides others (S k) rest deletedCount W').
Proof.
  split; [|split; [|split]].
  - intros agent row rows i Hi Hne.
    apply sql_update_frame; [exact Hi | apply waitTime_where_changed, Hne].
  - intros others k agent rest resetCount W edited W' Hall Hex.
    assert (Hnone : Forall (fun r => WaitTimeResetScheduler.where_ agent r = false) edited).
    { eapply List.Forall_impl; [|exact Hall]. intros r Hr.
      destruct (String.eqb_spec (AgentConfiguration.id r) (AgentConfiguration.id agent))
        as [Heq|Hneq].
      - apply waitTime_where_changed, Hr, Heq.
      - unfold WaitTimeResetScheduler.where_.
        apply String.eqb_neq in Hneq. rewrite Hneq. reflexivity. }
    destruct (sql_update_no_match _ (WaitTimeResetScheduler.set agent) _ Hnone) as (Hu & Hr).
    assert (Hrun : WaitTimeResetScheduler.resetAgent agent resetCount
                     (set_agentConfigurations edited W) = (Ok resetCount, W')).
    { unfold WaitTimeResetScheduler.resetAgent. unfold_monad. wsimpl.
      unfold executes in Hex. rewrite Hex. wsimpl. rewrite Hr, Hu. reflexivity. }
    split; [exact Hrun|]. split; [reflexivity|].
    cbn [WaitTimeResetScheduler.resetAgents]. unfold bind at 1. unfold modify at 1.
    unfold bind at 1. fold edited. rewrite Hrun. reflexivity.
  - intros override row rows i Hi Hne.
    apply sql_update_frame; [exact Hi | apply override_where_changed, Hne].
  - intros others k override rest deletedCount W edited W' Hall Hex.
    assert (Hnone : Forall (fun r => MenuOverrideResetScheduler.where_ override r = false)
                      edited).
    { eapply List.Forall_impl; [|exact Hall]. intros r Hr.
      destruct (String.eqb_spec (MenuOverride.id r) (MenuOverride.id override))
        as [Heq|Hneq].
      - apply override_where_changed, Hr, Heq.
      - unfold MenuOverrideResetScheduler.where_.
        apply String.eqb_neq in Hneq. rewrite Hneq. reflexivity. }
    destruct (sql_update_no_match _ MenuOverrideResetScheduler.set _ Hnone) as (Hu & Hr).
    assert (Hrun : MenuOverrideResetScheduler.deleteOverride override deletedCount
                     (set_menuOverrides edited W) = (Ok deletedCount, W')).
    { unfold MenuOverrideResetScheduler.deleteOverride. unfold_monad. wsimpl.
      unfold executes in Hex. rewrite Hex. wsimpl. rewrite Hr, Hu. reflexivity. }
    split; [exact Hrun|]. split; [reflexivity|].
    cbn [MenuOverrideResetScheduler.deleteOverrides]. unfold bind at 1. unfold modify at 1.
    unfold bind at 1. fold edited. rewrite Hrun. reflexivity.
Qed.

Lemma sweepers_skip_concurrently_edited_rows_witness :
  let w := Sample.world Sample.healthy Sample.user in
  nth_error
    (sql_update (WaitTimeResetScheduler.where_ Sample.agent)
       (WaitTimeResetScheduler.set Sample.agent) [Sample.editWaitTime Sample.agent]) 0
    = Some (Sample.editWaitTime Sample.agent)
  /\ fst (WaitTimeResetScheduler.resetAgent Sample.agent 0
            (set_agentConfigurations [Sample.editWaitTime Sample.agent] w)) = Ok 0%nat
  /\ nth_error
       (sql_update (MenuOverrideResetScheduler.where_ Sample.override)
          MenuOverrideResetScheduler.set [Sample.editOverride Sample.override]) 0
     = Some (Sample.editOverride Sample.override)
  /\ fst (MenuOverrideResetScheduler.deleteOverride Sample.override 0
            (set_menuOverrides [Sample.editOverride Sample.override] w)) = Ok 0%nat.
Proof.
  intros w.
  destruct sweepers_skip_concurrently_edited_rows as (Hframe & Hwait & Hframe' & Hmenu).
  split; [|split; [|split]].
  - apply (Hframe Sample.agent); [reflexivity | discriminate].
  - destruct (Hwait (fun _ => map Sample.editWaitTime) 0%nat Sample.agent [] 0%nat w)
      as (Hrun & _); [ | reflexivity | ].
    + constructor; [intros _; discriminate | constructor].
    + unfold w in *. cbn [Sample.world agentConfigurations map] in Hrun. rewrite Hrun.
      reflexivity.
  - apply (Hframe' Sample.override); [reflexivity | left; discriminate].
  - destruct (Hmenu (fun _ => map Sample.editOverride) 0%nat Sample.override [] 0%nat w)
      as (Hrun & _); [ | reflexivity | ].
    + constructor; [intros _; left; discriminate | constructor].
    + unfold w in *. cbn [Sample.world menuOverrides map] in Hrun. rewrite Hrun.
      reflexivity.
Defined.

(** * Properties of the handler, the sweepers and the other services *)

Lemma update_keeps_claims (where_ : CallLog.t -> bool) (updates : CallLogUpdates.t)
    (rows : list CallLog.t) :
  CallLogUpdates.usageRecordedAt updates = None ->
  map CallLog.usageRecordedAt (sql_update where_ (CallLogUpdates.set updates) rows)
  = map CallLog.usageRecordedAt rows.
Proof.
  intros Hu. unfold sql_update. rewrite map_map. apply map_ext. intros r.
  destruct (where_ r); [|reflexivity].
  unfold CallLogUpdates.set. cbn [CallLog.usageRecordedAt]. rewrite Hu. reflexivity.
Qed.

Lemma respond_snd (r : Result unit * World) :
  let w' := snd (respond r) in
  callLogs w' = callLogs (snd r) /\ usageRecords w' = usageRecords (snd r)
  /\ users w' = users (snd r) /\ stripeMeterEvents w' = stripeMeterEvents (snd r)
  /\ trace w' = trace (snd r) /\ agentConfigurations w' = agentConfigurations (snd r).
Proof. destruct r as [[[]|e] w']; repeat split; reflexivity. Qed.

(** When the call is not completed or is already claimed, updateAndRecord
    only updates the row. *)
Lemma updateAndRecord_no_billing (restaurantId : string) (body : routes.Body)
    (c : CallLog.t) (W : World) :
  routes.CallStatus body <> Some "completed" \/ CallLog.usageRecordedAt c <> None ->
  billingUntouched W (snd (routes.updateAndRecord restaurantId body c W)).
Proof.
  intros Hcond.
  assert (Hif : eqText (routes.CallStatus body) "completed"
                && isNull (CallLog.usageRecordedAt c) = false).
  { destruct Hcond as [H|H].
    - rewrite (eqText_not_completed _ H). reflexivity.
    - destruct (CallLog.usageRecordedAt c); [|congruence]. apply andb_false_r. }
  unfold billingUntouched, noProviderCall.
  unfold routes.updateAndRecord. rewrite Hif.
  unfold storage.updateCallLog. unfold_monad. split_run.
  all: repeat split; try reflexivity.
  all: apply update_keeps_claims; reflexivity.
Qed.

Lemma billingUntouched_found (restaurantId : string) (body : routes.Body) (w : World)
    (c : CallLog.t) :
  found restaurantId body w = Some c ->
  (forall W, billingUntouched W (snd (routes.updateAndRecord restaurantId body c W))) ->
  billingUntouched w (snd (routes.statusCallback restaurantId body w)).
Proof.
  intros Hfound HW.
  destruct (statusCallback_found restaurantId body w c Hfound)
    as (Hin & t & Hocc & Hcalls & ->).
  specialize (HW (set_trace t (set_console (ConsoleLog "Status callback" :: console w) w))).
  unfold billingUntouched, noProviderCall in *.
  destruct (respond_snd (routes.updateAndRecord restaurantId body c
              (set_trace t (set_console (ConsoleLog "Status callback" :: console w) w))))
    as (-> & -> & -> & -> & -> & _).
  wsimpl. rewrite <- Hcalls. exact HW.
Qed.

(** X1.  A status callback bills only a completed call that has not been
    claimed: when the status it carries is not 'completed', or the call log
    it finds already has a usage-recorded timestamp, the ledger, the
    counters of the accounts, the provider and the usage-recorded timestamp
    of every call log are left as they were, whatever fails. *)
Theorem statusCallback_bills_only_unclaimed_completed
    (restaurantId : string) (body : routes.Body) (w : World) (c : CallLog.t) :
  found restaurantId body w = Some c ->
  routes.CallStatus body <> Some "completed" \/ CallLog.usageRecordedAt c <> None ->
  billingUntouched w (snd (routes.statusCallback restaurantId body w)).
Proof.
  intros Hfound Hcond. apply (billingUntouched_found _ _ _ c Hfound).
  intros W. apply updateAndRecord_no_billing, Hcond.
Qed.

Lemma statusCallback_bills_only_unclaimed_completed_witness :
  billingUntouched (Sample.world Sample.healthy Sample.user)
    (snd (routes.statusCallback "rest1" Sample.ringingCallback
            (Sample.world Sample.healthy Sample.user))).
Proof.
  apply (statusCallback_bills_only_unclaimed_completed "rest1" Sample.ringingCallback
           (Sample.world Sample.healthy Sample.user) Sample.callLog);
    [reflexivity | left; discriminate].
Defined.

(** Without a call log the handler only logs. *)
Lemma statusCallback_not_found (restaurantId : string) (body : routes.Body) (w : World) :
  found restaurantId body w = None ->
  exists W',
    routes.statusCallback restaurantId body w =
      (Ok (match fst (routes.findCallLog restaurantId body w) with
           | Ok _ => routes.mkResponse 200 "OK"
           | Throw _ => routes.mkResponse 500 "Error"
           end), W')
    /\ sameOutsideLedger w W'
    /\ usageRecords W' = usageRecords w
    /\ noProviderCall w W'.
Proof.
  unfold found, routes.statusCallback, routes.findCallLog, storage.getCallLogByTwilioSid,
    storage.getCallLogsByRestaurant, sameOutsideLedger, noProviderCall.
  unfold_monad. intros H. split_run.
  all: try congruence.
  all: eexists; split; [reflexivity|]; repeat split; reflexivity.
Qed.

(** X2.  A status callback that finds no call log changes no table: it
    answers 200 when the look-up returned nothing and 500 when the look-up
    threw, and only the console and the trace of SELECTs differ. *)
Theorem statusCallback_unknown_call
    (restaurantId : string) (body : routes.Body) (w : World) :
  found restaurantId body w = None ->
  let r := routes.statusCallback restaurantId body w in
  fst r = Ok (match fst (routes.findCallLog restaurantId body w) with
              | Ok _ => routes.mkResponse 200 "OK"
              | Throw _ => routes.mkResponse 500 "Error"
              end)
  /\ sameOutsideLedger w (snd r)
  /\ usageRecords (snd r) = usageRecords w
  /\ noProviderCall w (snd r).
Proof.
  intros Hnone. destruct (statusCallback_not_found _ _ _ Hnone) as (W' & Hrun & HP).
  cbv zeta. rewrite Hrun. cbn [fst snd]. split; [reflexivity | exact HP].
Qed.

Lemma statusCallback_unknown_call_witness :
  let body := routes.mkBody (Some "CA9") (Some "completed") (Some "61") None in
  let w := Sample.world Sample.healthy Sample.user in
  fst (routes.statusCallback "rest1" body w) = Ok (routes.mkResponse 200 "OK")
  /\ usageRecords (snd (routes.statusCallback "rest1" body w)) = usageRecords w.
Proof.
  destruct (statusCallback_unknown_call "rest1"
              (routes.mkBody (Some "CA9") (Some "completed") (Some "61") None)
              (Sample.world Sample.healthy Sample.user))
    as (Hr & _ & Hl & _); [reflexivity|].
  split; [exact Hr | exact Hl].
Defined.

(** ** Carrying a frame condition through a run *)

Section Keeps.
Context (R : World -> World -> Prop) `{!Frame R}.

Lemma keeps_ret {A} (a : A) : keeps R (ret a).
Proof. intros w. apply frame_refl. Qed.

Lemma keeps_throw {A} (e : Error) : keeps R (@throw A e).
Proof. intros w. apply frame_refl. Qed.

Lemma keeps_gets {A} (f : World -> A) : keeps R (gets f).
Proof. intros w. apply frame_refl. Qed.

Lemma keeps_modify (f : World -> World) : (forall w, R w (f w)) -> keeps R (modify f).
Proof. intros H w. apply H. Qed.

Lemma keeps_bind {A B} (m : M A) (k : A -> M B) :
  keeps R m -> (forall a, keeps R (k a)) -> keeps R (bind m k).
Proof.
  intros Hm Hk w. unfold bind. specialize (Hm w).
  destruct (m w) as [[a|e] w1]; cbn [snd] in *; [|exact Hm].
  eapply frame_trans; [exact Hm | apply Hk].
Qed.

Lemma keeps_try_catch {A} (body : M A) (handler : Error -> M A) :
  keeps R body -> (forall e, keeps R (handler e)) -> keeps R (try_catch body handler).
Proof.
  intros Hm Hk w. unfold try_catch. specialize (Hm w).
  destruct (body w) as [[a|e] w1]; cbn [snd] in *; [exact Hm|].
  eapply frame_trans; [exact Hm | apply Hk].
Qed.

Lemma keeps_try_catch_started {X} (before : M (option X)) (after : X -> M unit)
    (handler : bool -> Error -> M unit) :
  keeps R before -> (forall x, keeps R (after x)) -> (forall b e, keeps R (handler b e)) ->
  keeps R (routes.try_catch_started before after handler).
Proof.
  intros Hb Ha Hh w. unfold routes.try_catch_started. specialize (Hb w).
  destruct (before w) as [[[x|]|e] w1]; cbn [snd] in *.
  - specialize (Ha x w1).
    destruct (after x w1) as [[a|e] w2]; cbn [snd] in *.
    + eapply frame_trans; eassumption.
    + eapply frame_trans; [eapply frame_trans; eassumption | apply Hh].
  - exact Hb.
  - eapply frame_trans; [exact Hb | apply Hh].
Qed.

Lemma keeps_perform (op : Op) : keeps R (perform op).
Proof. intros w. unfold perform. destruct (faults _ _ _); apply frame_trace. Qed.

Lemma keeps_reject {A} (op : Op) (e : Error) : keeps R (@reject A op e).
Proof. intros w. apply frame_trace. Qed.

Lemma keeps_console_log (message : string) : keeps R (console_log message).
Proof. intros w. apply frame_console. Qed.

Lemma keeps_console_warn (message : string) : keeps R (console_warn message).
Proof. intros w. apply frame_console. Qed.

Lemma keeps_console_error (message : string) (e : Error) : keeps R (console_error message e).
Proof. intros w. apply frame_console. Qed.

Lemma keeps_newDate : keeps R newDate.
Proof. apply keeps_gets. Qed.

End Keeps.

(** One step through the structure of a run. *)
Ltac keeps_step :=
  lazymatch goal with
  | |- keeps _ (bind _ _) => refine (keeps_bind _ _ _ _ _); [|intros ?]
  | |- keeps _ (ret _) => refine (keeps_ret _ _)
  | |- keeps _ (throw _) => refine (keeps_throw _ _)
  | |- keeps _ (gets _) => refine (keeps_gets _ _)
  | |- keeps _ newDate => refine (keeps_newDate _)
  | |- keeps _ (perform _) => refine (keeps_perform _ _)
  | |- keeps _ (reject _ _) => refine (keeps_reject _ _ _)
  | |- keeps _ (console_log _) => refine (keeps_console_log _ _)
  | |- keeps _ (console_warn _) => refine (keeps_console_warn _ _)
  | |- keeps _ (console_error _ _) => refine (keeps_console_error _ _ _)
  | |- keeps _ (try_catch _ _) => refine (keeps_try_catch _ _ _ _ _); [|intros ?]
  | |- keeps _ (routes.try_catch_started _ _ _) =>
      refine (keeps_try_catch_started _ _ _ _ _ _ _); [|intros ?|intros ? ?]
  | |- keeps _ (if ?b then _ else _) => destruct b
  | |- keeps _ (match ?x with _ => _ end) => destruct x
  | |- keeps _ (let _ := _ in _) => cbv zeta
  | |- keeps _ _ => progress cbv beta
  end.

(** ** The status callback touches one call *)

Lemma onlyCallLog_same (id : string) (w w' : World) :
  callLogs w' = callLogs w -> onlyCallLog id w w'.
Proof.
  unfold onlyCallLog. intros ->. induction (callLogs w); constructor; auto.
Qed.

Lemma onlyCallLog_frame (id : string) : Frame (onlyCallLog id).
Proof.
  split.
  - intros w. apply onlyCallLog_same. reflexivity.
  - unfold onlyCallLog. intros w1 w2 w3.
    generalize (callLogs w1) (callLogs w2) (callLogs w3). clear.
    intros l1 l2 l3 H12. revert l3.
    induction H12 as [|a b l1 l2 [Hid Hab] _ IH]; intros l3 H23;
      inversion H23 as [|b' c l2' l3' [Hid' Hbc] Hrest]; subst; constructor.
    + split; [congruence|]. intros Hne. rewrite Hbc, Hab; congruence.
    + apply IH. exact Hrest.
  - intros w t. apply onlyCallLog_same. reflexivity.
  - intros w l. apply onlyCallLog_same. reflexivity.
Qed.

#[export] Existing Instance onlyCallLog_frame.

Lemma onlyCallLog_update (id : string) (where_ : CallLog.t -> bool)
    (updates : CallLogUpdates.t) (w : World) :
  (forall r, where_ r = true -> CallLog.id r = id) ->
  onlyCallLog id w
    (set_callLogs (sql_update where_ (CallLogUpdates.set updates) (callLogs w)) w).
Proof.
  intros Hw. unfold onlyCallLog. wsimpl. unfold sql_update.
  induction (callLogs w) as [|r rows IH]; constructor; [|exact IH].
  destruct (where_ r) eqn:E; [|split; reflexivity].
  split; [reflexivity|]. intros Hne. contradiction Hne. apply Hw, E.
Qed.

Lemma updateCallLog_keeps (id : string) (updates : CallLogUpdates.t) :
  keeps (onlyCallLog id) (storage.updateCallLog id updates).
Proof.
  unfold storage.updateCallLog. repeat keeps_step.
  apply keeps_modify. intros w. apply onlyCallLog_update.
  intros r Hr. apply String.eqb_eq, Hr.
Qed.

Lemma markUsageRecorded_keeps (id : string) :
  keeps (onlyCallLog id) (storage.markUsageRecorded id).
Proof.
  unfold storage.markUsageRecorded. repeat keeps_step.
  apply keeps_modify. intros w. apply onlyCallLog_update.
  intros r Hr. apply andb_true_iff in Hr as [Hr _]. apply String.eqb_eq, Hr.
Qed.

Lemma getAgentConfiguration_keeps (R : World -> World -> Prop) `{!Frame R}
    (restaurantId : string) :
  keeps R (storage.getAgentConfiguration restaurantId).
Proof. unfold storage.getAgentConfiguration. repeat keeps_step. Qed.

Lemma recordUsage_keeps_callLogs (id userId restaurantId : string) (type : UsageType)
    (quantity : Z) :
  keeps (onlyCallLog id) (stripeService.recordUsage userId restaurantId type quantity).
Proof.
  unfold stripeService.recordUsage, stripeService.gen_random_uuid. repeat keeps_step.
  all: try (apply keeps_modify; intros w; apply onlyCallLog_same; reflexivity).
  intros w. apply onlyCallLog_same, report_callLogs.
Qed.

Lemma updateAndRecord_keeps (restaurantId : string) (body : routes.Body) (c : CallLog.t) :
  keeps (onlyCallLog (CallLog.id c)) (routes.updateAndRecord restaurantId body c).
Proof.
  unfold routes.updateAndRecord, routes.recordClaimedUsage.
  repeat lazymatch goal with
    | |- keeps _ (storage.updateCallLog _ _) => apply updateCallLog_keeps
    | |- keeps _ (storage.markUsageRecorded _) => apply markUsageRecorded_keeps
    | |- keeps _ (storage.getAgentConfiguration _) =>
        refine (getAgentConfiguration_keeps _ _)
    | |- keeps _ (stripeService.recordUsage _ _ _ _) => apply recordUsage_keeps_callLogs
    | _ => keeps_step
    end.
Qed.

(** X3.  A status callback only writes to the call logs that have the id
    of the call log it found: call_logs keeps its rows and their order, and
    every row with another id is unchanged, whatever fails. *)
Theorem statusCallback_touches_one_call_log
    (restaurantId : string) (body : routes.Body) (w : World) (c : CallLog.t) :
  found restaurantId body w = Some c ->
  onlyCallLog (CallLog.id c) w (snd (routes.statusCallback restaurantId body w)).
Proof.
  intros Hfound.
  destruct (statusCallback_found restaurantId body w c Hfound) as (_ & t & _ & _ & ->).
  pose proof (updateAndRecord_keeps restaurantId body c
                (set_trace t (set_console (ConsoleLog "Status callback" :: console w) w)))
    as H.
  unfold onlyCallLog in *. wsimpl.
  destruct (routes.updateAndRecord _ _ _ _) as [[[]|e] w']; exact H.
Qed.

Lemma statusCallback_touches_one_call_log_witness :
  onlyCallLog "c1" (Sample.world Sample.healthy Sample.user)
    (snd (routes.statusCallback "rest1" (Sample.completedCallback "61")
            (Sample.world Sample.healthy Sample.user))).
Proof.
  apply (statusCallback_touches_one_call_log "rest1" (Sample.completedCallback "61")
           (Sample.world Sample.healthy Sample.user) Sample.callLog).
  reflexivity.
Defined.

(** ** A failure between the two writes of recordUsage *)

Lemma recordUsage_update_fails (userId restaurantId : string) (type : UsageType)
    (quantity : Z) (w : World) (user : User.t) :
  selectedUser userId w = Some user ->
  executes w SelectUsers ->
  executes w InsertUsageRecords ->
  nextFails w UpdateUsers ->
  stripeService.recordUsage userId restaurantId type quantity w =
    (Throw (OpFailed UpdateUsers),
     set_usageRecords (usageRecords w ++ [newEntry userId restaurantId type quantity user w])
       (set_uuidCounter (uuidCounter w + 1)%N
          (set_trace ((UpdateUsers, false) :: (InsertUsageRecords, true)
                      :: (SelectUsers, true) :: trace w) w))).
Proof.
  unfold selectedUser, executes, nextFails. intros Hu Hsel Hins Hupd.
  unfold stripeService.recordUsage, stripeService.gen_random_uuid.
  unfold_monad. wsimpl.
  rewrite Hsel. wsimpl. rewrite Hu. wsimpl.
  rewrite occurrences_other by discriminate. rewrite Hins. wsimpl.
  rewrite !occurrences_other by discriminate. rewrite Hupd. wsimpl.
  reflexivity.
Qed.

(** X4.  The INSERT of the call entry succeeds and the UPDATE of the
    account's counter fails: recordUsage throws before the handler sets its
    flag, so the handler writes null back to the usage-recorded timestamp
    and answers 200, while the entry that was inserted stays in the ledger
    (unreported) and the counters are unchanged. *)
Theorem statusCallback_rollback_after_partial_write
    (restaurantId : string) (body : routes.Body) (w : World)
    (c : CallLog.t) (billingUserId : string) (user : User.t) :
  found restaurantId body w = Some c ->
  routes.CallStatus body = Some "completed" ->
  CallLog.usageRecordedAt c = None ->
  CallLogUpdates.accepted (routes.buildUpdates body c (clock w)) = true ->
  billingUserFor restaurantId w = Some billingUserId ->
  selectedUser billingUserId w = Some user ->
  reliable w UpdateCallLogs ->
  executes w SelectAgentConfigurations ->
  executes w SelectUsers ->
  executes w InsertUsageRecords ->
  nextFails w UpdateUsers ->
  let w' := snd (routes.statusCallback restaurantId body w) in
  fst (routes.statusCallback restaurantId body w) = Ok (routes.mkResponse 200 "OK")
  /\ Forall (fun r => CallLog.id r = CallLog.id c -> CallLog.usageRecordedAt r = None)
       (callLogs w')
  /\ usageRecords w' = usageRecords w ++ [newEntry billingUserId restaurantId call 1 user w]
  /\ users w' = users w
  /\ noProviderCall w w'.
Proof.
  intros Hfound Hcompleted Hnull Hacc Hbilling Huser Hrel Hagent Hsel Hins Hupd.
  cut (exists W',
         routes.statusCallback restaurantId body w = (Ok (routes.mkResponse 200 "OK"), W')
         /\ Forall (fun r => CallLog.id r = CallLog.id c -> CallLog.usageRecordedAt r = None)
              (callLogs W')
         /\ usageRecords W' =
              usageRecords w ++ [newEntry billingUserId restaurantId call 1 user w]
         /\ users W' = users w
         /\ noProviderCall w W').
  { intros (W' & -> & HP). cbn [fst snd]. split; [reflexivity | exact HP]. }
  destruct (statusCallback_claimed restaurantId body w c Hfound Hcompleted Hnull Hacc Hrel)
    as (t & Hocc & Hcalls & ->).
  unfold billingUserFor in Hbilling. unfold executes in Hagent.
  unfold routes.recordClaimedUsage, routes.try_catch_started.
  unfold bind at 1.
  rewrite getAgentConfiguration_run; cycle 1.
  { unfold executes, claimedWorld. wsimpl.
    rewrite !occurrences_other, Hocc by discriminate. exact Hagent. }
  unfold claimedWorld at 1. wsimpl. rewrite Hbilling.
  unfold bind at 1.
  rewrite (recordUsage_update_fails _ _ _ _ _ user); cycle 1.
  { exact Huser. }
  { unfold executes, claimedWorld. wsimpl.
    rewrite !occurrences_other, Hocc by discriminate. exact Hsel. }
  { unfold executes, claimedWorld. wsimpl.
    rewrite !occurrences_other, Hocc by discriminate. exact Hins. }
  { unfold nextFails, claimedWorld. wsimpl.
    rewrite !occurrences_other, Hocc by discriminate. exact Hupd. }
  unfold bind at 1. unfold console_error, modify. wsimpl. cbn [negb].
  unfold bind at 1. unfold console_log, modify. wsimpl.
  unfold bind at 1.
  edestruct (updateCallLog_run (CallLog.id c) (CallLogUpdates.only_usageRecordedAt None))
    as (r & ->); [reflexivity | apply Hrel |].
  unfold ret, respond, claimedWorld. wsimpl.
  eexists. split; [reflexivity|]. wsimpl.
  split; [apply rollback_clears|].
  split; [reflexivity|].
  split; [reflexivity|].
  split; [cbn [stripeCalls List.filter fst isStripeOp]; exact Hcalls | reflexivity].
Qed.

Lemma statusCallback_rollback_after_partial_write_witness :
  let w := Sample.world countersDown Sample.user in
  let w' := snd (routes.statusCallback "rest1" (Sample.completedCallback "61") w) in
  Forall (fun r => CallLog.id r = "c1" -> CallLog.usageRecordedAt r = None) (callLogs w')
  /\ usageRecords w' =
       [Sample.callEntry; Sample.minuteEntry; newEntry "u1" "rest1" call 1 Sample.user w].
Proof.
  destruct (statusCallback_rollback_after_partial_write "rest1"
              (Sample.completedCallback "61")
              (Sample.world countersDown Sample.user) Sample.callLog "u1" Sample.user)
    as (_ & Hclear & Hledger & _);
    [ reflexivity | reflexivity | reflexivity | reflexivity | reflexivity | reflexivity
    | intros n; reflexivity | reflexivity | reflexivity | reflexivity | reflexivity | ].
  split; [exact Hclear | exact Hledger].
Defined.

(** ** A failure after the first recordUsage *)

(** reportOveragesToStripe awaits none of the operations of the handler's
    own writes. *)
Lemma report_occurrences (userId : string) (w : World) (op : Op) :
  op = InsertUsageRecords \/ op = UpdateUsers \/ op = UpdateCallLogs
  \/ op = SelectAgentConfigurations \/ op = SelectCallLogs ->
  occurrences op (trace (snd (stripeService.reportOveragesToStripe userId w)))
  = occurrences op (trace w).
Proof.
  intros Hop. unfold_report. split_run.
  all: rewrite ?occurrences_other by (intros <-; intuition discriminate).
  all: reflexivity.
Qed.

Lemma occurrences_same (op : Op) (b : bool) (t : list (Op * bool)) :
  occurrences op ((op, b) :: t) = S (occurrences op t).
Proof.
  unfold occurrences. cbn [List.filter fst].
  rewrite bool_decide_eq_true_2 by reflexivity. reflexivity.
Qed.

(** X5.  The call entry is recorded and the INSERT of the minute entry
    fails: the handler keeps the claim (the usage-recorded timestamp stays
    non-null), so the call is not billed again; the ledger has gained the
    'call' entry only, and the error and the decision are logged. *)
Theorem statusCallback_keeps_claim_after_first_entry
    (restaurantId : string) (body : routes.Body) (w : World)
    (c : CallLog.t) (billingUserId : string) (user : User.t) (m : Z) :
  found restaurantId body w = Some c ->
  routes.CallStatus body = Some "completed" ->
  CallLog.usageRecordedAt c = None ->
  CallLogUpdates.accepted (routes.buildUpdates body c (clock w)) = true ->
  billingUserFor restaurantId w = Some billingUserId ->
  selectedUser billingUserId w = Some user ->
  Js.ceilDiv60 (routes.durationSeconds body c (routes.buildUpdates body c (clock w)))
    = Js.Num m ->
  0 < m ->
  reliable w UpdateCallLogs ->
  executes w SelectAgentConfigurations ->
  reliable w SelectUsers ->
  executes w InsertUsageRecords ->
  executes w UpdateUsers ->
  faults (env w) InsertUsageRecords (S (occurrences InsertUsageRecords (trace w))) = true ->
  let w' := snd (routes.statusCallback restaurantId body w) in
  fst (routes.statusCallback restaurantId body w) = Ok (routes.mkResponse 200 "OK")
  /\ Forall (fun r => CallLog.id r = CallLog.id c -> CallLog.usageRecordedAt r <> None)
       (callLogs w')
  /\ map kindQuantity (usageRecords w') = map kindQuantity (usageRecords w) ++ [(call, 1)]
  /\ exists logs,
       console w' =
         ConsoleLog
           "Keeping usage claim to prevent duplicate billing despite error (usage may be partial)"
         :: ConsoleError "Failed to record usage:" (OpFailed InsertUsageRecords) :: logs.
Proof.
  intros Hfound Hcompleted Hnull Hacc Hbilling Huser Hmin Hm Hrel Hagent Hsel Hins Hupd Hins2.
  cut (exists W',
         routes.statusCallback restaurantId body w = (Ok (routes.mkResponse 200 "OK"), W')
         /\ Forall (fun r => CallLog.id r = CallLog.id c -> CallLog.usageRecordedAt r <> None)
              (callLogs W')
         /\ map kindQuantity (usageRecords W')
            = map kindQuantity (usageRecords w) ++ [(call, 1)]
         /\ exists logs,
              console W' =
                ConsoleLog
                  "Keeping usage claim to prevent duplicate billing despite error (usage may be partial)"
                :: ConsoleError "Failed to record usage:" (OpFailed InsertUsageRecords)
                :: logs).
  { intros (W' & -> & HP). cbn [fst snd]. split; [reflexivity | exact HP]. }
  destruct (statusCallback_claimed restaurantId body w c Hfound Hcompleted Hnull Hacc Hrel)
    as (t & Hocc & Hcalls & ->).
  destruct (statusCallback_found restaurantId body w c Hfound) as (Hin & _).
  unfold billingUserFor in Hbilling. unfold executes in Hagent, Hins, Hupd.
  set (W := claimedWorld c (routes.buildUpdates body c (clock w)) t w).
  assert (HoccW : forall op, op <> SelectCallLogs -> op <> UpdateCallLogs ->
                    occurrences op (trace W) = occurrences op (trace w)).
  { intros op H1 H2. subst W. unfold claimedWorld. wsimpl.
    rewrite !occurrences_other by congruence. apply Hocc, H1. }
  unfold routes.recordClaimedUsage, routes.try_catch_started.
  unfold bind at 1.
  rewrite getAgentConfiguration_run by (unfold executes; rewrite HoccW by discriminate;
                                        exact Hagent).
  replace (agentConfigurations W) with (agentConfigurations w) by reflexivity.
  rewrite Hbilling.
  unfold bind at 1.
  rewrite (recordUsage_written _ _ _ _ _ user); cycle 1.
  { exact Huser. }
  { apply Hsel. }
  { unfold executes. wsimpl. rewrite occurrences_other, HoccW by discriminate. exact Hins. }
  { unfold executes. wsimpl. rewrite occurrences_other, HoccW by discriminate. exact Hupd. }
  rewrite report_run. unfold ret.
  set (W0 := usageWritten billingUserId restaurantId call 1 user _).
  set (W1 := snd (stripeService.reportOveragesToStripe billingUserId W0)).
  rewrite Hmin. apply Z.ltb_lt in Hm. rewrite Hm.
  unfold bind at 1.
  rewrite (recordUsage_insert_fails _ _ _ _ _ (stripeService.incrementUsage call 1 user));
    cycle 1.
  { subst W1. unfold selectedUser. rewrite report_users. subst W0. unfold usageWritten. wsimpl.
    apply selected_after_increment; [apply incrementUsage_id | exact Huser]. }
  { unfold executes. subst W1. rewrite report_env. apply Hsel. }
  { unfold nextFails. subst W1. rewrite report_env, report_occurrences by tauto.
    subst W0. unfold usageWritten. wsimpl.
    rewrite occurrences_other by discriminate. rewrite occurrences_same.
    rewrite !occurrences_other, HoccW by discriminate. exact Hins2. }
  unfold bind at 1. unfold console_error, modify. wsimpl. cbn [negb].
  unfold console_log, modify, respond. wsimpl.
  eexists. split; [reflexivity|]. wsimpl.
  split.
  { subst W1. rewrite report_callLogs. subst W0. unfold usageWritten. wsimpl.
    apply (claimed_rows c _ t w Hin). }
  split.
  { subst W1. rewrite report_kinds. subst W0. unfold usageWritten. wsimpl.
    rewrite map_app. reflexivity. }
  eexists. reflexivity.
Qed.

Lemma statusCallback_keeps_claim_after_first_entry_witness :
  let w := Sample.world secondInsertFails Sample.user in
  let w' := snd (routes.statusCallback "rest1" (Sample.completedCallback "61") w) in
  Forall (fun r => CallLog.id r = "c1" -> CallLog.usageRecordedAt r <> None) (callLogs w')
  /\ map kindQuantity (usageRecords w') = [(call, 1); (minute, 2); (call, 1)].
Proof.
  destruct (statusCallback_keeps_claim_after_first_entry "rest1"
              (Sample.completedCallback "61")
              (Sample.world secondInsertFails Sample.user) Sample.callLog "u1" Sample.user 2)
    as (_ & Hclaim & Hledger & _);
    [ reflexivity | reflexivity | reflexivity | reflexivity | reflexivity | reflexivity
    | reflexivity | lia
    | intros n; reflexivity | reflexivity | intros n; reflexivity | reflexivity | reflexivity
    | reflexivity | ].
  split; [exact Hclaim | exact Hledger].
Defined.

(** ** The same completed callback, delivered twice *)

Lemma head_filter_update {A} (p where_ : A -> bool) (f : A -> A) (rows : list A) :
  (forall r, p (f r) = p r) ->
  head (List.filter p (sql_update where_ f rows))
  = option_map (fun r => if where_ r then f r else r) (head (List.filter p rows)).
Proof.
  intros Hp. unfold sql_update. induction rows as [|r rows IH]; [reflexivity|].
  cbn [map List.filter].
  replace (p (if where_ r then f r else r)) with (p r)
    by (destruct (where_ r); [rewrite Hp|]; reflexivity).
  destruct (p r); [reflexivity | exact IH].
Qed.

(** With a CallSid, the call log is the first row that carries it, if
    there is one. *)
Lemma found_via_sid (restaurantId : string) (body : routes.Body) (w : World)
    (sid : string) (c0 c : CallLog.t) :
  routes.CallSid body = Some sid ->
  sid <> "" ->
  head (List.filter (fun r => eqText (CallLog.twilioCallSid r) sid) (callLogs w)) = Some c0 ->
  found restaurantId body w = Some c ->
  c = c0.
Proof.
  intros Hsid Hne Hhead.
  unfold found, routes.findCallLog, storage.getCallLogByTwilioSid.
  rewrite Hsid. cbn [Js.truthy default].
  destruct sid as [|a sid]; [congruence|]. cbn [negb String.eqb].
  unfold_monad. wsimpl.
  destruct (faults _ _ _); wsimpl; [congruence|]. unfold id.
  rewrite Hhead. cbn [isNull andb fst]. congruence.
Qed.

Lemma has_sid_head (rows : list CallLog.t) (sid : string) (c : CallLog.t) :
  In c rows ->
  CallLog.twilioCallSid c = Some sid ->
  exists c0,
    head (List.filter (fun r => eqText (CallLog.twilioCallSid r) sid) rows) = Some c0.
Proof.
  intros Hin Hsid.
  assert (Hf : In c (List.filter (fun r => eqText (CallLog.twilioCallSid r) sid) rows)).
  { apply filter_In. split; [exact Hin|]. rewrite Hsid. apply String.eqb_refl. }
  destruct (List.filter _ rows) as [|c0 l]; [destruct Hf|]. exists c0. reflexivity.
Qed.

(** X6.  The same completed callback delivered twice, found by its
    CallSid: after the first delivery has recorded the usage, the second
    one finds the call claimed and leaves the ledger, the counters, the
    provider and the claims as the first left them, whatever fails during
    the second delivery. *)
Theorem statusCallback_duplicate_bills_once
    (restaurantId : string) (body : routes.Body) (w : World)
    (c : CallLog.t) (sid billingUserId : string) (user : User.t) :
  found restaurantId body w = Some c ->
  routes.CallStatus body = Some "completed" ->
  CallLog.usageRecordedAt c = None ->
  CallLogUpdates.accepted (routes.buildUpdates body c (clock w)) = true ->
  routes.CallSid body = Some sid ->
  sid <> "" ->
  CallLog.twilioCallSid c = Some sid ->
  billingUserFor restaurantId w = Some billingUserId ->
  selectedUser billingUserId w = Some user ->
  reliable w UpdateCallLogs ->
  executes w SelectAgentConfigurations ->
  reliable w SelectUsers ->
  reliable w InsertUsageRecords ->
  reliable w UpdateUsers ->
  let w1 := snd (routes.statusCallback restaurantId body w) in
  let w2 := snd (routes.statusCallback restaurantId body w1) in
  Forall (fun r => CallLog.id r = CallLog.id c -> CallLog.usageRecordedAt r <> None)
    (callLogs w1)
  /\ billingUntouched w1 w2.
Proof.
  intros Hfound Hcompleted Hnull Hacc Hsid Hne Hcsid Hbilling Huser Hrel Hagent Hsel Hins Hupd.
  destruct (statusCallback_recorded restaurantId body w c billingUserId user
              Hfound Hcompleted Hnull Hacc Hbilling Huser Hrel Hagent Hsel Hins Hupd)
    as (Hin & t & _ & Hrun).
  cbv zeta. rewrite Hrun. cbn [snd].
  set (updates := routes.buildUpdates body c (clock w)) in *.
  set (w1 := recordedWorld _ _ _ _ _).
  assert (Hlogs : callLogs w1 =
            sql_update (claimWhere (CallLog.id c)) (claimSet (clock w))
              (sql_update (fun r => String.eqb (CallLog.id r) (CallLog.id c))
                 (CallLogUpdates.set updates) (callLogs w))).
  { subst w1. rewrite recordedWorld_callLogs. reflexivity. }
  split.
  { rewrite Hlogs. apply update_sets_timestamp. }
  destruct (found restaurantId body w1) as [c'|] eqn:Hfound1.
  - apply (billingUntouched_found _ _ _ c' Hfound1).
    intros W. apply updateAndRecord_no_billing. right.
    destruct (has_sid_head _ _ _ Hin Hcsid) as (c0 & Hhead).
    pose proof (found_via_sid _ _ _ _ _ _ Hsid Hne Hhead Hfound) as ->.
    assert (Hupdates : CallLogUpdates.twilioCallSid updates = None).
    { subst updates. unfold routes.buildUpdates. cbn [CallLogUpdates.twilioCallSid].
      rewrite Hcsid, Hsid. destruct sid; [congruence|]. reflexivity. }
    assert (Hhead1 : head (List.filter (fun r => eqText (CallLog.twilioCallSid r) sid)
                             (callLogs w1))
                     = Some (claimSet (clock w) (CallLogUpdates.set updates c0))).
    { rewrite Hlogs. rewrite head_filter_update by reflexivity.
      rewrite head_filter_update; cycle 1.
      { intros r. unfold CallLogUpdates.set. cbn [CallLog.twilioCallSid].
        rewrite Hupdates. reflexivity. }
      rewrite Hhead. cbn [option_map]. rewrite String.eqb_refl.
      unfold claimWhere. unfold CallLogUpdates.set at 1 2.
      cbn [CallLog.id CallLog.usageRecordedAt].
      rewrite String.eqb_refl. subst updates. cbn [routes.buildUpdates
        CallLogUpdates.usageRecordedAt]. rewrite Hnull. reflexivity. }
    rewrite (found_via_sid _ _ _ _ _ _ Hsid Hne Hhead1 Hfound1). discriminate.
  - destruct (statusCallback_not_found _ _ _ Hfound1) as (W' & -> & Hsame & Hledger & Hcalls).
    cbn [snd]. unfold billingUntouched. destruct Hsame as (Hc & _ & _ & Hu & _).
    rewrite Hc. repeat split; try assumption; apply Hcalls.
Qed.

Lemma statusCallback_duplicate_bills_once_witness :
  let w := Sample.world Sample.healthy Sample.user in
  let w1 := snd (routes.statusCallback "rest1" (Sample.completedCallback "61") w) in
  let w2 := snd (routes.statusCallback "rest1" (Sample.completedCallback "61") w1) in
  billingUntouched w1 w2.
Proof.
  refine (proj2 (statusCallback_duplicate_bills_once "rest1" (Sample.completedCallback "61")
                   (Sample.world Sample.healthy Sample.user) Sample.callLog "CA1" "u1"
                   Sample.user _ _ _ _ _ _ _ _ _ _ _ _ _ _));
    first [reflexivity | discriminate | intros n; reflexivity].
Defined.

(** ** A duration that the database refuses *)

Lemma updateCallLog_refused (id : string) (updates : CallLogUpdates.t) (w : World) :
  CallLogUpdates.accepted updates = false ->
  storage.updateCallLog id updates w =
    (Throw PgInvalidInteger, set_trace ((UpdateCallLogs, false) :: trace w) w).
Proof. intros Hacc. unfold storage.updateCallLog. rewrite Hacc. reflexivity. Qed.

(** X24.  A status callback whose update the database refuses (a
    CallDuration that parseInt turns into NaN, or into an integer that does
    not fit the column, for a call log without a duration): the handler
    answers 500, the call log keeps its status, nothing is claimed or
    billed, and the error is logged; this also holds for a completed
    call. *)
Theorem statusCallback_refused_update
    (restaurantId : string) (body : routes.Body) (w : World) (c : CallLog.t) :
  found restaurantId body w = Some c ->
  CallLogUpdates.accepted (routes.buildUpdates body c (clock w)) = false ->
  let r := routes.statusCallback restaurantId body w in
  fst r = Ok (routes.mkResponse 500 "Error")
  /\ callLogs (snd r) = callLogs w
  /\ usageRecords (snd r) = usageRecords w
  /\ users (snd r) = users w
  /\ noProviderCall w (snd r)
  /\ In (ConsoleError "Status callback error:" PgInvalidInteger) (console (snd r)).
Proof.
  intros Hfound Hacc.
  cut (exists W',
         routes.statusCallback restaurantId body w = (Ok (routes.mkResponse 500 "Error"), W')
         /\ callLogs W' = callLogs w
         /\ usageRecords W' = usageRecords w
         /\ users W' = users w
         /\ noProviderCall w W'
         /\ In (ConsoleError "Status callback error:" PgInvalidInteger) (console W')).
  { intros (W' & -> & HP). cbn [fst snd]. split; [reflexivity | exact HP]. }
  destruct (statusCallback_found restaurantId body w c Hfound)
    as (_ & t & _ & Hcalls & ->).
  unfold routes.updateAndRecord. unfold bind at 1. unfold newDate, gets. wsimpl.
  unfold bind at 1. rewrite updateCallLog_refused by exact Hacc.
  unfold respond. eexists. split; [reflexivity|]. wsimpl.
  repeat split; try reflexivity.
  - cbn [stripeCalls List.filter fst isStripeOp]. exact Hcalls.
  - left. reflexivity.
Qed.

Lemma statusCallback_refused_update_witness :
  let r := routes.statusCallback "rest1" (Sample.completedCallback "n/a")
             (Sample.world Sample.healthy Sample.user) in
  fst r = Ok (routes.mkResponse 500 "Error") /\ callLogs (snd r) = [Sample.callLog].
Proof.
  destruct (statusCallback_refused_update "rest1" (Sample.completedCallback "n/a")
              (Sample.world Sample.healthy Sample.user) Sample.callLog)
    as (Hr & Hlogs & _); [reflexivity | reflexivity |].
  split; [exact Hr | exact Hlogs].
Defined.

(** ** The start of a billing cycle (invoice.created) *)

Lemma onlyAccount_update (id : string) (f : User.t -> User.t) (rows : list User.t) :
  (forall u, User.id (f u) = User.id u) ->
  onlyAccount id rows (sql_update (fun u => String.eqb (User.id u) id) f rows).
Proof.
  intros Hf. unfold onlyAccount, sql_update.
  induction rows as [|u rows IH]; constructor; [|exact IH].
  destruct (String.eqb (User.id u) id) eqn:E.
  - split; [apply Hf|]. intros Hne. apply String.eqb_eq in E. contradiction.
  - split; reflexivity.
Qed.

Lemma reset_overage (user : User.t) (priceConfig : SubscriptionPrice.t) :
  0 <= Js.orZero (SubscriptionPrice.includedCalls priceConfig) ->
  0 <= Js.orZero (SubscriptionPrice.includedMinutes priceConfig) ->
  stripeService.overage (StripeService.resetCounters user) priceConfig = (0, None).
Proof.
  intros Hc Hm. unfold stripeService.overage, StripeService.resetCounters.
  cbn [User.subscriptionPlan User.monthlyCallsUsed User.monthlyMinutesUsed].
  change (Js.orZero (Some 0)) with 0.
  repeat case_match; try reflexivity.
  all: match goal with H : (0 <? _) = true |- _ => apply Z.ltb_lt in H end; lia.
Qed.

(** X7.  invoice.created for a customer with an account: the handler
    answers 200 and both monthly counters of every row with the account's
    id are 0 (also when they were null); rows with other ids and the ledger
    are unchanged, so entries that were unreported stay unreported; and as
    long as no plan has a negative allowance, reportOveragesToStripe for the
    account then makes no call to the provider. *)
Theorem invoiceCreated_resets_counters (customerId : string) (w : World) (user : User.t) :
  customerAccount customerId w = Some user ->
  executes w SelectUsers ->
  executes w UpdateUsers ->
  allowancesNonNegative w ->
  let r := billingWebhook.invoiceCreated customerId w in
  fst r = Ok 200
  /\ Forall (fun u => User.id u = User.id user ->
                      User.monthlyCallsUsed u = Some 0 /\ User.monthlyMinutesUsed u = Some 0)
       (users (snd r))
  /\ onlyAccount (User.id user) (users w) (users (snd r))
  /\ usageRecords (snd r) = usageRecords w
  /\ noProviderCall (snd r)
       (snd (stripeService.reportOveragesToStripe (User.id user) (snd r))).
Proof.
  unfold customerAccount, executes. intros Hacc Hsel Hupd Hprices.
  cut (exists W',
         billingWebhook.invoiceCreated customerId w = (Ok 200, W')
         /\ users W' = sql_update (fun u => String.eqb (User.id u) (User.id user))
                         StripeService.resetCounters (users w)
         /\ usageRecords W' = usageRecords w
         /\ subscriptionPrices W' = subscriptionPrices w).
  { intros (W' & -> & Hu & Hl & Hp). cbn [fst snd]. split; [reflexivity|].
    split.
    { rewrite Hu. unfold sql_update. apply Forall_map. apply List.Forall_forall.
      intros u _ Hid. destruct (String.eqb (User.id u) (User.id user)) eqn:E.
      - split; reflexivity.
      - apply String.eqb_neq in E. contradiction. }
    split; [rewrite Hu; apply onlyAccount_update; reflexivity|].
    split; [exact Hl|].
    destruct (head_filter_In _ _ _ Hacc) as (Hin & _).
    assert (exists u0, selectedUser (User.id user) w = Some u0) as (u0 & Hu0).
    { unfold selectedUser.
      assert (Hf : In user (List.filter (fun u => String.eqb (User.id u) (User.id user))
                              (users w))).
      { apply filter_In. split; [exact Hin | apply String.eqb_refl]. }
      destruct (List.filter (fun u => String.eqb (User.id u) (User.id user)) (users w))
        as [|u0 l]; [destruct Hf|]. exists u0. reflexivity. }
    apply quiet_noProviderCall.
    apply (report_quiet_without_overage _ _ (StripeService.resetCounters u0)).
    - unfold selectedUser. rewrite Hu. apply selected_after_increment; [reflexivity|exact Hu0].
    - intros priceConfig Hprice. unfold selectedPrice in Hprice. rewrite Hp in Hprice.
      apply head_filter_In in Hprice as (Hpin & _).
      unfold allowancesNonNegative in Hprices.
      rewrite List.Forall_forall in Hprices. specialize (Hprices _ Hpin).
      cbv beta in Hprices. apply reset_overage; apply Hprices. }
  unfold billingWebhook.invoiceCreated, DatabaseStorage.getUserByStripeCustomerId,
    StripeService.resetMonthlyUsage.
  unfold_monad. wsimpl. rewrite Hsel. wsimpl. rewrite Hacc. wsimpl.
  rewrite occurrences_other by discriminate. rewrite Hupd. wsimpl.
  eexists. split; [reflexivity|]. wsimpl. repeat split; reflexivity.
Qed.

Lemma invoiceCreated_resets_counters_witness :
  let r := billingWebhook.invoiceCreated "cus_1" (Sample.world Sample.healthy Sample.user) in
  fst r = Ok 200
  /\ Forall (fun u => User.id u = "u1" ->
                      User.monthlyCallsUsed u = Some 0 /\ User.monthlyMinutesUsed u = Some 0)
       (users (snd r)).
Proof.
  destruct (invoiceCreated_resets_counters "cus_1"
              (Sample.world Sample.healthy Sample.user) Sample.user)
    as (Hr & Hzero & _);
    [ reflexivity | reflexivity | reflexivity
    | constructor; [split; cbn; lia | constructor] | ].
  split; [exact Hr | exact Hzero].
Defined.

(** ** recordUsage: the counter and the ledger *)

(** Reporting either leaves the ledger as it is or marks some entries. *)
Lemma report_marks (userId : string) (w : World) :
  usageRecords (snd (stripeService.reportOveragesToStripe userId w)) = usageRecords w
  \/ exists ty sid,
       usageRecords (snd (stripeService.reportOveragesToStripe userId w))
       = sql_update (stripeService.inArray (map UsageRecord.id (unreportedOf userId ty w)))
           (stripeService.markReported sid) (usageRecords w).
Proof.
  destruct (report_outcome userId w) as (w' & -> & _ & Hcases). cbn [snd].
  destruct Hcases as [(-> & _) | Hr]; [left; reflexivity|].
  destruct Hr as (user & p & q & ty & _ & _ & _ & _ & _ & _ & Hsub). cbn zeta in Hsub.
  destruct Hsub as [(-> & _) | [(-> & _) | [(-> & _) | (-> & _)]]];
    [left; reflexivity .. | right; eexists _, _; reflexivity].
Qed.

Lemma ledgerTotal_after_marking (userId : string) (type : UsageType)
    (where_ : UsageRecord.t -> bool) (sid : string) (rows : list UsageRecord.t) :
  ledgerTotal userId type (sql_update where_ (stripeService.markReported sid) rows)
  = ledgerTotal userId type rows.
Proof.
  unfold ledgerTotal, sql_update. induction rows as [|r rows IH]; [reflexivity|].
  cbn [map List.filter].
  replace (String.eqb (UsageRecord.userId (if where_ r then stripeService.markReported sid r
                                           else r)) userId
           && bool_decide (UsageRecord.type (if where_ r then stripeService.markReported sid r
                                             else r) = type))
    with (String.eqb (UsageRecord.userId r) userId && bool_decide (UsageRecord.type r = type))
    by (destruct (where_ r); reflexivity).
  destruct (String.eqb (UsageRecord.userId r) userId && bool_decide (UsageRecord.type r = type));
    [|exact IH].
  cbn [map fold_right]. rewrite IH. destruct (where_ r); reflexivity.
Qed.

Lemma report_ledgerTotal (userId u : string) (type : UsageType) (w : World) :
  ledgerTotal u type (usageRecords (snd (stripeService.reportOveragesToStripe userId w)))
  = ledgerTotal u type (usageRecords w).
Proof.
  destruct (report_marks userId w) as [-> | (ty & sid & ->)]; [reflexivity|].
  apply ledgerTotal_after_marking.
Qed.

Lemma ledgerTotal_app (userId : string) (type : UsageType) (rows : list UsageRecord.t)
    (r : UsageRecord.t) :
  ledgerTotal userId type (rows ++ [r])
  = ledgerTotal userId type rows
    + (if String.eqb (UsageRecord.userId r) userId && bool_decide (UsageRecord.type r = type)
       then UsageRecord.quantity r else 0).
Proof.
  unfold ledgerTotal. rewrite List.filter_app, map_app, fold_right_app. cbn [List.filter].
  set (b := String.eqb _ _ && _). set (l := map _ (List.filter _ rows)).
  destruct b; cbn [map fold_right]; induction l as [|x l IH]; cbn [fold_right]; lia.
Qed.

Lemma counterOf_increment (type type' : UsageType) (quantity : Z) (u : User.t) :
  counterOf type' (stripeService.incrementUsage type quantity u)
  = if bool_decide (type' = type) then stripeService.addQuantity quantity (counterOf type' u)
    else counterOf type' u.
Proof. destruct type, type'; reflexivity. Qed.

(** X8.  A recordUsage whose three database calls are executed returns,
    and keeps the counter and the ledger in step: the quantity that the
    ledger holds for the account and the kind grows by [quantity], as does
    the counter of that kind (a null counter stays null); the other kind,
    the other accounts and the number of rows of users are unchanged, and
    the ledger has one more row. *)
Theorem recordUsage_counter_and_ledger
    (userId restaurantId : string) (type : UsageType) (quantity : Z) (w : World)
    (user : User.t) :
  selectedUser userId w = Some user ->
  executes w SelectUsers ->
  executes w InsertUsageRecords ->
  executes w UpdateUsers ->
  let r := stripeService.recordUsage userId restaurantId type quantity w in
  fst r = Ok tt
  /\ (forall type',
        ledgerTotal userId type' (usageRecords (snd r))
        = ledgerTotal userId type' (usageRecords w)
          + (if bool_decide (type' = type) then quantity else 0))
  /\ (exists user',
        selectedUser userId (snd r) = Some user'
        /\ forall type',
             counterOf type' user'
             = if bool_decide (type' = type)
               then stripeService.addQuantity quantity (counterOf type' user)
               else counterOf type' user)
  /\ onlyAccount userId (users w) (users (snd r))
  /\ length (usageRecords (snd r)) = S (length (usageRecords w)).
Proof.
  intros Huser Hsel Hins Hupd. cbv zeta.
  rewrite (recordUsage_written _ _ _ _ _ user Huser Hsel Hins Hupd).
  rewrite report_run. cbn [fst snd].
  split; [reflexivity|].
  split.
  { intros type'. rewrite report_ledgerTotal. unfold usageWritten. wsimpl.
    rewrite ledgerTotal_app. unfold newEntry.
    cbn [UsageRecord.userId UsageRecord.type UsageRecord.quantity].
    rewrite String.eqb_refl. cbn [andb].
    destruct type, type'; reflexivity. }
  split.
  { exists (stripeService.incrementUsage type quantity user). split.
    - unfold selectedUser. rewrite report_users. unfold usageWritten. wsimpl.
      apply selected_after_increment; [apply incrementUsage_id | exact Huser].
    - intros type'. apply counterOf_increment. }
  split.
  { rewrite report_users. unfold usageWritten. wsimpl.
    apply onlyAccount_update. apply incrementUsage_id. }
  destruct (report_marks userId (usageWritten userId restaurantId type quantity user w))
    as [-> | (ty & sid & ->)]; unfold usageWritten, sql_update; wsimpl;
    rewrite ?length_map, length_app; cbn [length]; lia.
Qed.

Lemma recordUsage_counter_and_ledger_witness :
  let r := stripeService.recordUsage "u1" "rest1" call 1
             (Sample.world Sample.healthy Sample.user) in
  ledgerTotal "u1" call (usageRecords (snd r)) = 1 + 1
  /\ exists user', selectedUser "u1" (snd r) = Some user'
                   /\ User.monthlyCallsUsed user' = Some 26.
Proof.
  destruct (recordUsage_counter_and_ledger "u1" "rest1" call 1
              (Sample.world Sample.healthy Sample.user) Sample.user)
    as (_ & Hledger & (user' & Huser & Hcounter) & _);
    [ reflexivity | reflexivity | reflexivity | reflexivity | ].
  split; [exact (Hledger call)|].
  exists user'. split; [exact Huser | exact (Hcounter call)].
Defined.

(** ** The counters after a billed call *)

Lemma sql_update_twice (userId : string) (f g : User.t -> User.t) (rows : list User.t) :
  (forall u, User.id (g u) = User.id u) ->
  sql_update (fun u => String.eqb (User.id u) userId) f
    (sql_update (fun u => String.eqb (User.id u) userId) g rows)
  = sql_update (fun u => String.eqb (User.id u) userId) (fun u => f (g u)) rows.
Proof.
  intros Hg. unfold sql_update. rewrite map_map. apply map_ext. intros u.
  destruct (String.eqb (User.id u) userId) eqn:E; [rewrite Hg, E | rewrite E]; reflexivity.
Qed.

Lemma billCall_id (minutes : Js.number) (u : User.t) : User.id (billCall minutes u) = User.id u.
Proof. destruct minutes as [m|]; [cbn; destruct (0 <? m)|]; reflexivity. Qed.

Lemma recordedWorld_users (u rid : string) (minutes : Js.number) (user : User.t)
    (W : World) :
  users (recordedWorld u rid minutes user W)
  = sql_update (fun a => String.eqb (User.id a) u) (billCall minutes) (users W).
Proof.
  unfold recordedWorld, billCall. cbv zeta. wsimpl.
  destruct minutes as [m|]; [destruct (0 <? m)|]; rewrite ?report_users;
    unfold usageWritten; wsimpl; rewrite ?report_users; wsimpl; try reflexivity.
  apply sql_update_twice. intros a. reflexivity.
Qed.

(** X9.  After the handler has recorded the usage of a completed call,
    the account of the billing user has one more call and
    ceil(durationSeconds / 60) more minutes when that number is positive
    (null counters stay null), and the rows of other accounts are
    unchanged. *)
Theorem statusCallback_increments_counters
    (restaurantId : string) (body : routes.Body) (w : World)
    (c : CallLog.t) (billingUserId : string) (user : User.t) :
  found restaurantId body w = Some c ->
  routes.CallStatus body = Some "completed" ->
  CallLog.usageRecordedAt c = None ->
  CallLogUpdates.accepted (routes.buildUpdates body c (clock w)) = true ->
  billingUserFor restaurantId w = Some billingUserId ->
  selectedUser billingUserId w = Some user ->
  reliable w UpdateCallLogs ->
  executes w SelectAgentConfigurations ->
  reliable w SelectUsers ->
  reliable w InsertUsageRecords ->
  reliable w UpdateUsers ->
  let w' := snd (routes.statusCallback restaurantId body w) in
  let minutes :=
    Js.ceilDiv60 (routes.durationSeconds body c (routes.buildUpdates body c (clock w))) in
  (exists user',
     selectedUser billingUserId w' = Some user'
     /\ User.monthlyCallsUsed user' = stripeService.addQuantity 1 (User.monthlyCallsUsed user)
     /\ User.monthlyMinutesUsed user' =
          match minutes with
          | Js.Num m =>
              if 0 <? m then stripeService.addQuantity m (User.monthlyMinutesUsed user)
              else User.monthlyMinutesUsed user
          | Js.NaN => User.monthlyMinutesUsed user
          end)
  /\ onlyAccount billingUserId (users w) (users w').
Proof.
  intros Hfound Hcompleted Hnull Hacc Hbilling Huser Hrel Hagent Hsel Hins Hupd.
  destruct (statusCallback_recorded restaurantId body w c billingUserId user
              Hfound Hcompleted Hnull Hacc Hbilling Huser Hrel Hagent Hsel Hins Hupd)
    as (_ & t & _ & ->).
  cbv zeta. cbn [snd]. rewrite recordedWorld_users.
  unfold selectedUser. rewrite recordedWorld_users.
  replace (users (claimedWorld c (routes.buildUpdates body c (clock w)) t w))
    with (users w) by reflexivity.
  split; [|apply onlyAccount_update, billCall_id].
  eexists. split; [apply selected_after_increment; [apply billCall_id | exact Huser]|].
  unfold billCall.
  destruct (Js.ceilDiv60 _) as [m|]; [destruct (0 <? m)|]; split; reflexivity.
Qed.

Lemma statusCallback_increments_counters_witness :
  exists user',
    selectedUser "u1"
      (snd (routes.statusCallback "rest1" (Sample.completedCallback "61")
              (Sample.world Sample.healthy Sample.user))) = Some user'
    /\ User.monthlyCallsUsed user' = Some 26
    /\ User.monthlyMinutesUsed user' = Some 2.
Proof.
  refine (proj1 (statusCallback_increments_counters "rest1" (Sample.completedCallback "61")
                   (Sample.world Sample.healthy Sample.user) Sample.callLog "u1" Sample.user
                   _ _ _ _ _ _ _ _ _ _ _));
    first [reflexivity | intros n; reflexivity].
Defined.

(** ** What reporting changes in the ledger *)

Lemma NoDup_map_injective {A B} (f : A -> B) (l : list A) (a b : A) :
  List.NoDup (map f l) -> In a l -> In b l -> f a = f b -> a = b.
Proof.
  induction l as [|x l IH]; cbn [map In]; [tauto|].
  intros Hnd Ha Hb Hf. apply List.NoDup_cons_iff in Hnd as [Hx Hnd].
  destruct Ha as [->|Ha], Hb as [->|Hb]; auto.
  - contradiction Hx. rewrite Hf. apply in_map, Hb.
  - contradiction Hx. rewrite <- Hf. apply in_map, Ha.
Qed.

Lemma Forall2_map_In {A} (P : A -> A -> Prop) (f : A -> A) (l : list A) :
  (forall a, In a l -> P a (f a)) -> Forall2 P l (map f l).
Proof.
  induction l as [|x l IH]; intros H; cbn [map]; constructor.
  - apply H. left. reflexivity.
  - apply IH. intros a Ha. apply H. right. exact Ha.
Qed.

(** X10.  With unique ids in the ledger, reportOveragesToStripe changes
    an entry only by marking it reported, and only if the entry belongs to
    the account and had reported-to-provider false: entries of other
    accounts and entries already reported are left as they are, and no
    entry is added or removed. *)
Theorem reportOverages_touches_only_unreported (userId : string) (w : World) :
  List.NoDup (map UsageRecord.id (usageRecords w)) ->
  Forall2
    (fun r r' =>
       r' = r
       \/ (UsageRecord.userId r = userId
           /\ UsageRecord.reportedToStripe r = Some false
           /\ exists sid, r' = stripeService.markReported sid r))
    (usageRecords w)
    (usageRecords (snd (stripeService.reportOveragesToStripe userId w))).
Proof.
  intros Hnd.
  destruct (report_marks userId w) as [-> | (ty & sid & ->)].
  { clear Hnd. induction (usageRecords w); constructor; [left; reflexivity | assumption]. }
  unfold sql_update. apply Forall2_map_In. intros r Hr.
  destruct (stripeService.inArray _ r) eqn:Harr; [right | left; reflexivity].
  unfold stripeService.inArray in Harr. apply existsb_exists in Harr as (i & Hi & Heq).
  apply String.eqb_eq in Heq. apply in_map_iff in Hi as (r0 & Hid & Hr0).
  unfold unreportedOf in Hr0. apply filter_In in Hr0 as (Hr0 & Hun).
  assert (r0 = r) as ->.
  { apply (NoDup_map_injective UsageRecord.id (usageRecords w)); [assumption..|congruence]. }
  unfold stripeService.isUnreported in Hun.
  apply andb_true_iff in Hun as (Hun & Hflag). apply andb_true_iff in Hun as (Huid & _).
  apply String.eqb_eq in Huid. apply bool_decide_eq_true in Hflag.
  split; [exact Huid|]. split; [exact Hflag|]. exists sid. reflexivity.
Qed.

Lemma reportOverages_touches_only_unreported_witness :
  Forall2
    (fun r r' =>
       r' = r
       \/ (UsageRecord.userId r = "u1"
           /\ UsageRecord.reportedToStripe r = Some false
           /\ exists sid, r' = stripeService.markReported sid r))
    [Sample.callEntry; Sample.minuteEntry]
    (usageRecords (snd (stripeService.reportOveragesToStripe "u1"
                          (Sample.world Sample.healthy Sample.user)))).
Proof.
  apply (reportOverages_touches_only_unreported "u1" (Sample.world Sample.healthy Sample.user)).
  repeat constructor; cbn; intuition discriminate.
Defined.

(** ** A billing user without an account *)

Lemma recordUsage_unknown_user (userId restaurantId : string) (type : UsageType)
    (quantity : Z) (w : World) :
  selectedUser userId w = None ->
  executes w SelectUsers ->
  stripeService.recordUsage userId restaurantId type quantity w =
    (Throw (JsError "User not found"), set_trace ((SelectUsers, true) :: trace w) w).
Proof.
  unfold selectedUser, executes. intros Hu Hsel.
  unfold stripeService.recordUsage. unfold_monad. wsimpl.
  rewrite Hsel. wsimpl. rewrite Hu. reflexivity.
Qed.

(** X11.  The agent names a billing user that has no row in users:
    recordUsage throws 'User not found' before anything is written, and the
    handler rolls the claim back, leaves the ledger and the counters as
    they were, makes no call to the provider and answers 200. *)
Theorem statusCallback_unknown_billing_account
    (restaurantId : string) (body : routes.Body) (w : World)
    (c : CallLog.t) (billingUserId : string) :
  found restaurantId body w = Some c ->
  routes.CallStatus body = Some "completed" ->
  CallLog.usageRecordedAt c = None ->
  CallLogUpdates.accepted (routes.buildUpdates body c (clock w)) = true ->
  billingUserFor restaurantId w = Some billingUserId ->
  selectedUser billingUserId w = None ->
  reliable w UpdateCallLogs ->
  executes w SelectAgentConfigurations ->
  executes w SelectUsers ->
  let w' := snd (routes.statusCallback restaurantId body w) in
  fst (routes.statusCallback restaurantId body w) = Ok (routes.mkResponse 200 "OK")
  /\ Forall (fun r => CallLog.id r = CallLog.id c -> CallLog.usageRecordedAt r = None)
       (callLogs w')
  /\ usageRecords w' = usageRecords w
  /\ users w' = users w
  /\ noProviderCall w w'
  /\ In (ConsoleError "Failed to record usage:" (JsError "User not found")) (console w').
Proof.
  intros Hfound Hcompleted Hnull Hacc Hbilling Huser Hrel Hagent Hsel.
  cut (exists W',
         routes.statusCallback restaurantId body w = (Ok (routes.mkResponse 200 "OK"), W')
         /\ Forall (fun r => CallLog.id r = CallLog.id c -> CallLog.usageRecordedAt r = None)
              (callLogs W')
         /\ usageRecords W' = usageRecords w
         /\ users W' = users w
         /\ noProviderCall w W'
         /\ In (ConsoleError "Failed to record usage:" (JsError "User not found"))
              (console W')).
  { intros (W' & -> & HP). cbn [fst snd]. split; [reflexivity | exact HP]. }
  destruct (statusCallback_claimed restaurantId body w c Hfound Hcompleted Hnull Hacc Hrel)
    as (t & Hocc & Hcalls & ->).
  unfold billingUserFor in Hbilling. unfold executes in Hagent.
  unfold routes.recordClaimedUsage, routes.try_catch_started.
  unfold bind at 1.
  rewrite getAgentConfiguration_run; cycle 1.
  { unfold executes, claimedWorld. wsimpl.
    rewrite !occurrences_other, Hocc by discriminate. exact Hagent. }
  unfold claimedWorld at 1. wsimpl. rewrite Hbilling.
  unfold bind at 1.
  rewrite recordUsage_unknown_user; cycle 1.
  { exact Huser. }
  { unfold executes, claimedWorld. wsimpl.
    rewrite !occurrences_other, Hocc by discriminate. exact Hsel. }
  unfold bind at 1. unfold console_error, modify. wsimpl. cbn [negb].
  unfold bind at 1. unfold console_log, modify. wsimpl.
  unfold bind at 1.
  edestruct (updateCallLog_run (CallLog.id c) (CallLogUpdates.only_usageRecordedAt None))
    as (r & ->); [reflexivity | apply Hrel |].
  unfold ret, respond, claimedWorld. wsimpl.
  eexists. split; [reflexivity|]. wsimpl.
  split; [apply rollback_clears|].
  split; [reflexivity|].
  split; [reflexivity|].
  split; [split; [cbn [stripeCalls List.filter fst isStripeOp]; exact Hcalls | reflexivity]|].
  right. left. reflexivity.
Qed.

Lemma statusCallback_unknown_billing_account_witness :
  let w := set_users [] (Sample.world Sample.healthy Sample.user) in
  let w' := snd (routes.statusCallback "rest1" (Sample.completedCallback "61") w) in
  Forall (fun r => CallLog.id r = "c1" -> CallLog.usageRecordedAt r = None) (callLogs w')
  /\ usageRecords w' = [Sample.callEntry; Sample.minuteEntry].
Proof.
  destruct (statusCallback_unknown_billing_account "rest1"
              (Sample.completedCallback "61")
              (set_users [] (Sample.world Sample.healthy Sample.user)) Sample.callLog "u1")
    as (_ & Hclear & Hledger & _);
    [ reflexivity | reflexivity | reflexivity | reflexivity | reflexivity | reflexivity
    | intros n; reflexivity | reflexivity | reflexivity | ].
  split; [exact Hclear | exact Hledger].
Defined.

(** ** A sweep with no concurrent writer *)

Section SweepTable.
Context {A : Type} (id : A -> string) (where_ : A -> A -> bool) (set : A -> A -> A).
Hypothesis where_self : forall a, where_ a a = true.
Hypothesis where_id : forall a r, where_ a r = true -> id r = id a.
Hypothesis set_id : forall a r, id (set a r) = id r.

Lemma sweep_returning (a : A) (rows : list A) :
  In a rows -> (0 <? length (sql_returning (where_ a) (set a) rows))%nat = true.
Proof.
  intros Hin. unfold sql_returning. rewrite length_map.
  assert (Hf : In a (List.filter (where_ a) rows))
    by (apply filter_In; split; [exact Hin | apply where_self]).
  destruct (List.filter (where_ a) rows); [destruct Hf | reflexivity].
Qed.

Lemma sweep_ids (a : A) (rows : list A) :
  map id (sql_update (where_ a) (set a) rows) = map id rows.
Proof.
  unfold sql_update. rewrite map_map. apply map_ext. intros r.
  destruct (where_ a r); [apply set_id | reflexivity].
Qed.

Lemma sweep_update (a : A) (rows : list A) :
  List.NoDup (map id rows) -> In a rows ->
  sql_update (where_ a) (set a) rows
  = map (fun r => if String.eqb (id r) (id a) then set r r else r) rows.
Proof.
  intros Hnd Hin. unfold sql_update. apply map_ext_in. intros r Hr.
  destruct (String.eqb (id r) (id a)) eqn:E.
  - apply String.eqb_eq in E.
    rewrite (NoDup_map_injective id rows r a Hnd Hr Hin E). rewrite where_self. reflexivity.
  - destruct (where_ a r) eqn:Hw; [|reflexivity].
    apply where_id in Hw. apply String.eqb_neq in E. contradiction.
Qed.

Lemma sweep_keeps (a a' : A) (rows : list A) :
  In a' rows -> id a' <> id a -> In a' (sql_update (where_ a) (set a) rows).
Proof.
  intros Hin Hne. unfold sql_update. apply in_map_iff. exists a'. split; [|exact Hin].
  destruct (where_ a a') eqn:Hw; [|reflexivity]. apply where_id in Hw. contradiction.
Qed.

Lemma among_cons (a : A) (l : list A) (rows : list A) :
  ~ In (id a) (map id l) ->
  map (fun r => if existsb (fun a0 => String.eqb (id r) (id a0)) l then set r r else r)
    (map (fun r => if String.eqb (id r) (id a) then set r r else r) rows)
  = map (fun r => if existsb (fun a0 => String.eqb (id r) (id a0)) (a :: l) then set r r
                  else r) rows.
Proof.
  intros Hnot. rewrite map_map. apply map_ext. intros r. cbn [existsb].
  destruct (String.eqb (id r) (id a)) eqn:E; cbn [orb]; [|reflexivity].
  apply String.eqb_eq in E.
  replace (existsb (fun a0 => String.eqb (id (set r r)) (id a0)) l) with false; [reflexivity|].
  symmetry. apply not_true_is_false. intros Hex.
  apply existsb_exists in Hex as (a0 & Ha0 & Heq). apply String.eqb_eq in Heq.
  apply Hnot. rewrite <- E, <- (set_id r r), Heq. apply in_map, Ha0.
Qed.

Lemma among_filter (p : A -> bool) (rows : list A) :
  List.NoDup (map id rows) ->
  map (fun r => if existsb (fun a => String.eqb (id r) (id a)) (List.filter p rows)
                then set r r else r) rows
  = map (fun r => if p r then set r r else r) rows.
Proof.
  intros Hnd. apply map_ext_in. intros r Hr.
  replace (existsb (fun a => String.eqb (id r) (id a)) (List.filter p rows)) with (p r);
    [reflexivity|].
  destruct (p r) eqn:Hp; symmetry.
  - apply existsb_exists. exists r. split; [|apply String.eqb_refl].
    apply filter_In. split; assumption.
  - apply not_true_is_false. intros Hex.
    apply existsb_exists in Hex as (a & Ha & Heq). apply String.eqb_eq in Heq.
    apply filter_In in Ha as (Ha & Hpa).
    rewrite (NoDup_map_injective id rows r a Hnd Hr Ha Heq) in Hp. congruence.
Qed.

End SweepTable.

Lemma waitTime_where_self (a : AgentConfiguration.t) : WaitTimeResetScheduler.where_ a a = true.
Proof.
  unfold WaitTimeResetScheduler.where_. rewrite String.eqb_refl.
  destruct (AgentConfiguration.resetWaitTimeAt a) as [t|]; cbn; [apply Z.eqb_refl | reflexivity].
Qed.

Lemma waitTime_where_id (a r : AgentConfiguration.t) :
  WaitTimeResetScheduler.where_ a r = true -> AgentConfiguration.id r = AgentConfiguration.id a.
Proof.
  unfold WaitTimeResetScheduler.where_. intros H. apply andb_true_iff in H as [H _].
  apply String.eqb_eq, H.
Qed.

Lemma resetAgents_all (agents : list AgentConfiguration.t) :
  forall (k n : nat) (W : World),
    List.NoDup (map AgentConfiguration.id (agentConfigurations W)) ->
    (forall a, In a agents -> In a (agentConfigurations W)) ->
    List.NoDup (map AgentConfiguration.id agents) ->
    reliable W UpdateAgentConfigurations ->
    exists W',
      WaitTimeResetScheduler.resetAgents noOthers k agents n W
        = (Ok (n + length agents)%nat, W')
      /\ agentConfigurations W' =
           map (fun r =>
                  if existsb (fun a => String.eqb (AgentConfiguration.id r)
                                         (AgentConfiguration.id a)) agents
                  then WaitTimeResetScheduler.set r r else r)
             (agentConfigurations W)
      /\ env W' = env W /\ clock W' = clock W.
Proof.
  induction agents as [|a agents IH]; intros k n W Hnd Hin Hnda Hrel.
  { exists W. cbn [WaitTimeResetScheduler.resetAgents length existsb]. unfold ret.
    rewrite Nat.add_0_r, map_id. repeat split; reflexivity. }
  apply List.NoDup_cons_iff in Hnda as [Hnot Hnda].
  assert (Ha : In a (agentConfigurations W)) by (apply Hin; left; reflexivity).
  cbn [WaitTimeResetScheduler.resetAgents].
  unfold bind at 1. unfold modify.
  change (noOthers k (agentConfigurations W)) with (agentConfigurations W). wsimpl.
  unfold bind at 1. unfold WaitTimeResetScheduler.resetAgent.
  unfold_monad. wsimpl. rewrite (Hrel _). wsimpl.
  rewrite (sweep_returning _ _ waitTime_where_self) by exact Ha. wsimpl.
  match goal with |- context [WaitTimeResetScheduler.resetAgents _ _ _ _ ?W1] =>
    destruct (IH (S k) (S n) W1) as (W' & -> & Htable & Henv & Hclock) end.
  { wsimpl. rewrite (sweep_ids AgentConfiguration.id); [exact Hnd | reflexivity]. }
  { wsimpl. intros a' Ha'.
    apply (sweep_keeps AgentConfiguration.id _ _ waitTime_where_id);
      [apply Hin; right; exact Ha'|].
    intros Heq. apply Hnot. rewrite <- Heq. apply in_map, Ha'. }
  { exact Hnda. }
  { exact Hrel. }
  exists W'. wsimpl.
  split; [f_equal; f_equal; cbn [length]; lia|].
  split; [|split; assumption].
  rewrite Htable.
  rewrite (sweep_update AgentConfiguration.id _ _ waitTime_where_self waitTime_where_id)
    by assumption.
  apply (among_cons AgentConfiguration.id (fun a r => WaitTimeResetScheduler.set a r));
    [reflexivity | exact Hnot].
Qed.

Lemma NoDup_map_filter {A B} (f : A -> B) (p : A -> bool) (l : list A) :
  List.NoDup (map f l) -> List.NoDup (map f (List.filter p l)).
Proof.
  induction l as [|x l IH]; cbn [map List.filter]; [auto|].
  intros Hnd. apply List.NoDup_cons_iff in Hnd as [Hx Hnd].
  destruct (p x); [|auto]. cbn [map]. apply List.NoDup_cons; [|auto].
  intros Hin. apply Hx. apply in_map_iff in Hin as (y & Hy & Hin).
  apply filter_In in Hin as [Hin _]. rewrite <- Hy. apply in_map, Hin.
Qed.

Lemma filter_after_sweep {A} (due p : A -> bool) (g : A -> A) (rows : list A) :
  (forall a, p (g a) = false) ->
  List.filter p (map (fun a => if due a then g a else a) rows)
  = List.filter (fun a => negb (due a) && p a) rows.
Proof.
  intros Hp. induction rows as [|a rows IH]; [reflexivity|].
  cbn [map List.filter]. rewrite IH.
  destruct (due a); cbn [negb andb]; [rewrite Hp|]; reflexivity.
Qed.

(** A sweep with a working database and no concurrent writer. *)
Lemma checkAndResetWaitTimes_run (w : World) :
  List.NoDup (map AgentConfiguration.id (agentConfigurations w)) ->
  executes w SelectAgentConfigurations ->
  reliable w UpdateAgentConfigurations ->
  exists W',
    WaitTimeResetScheduler.checkAndResetWaitTimes noOthers w
      = (Ok (length (List.filter (waitTimeDue (clock w)) (agentConfigurations w))), W')
    /\ agentConfigurations W' =
         map (fun a => if waitTimeDue (clock w) a then WaitTimeResetScheduler.set a a else a)
           (agentConfigurations w).
Proof.
  intros Hnd Hsel Hrel.
  unfold WaitTimeResetScheduler.checkAndResetWaitTimes, storage.getAgentsNeedingWaitTimeReset.
  unfold try_catch. unfold bind at 1. unfold bind at 1. unfold newDate, gets.
  unfold bind at 1. rewrite (perform_executes _ _ Hsel). wsimpl.
  change (List.filter _ (agentConfigurations w))
    with (List.filter (waitTimeDue (clock w)) (agentConfigurations w)).
  destruct (length (List.filter (waitTimeDue (clock w)) (agentConfigurations w)) =? 0)%nat
    eqn:Hlen.
  - apply Nat.eqb_eq in Hlen. rewrite Hlen. unfold ret. eexists. split; [reflexivity|]. wsimpl.
    apply length_zero_iff_nil in Hlen.
    symmetry. transitivity (map (fun a => a) (agentConfigurations w)); [|apply map_id].
    apply map_ext_in.
    intros a Ha. destruct (waitTimeDue (clock w) a) eqn:Hdue; [|reflexivity].
    assert (Hf : In a (List.filter (waitTimeDue (clock w)) (agentConfigurations w)))
      by (apply filter_In; split; assumption).
    rewrite Hlen in Hf. destruct Hf.
  - unfold bind at 1. unfold console_log, modify. wsimpl.
    match goal with |- context [WaitTimeResetScheduler.resetAgents _ _ ?L _ ?W1] =>
      destruct (resetAgents_all L 0%nat 0%nat W1) as (W' & -> & Htable & _) end.
    { wsimpl. exact Hnd. }
    { wsimpl. intros a Ha. apply filter_In in Ha as [Ha _]. exact Ha. }
    { apply NoDup_map_filter, Hnd. }
    { exact Hrel. }
    exists W'. split; [reflexivity|]. rewrite Htable. wsimpl.
    apply (among_filter AgentConfiguration.id (fun a r => WaitTimeResetScheduler.set a r)).
    exact Hnd.
Qed.

(** X12.  A sweep of the wait times with a working database, unique
    agent ids and no concurrent writer: it returns the number of agents
    that were due, every due agent gets its default wait time and a null
    reset time, every other agent is unchanged, and the agents due at any
    time afterwards are exactly those that were not due in this sweep. *)
Theorem checkAndResetWaitTimes_resets_every_due_agent (w : World) :
  List.NoDup (map AgentConfiguration.id (agentConfigurations w)) ->
  executes w SelectAgentConfigurations ->
  reliable w UpdateAgentConfigurations ->
  let r := WaitTimeResetScheduler.checkAndResetWaitTimes noOthers w in
  fst r = Ok (length (List.filter (waitTimeDue (clock w)) (agentConfigurations w)))
  /\ agentConfigurations (snd r) =
       map (fun a => if waitTimeDue (clock w) a then WaitTimeResetScheduler.set a a else a)
         (agentConfigurations w)
  /\ forall now,
       List.filter (waitTimeDue now) (agentConfigurations (snd r))
       = List.filter (fun a => negb (waitTimeDue (clock w) a) && waitTimeDue now a)
           (agentConfigurations w).
Proof.
  intros Hnd Hsel Hrel.
  destruct (checkAndResetWaitTimes_run w Hnd Hsel Hrel) as (W' & -> & Htable).
  cbn [fst snd]. split; [reflexivity|]. split; [exact Htable|].
  intros now. rewrite Htable. apply filter_after_sweep.
  intros a. reflexivity.
Qed.

Lemma checkAndResetWaitTimes_resets_every_due_agent_witness :
  let r := WaitTimeResetScheduler.checkAndResetWaitTimes noOthers
             (Sample.world Sample.healthy Sample.user) in
  fst r = Ok 1%nat
  /\ List.filter (waitTimeDue 1000) (agentConfigurations (snd r)) = [].
Proof.
  destruct (checkAndResetWaitTimes_resets_every_due_agent
              (Sample.world Sample.healthy Sample.user))
    as (Hcount & _ & Hdue);
    [ repeat constructor; cbn; tauto | reflexivity | intros n; reflexivity | ].
  split; [exact Hcount | exact (Hdue 1000)].
Defined.

Lemma override_where_self (o : MenuOverride.t) : MenuOverrideResetScheduler.where_ o o = true.
Proof.
  unfold MenuOverrideResetScheduler.where_. rewrite String.eqb_refl.
  rewrite bool_decide_eq_true_2 by reflexivity.
  destruct (MenuOverride.resetAt o) as [t|]; cbn; [apply Z.eqb_refl | reflexivity].
Qed.

Lemma override_where_id (o r : MenuOverride.t) :
  MenuOverrideResetScheduler.where_ o r = true -> MenuOverride.id r = MenuOverride.id o.
Proof.
  unfold MenuOverrideResetScheduler.where_. intros H.
  apply andb_true_iff in H as [H _]. apply andb_true_iff in H as [H _].
  apply String.eqb_eq, H.
Qed.

Lemma deleteOverrides_all (overrides : list MenuOverride.t) :
  forall (k n : nat) (W : World),
    List.NoDup (map MenuOverride.id (menuOverrides W)) ->
    (forall o, In o overrides -> In o (menuOverrides W)) ->
    List.NoDup (map MenuOverride.id overrides) ->
    reliable W UpdateMenuOverrides ->
    exists W',
      MenuOverrideResetScheduler.deleteOverrides noOthers k overrides n W
        = (Ok (n + length overrides)%nat, W')
      /\ menuOverrides W' =
           map (fun r =>
                  if existsb (fun o => String.eqb (MenuOverride.id r) (MenuOverride.id o))
                       overrides
                  then MenuOverrideResetScheduler.set r else r)
             (menuOverrides W)
      /\ env W' = env W /\ clock W' = clock W.
Proof.
  induction overrides as [|o overrides IH]; intros k n W Hnd Hin Hndo Hrel.
  { exists W. cbn [MenuOverrideResetScheduler.deleteOverrides length existsb]. unfold ret.
    rewrite Nat.add_0_r, map_id. repeat split; reflexivity. }
  apply List.NoDup_cons_iff in Hndo as [Hnot Hndo].
  assert (Ho : In o (menuOverrides W)) by (apply Hin; left; reflexivity).
  cbn [MenuOverrideResetScheduler.deleteOverrides].
  unfold bind at 1. unfold modify.
  change (noOthers k (menuOverrides W)) with (menuOverrides W). wsimpl.
  unfold bind at 1. unfold MenuOverrideResetScheduler.deleteOverride.
  unfold_monad. wsimpl. rewrite (Hrel _). wsimpl.
  rewrite (sweep_returning (fun o => MenuOverrideResetScheduler.where_ o)
             (fun _ r => MenuOverrideResetScheduler.set r) override_where_self) by exact Ho.
  wsimpl.
  match goal with |- context [MenuOverrideResetScheduler.deleteOverrides _ _ _ _ ?W1] =>
    destruct (IH (S k) (S n) W1) as (W' & -> & Htable & Henv & Hclock) end.
  { wsimpl.
    rewrite (sweep_ids MenuOverride.id (fun o => MenuOverrideResetScheduler.where_ o)
               (fun _ r => MenuOverrideResetScheduler.set r)); [exact Hnd | reflexivity]. }
  { wsimpl. intros o' Ho'.
    apply (sweep_keeps MenuOverride.id (fun o => MenuOverrideResetScheduler.where_ o)
             (fun _ r => MenuOverrideResetScheduler.set r) override_where_id);
      [apply Hin; right; exact Ho'|].
    intros Heq. apply Hnot. rewrite <- Heq. apply in_map, Ho'. }
  { exact Hndo. }
  { exact Hrel. }
  exists W'. wsimpl.
  split; [f_equal; f_equal; cbn [length]; lia|].
  split; [|split; assumption].
  rewrite Htable.
  rewrite (sweep_update MenuOverride.id (fun o => MenuOverrideResetScheduler.where_ o)
             (fun _ r => MenuOverrideResetScheduler.set r)
             override_where_self override_where_id) by assumption.
  apply (among_cons MenuOverride.id (fun _ r => MenuOverrideResetScheduler.set r));
    [reflexivity | exact Hnot].
Qed.

(** X13.  A sweep of the menu overrides with a working database, unique
    ids and no concurrent writer: it returns the number of overrides that
    were due, every due override is marked deleted and is otherwise
    unchanged, the others are unchanged, and the overrides due at any time
    afterwards are exactly those that were not due in this sweep. *)
Theorem checkAndDeleteExpiredOverrides_deletes_every_due_override (w : World) :
  List.NoDup (map MenuOverride.id (menuOverrides w)) ->
  executes w SelectMenuOverrides ->
  reliable w UpdateMenuOverrides ->
  let r := MenuOverrideResetScheduler.checkAndDeleteExpiredOverrides noOthers w in
  fst r = Ok (length (List.filter (overrideDue (clock w)) (menuOverrides w)))
  /\ menuOverrides (snd r) =
       map (fun o => if overrideDue (clock w) o then MenuOverrideResetScheduler.set o else o)
         (menuOverrides w)
  /\ forall now,
       List.filter (overrideDue now) (menuOverrides (snd r))
       = List.filter (fun o => negb (overrideDue (clock w) o) && overrideDue now o)
           (menuOverrides w).
Proof.
  intros Hnd Hsel Hrel.
  cut (exists W',
         MenuOverrideResetScheduler.checkAndDeleteExpiredOverrides noOthers w
           = (Ok (length (List.filter (overrideDue (clock w)) (menuOverrides w))), W')
         /\ menuOverrides W' =
              map (fun o => if overrideDue (clock w) o then MenuOverrideResetScheduler.set o
                            else o)
                (menuOverrides w)).
  { intros (W' & -> & Htable). cbn [fst snd]. split; [reflexivity|]. split; [exact Htable|].
    intros now. rewrite Htable. apply filter_after_sweep.
    intros o. reflexivity. }
  unfold MenuOverrideResetScheduler.checkAndDeleteExpiredOverrides,
    storage.getOverridesNeedingAutoDelete.
  unfold try_catch. unfold bind at 1. unfold bind at 1. unfold newDate, gets.
  unfold bind at 1. rewrite (perform_executes _ _ Hsel). wsimpl.
  change (List.filter _ (menuOverrides w))
    with (List.filter (overrideDue (clock w)) (menuOverrides w)).
  destruct (length (List.filter (overrideDue (clock w)) (menuOverrides w)) =? 0)%nat
    eqn:Hlen.
  - apply Nat.eqb_eq in Hlen. rewrite Hlen. unfold ret. eexists. split; [reflexivity|]. wsimpl.
    apply length_zero_iff_nil in Hlen.
    symmetry. transitivity (map (fun o => o) (menuOverrides w)); [|apply map_id].
    apply map_ext_in.
    intros o Ho. destruct (overrideDue (clock w) o) eqn:Hdue; [|reflexivity].
    assert (Hf : In o (List.filter (overrideDue (clock w)) (menuOverrides w)))
      by (apply filter_In; split; assumption).
    rewrite Hlen in Hf. destruct Hf.
  - unfold bind at 1. unfold console_log, modify. wsimpl.
    match goal with |- context [MenuOverrideResetScheduler.deleteOverrides _ _ ?L _ ?W1] =>
      destruct (deleteOverrides_all L 0%nat 0%nat W1) as (W' & -> & Htable & _) end.
    { wsimpl. exact Hnd. }
    { wsimpl. intros o Ho. apply filter_In in Ho as [Ho _]. exact Ho. }
    { apply NoDup_map_filter, Hnd. }
    { exact Hrel. }
    exists W'. split; [reflexivity|]. rewrite Htable. wsimpl.
    apply (among_filter MenuOverride.id (fun _ r => MenuOverrideResetScheduler.set r)).
    exact Hnd.
Qed.

Lemma checkAndDeleteExpiredOverrides_deletes_every_due_override_witness :
  let r := MenuOverrideResetScheduler.checkAndDeleteExpiredOverrides noOthers
             (Sample.world Sample.healthy Sample.user) in
  fst r = Ok 1%nat
  /\ forall now, List.filter (overrideDue now) (menuOverrides (snd r)) = [].
Proof.
  destruct (checkAndDeleteExpiredOverrides_deletes_every_due_override
              (Sample.world Sample.healthy Sample.user))
    as (Hcount & _ & Hdue);
    [ repeat constructor; cbn; tauto | reflexivity | intros n; reflexivity | ].
  split; [exact Hcount | exact Hdue].
Defined.

(** ** The sweepers never throw *)

Lemma resetAgent_returns (agent : AgentConfiguration.t) (n : nat) (W : World) :
  exists n' W',
    WaitTimeResetScheduler.resetAgent agent n W = (Ok n', W') /\ (n <= n' <= S n)%nat.
Proof.
  unfold WaitTimeResetScheduler.resetAgent. unfold_monad. split_run.
  all: eexists _, _; split; [reflexivity | lia].
Qed.

Lemma resetAgents_returns
    (others : nat -> list AgentConfiguration.t -> list AgentConfiguration.t)
    (agents : list AgentConfiguration.t) :
  forall (k n : nat) (W : World),
    exists n' W',
      WaitTimeResetScheduler.resetAgents others k agents n W = (Ok n', W')
      /\ (n <= n' <= n + length agents)%nat.
Proof.
  induction agents as [|a agents IH]; intros k n W.
  { exists n, W. split; [reflexivity | cbn [length]; lia]. }
  cbn [WaitTimeResetScheduler.resetAgents length].
  unfold bind at 1. unfold modify. unfold bind at 1.
  destruct (resetAgent_returns a n (set_agentConfigurations (others k (agentConfigurations W)) W))
    as (n1 & W1 & -> & Hn1).
  destruct (IH (S k) n1 W1) as (n' & W' & -> & Hn').
  exists n', W'. split; [reflexivity | lia].
Qed.

Lemma deleteOverride_returns (override : MenuOverride.t) (n : nat) (W : World) :
  exists n' W',
    MenuOverrideResetScheduler.deleteOverride override n W = (Ok n', W')
    /\ (n <= n' <= S n)%nat.
Proof.
  unfold MenuOverrideResetScheduler.deleteOverride. unfold_monad. split_run.
  all: eexists _, _; split; [reflexivity | lia].
Qed.

Lemma deleteOverrides_returns
    (others : nat -> list MenuOverride.t -> list MenuOverride.t)
    (overrides : list MenuOverride.t) :
  forall (k n : nat) (W : World),
    exists n' W',
      MenuOverrideResetScheduler.deleteOverrides others k overrides n W = (Ok n', W')
      /\ (n <= n' <= n + length overrides)%nat.
Proof.
  induction overrides as [|o overrides IH]; intros k n W.
  { exists n, W. split; [reflexivity | cbn [length]; lia]. }
  cbn [MenuOverrideResetScheduler.deleteOverrides length].
  unfold bind at 1. unfold modify. unfold bind at 1.
  destruct (deleteOverride_returns o n (set_menuOverrides (others k (menuOverrides W)) W))
    as (n1 & W1 & -> & Hn1).
  destruct (IH (S k) n1 W1) as (n' & W' & -> & Hn').
  exists n', W'. split; [reflexivity | lia].
Qed.

Lemma checkAndResetWaitTimes_returns
    (others : nat -> list AgentConfiguration.t -> list AgentConfiguration.t) (w : World) :
  exists n W',
    WaitTimeResetScheduler.checkAndResetWaitTimes others w = (Ok n, W')
    /\ (n <= length (List.filter (waitTimeDue (clock w)) (agentConfigurations w)))%nat
    /\ (nextFails w SelectAgentConfigurations ->
        n = 0%nat /\ agentConfigurations W' = agentConfigurations w).
Proof.
  unfold WaitTimeResetScheduler.checkAndResetWaitTimes,
    storage.getAgentsNeedingWaitTimeReset, nextFails.
  unfold try_catch. unfold bind at 1. unfold bind at 1. unfold newDate, gets.
  unfold bind at 1. unfold perform.
  destruct (faults (env w) SelectAgentConfigurations _) eqn:Hf; wsimpl.
  { unfold console_error, modify, bind, ret. wsimpl. eexists 0%nat, _.
    split; [reflexivity|]. split; [lia|]. intros _. split; reflexivity. }
  change (List.filter _ (agentConfigurations w))
    with (List.filter (waitTimeDue (clock w)) (agentConfigurations w)).
  destruct (length _ =? 0)%nat.
  { eexists 0%nat, _. split; [reflexivity|]. split; [lia | discriminate]. }
  unfold bind at 1. unfold console_log, modify. wsimpl.
  match goal with |- context [WaitTimeResetScheduler.resetAgents _ _ ?L _ ?W1] =>
    destruct (resetAgents_returns others L 0%nat 0%nat W1) as (n & W' & -> & Hn) end.
  exists n, W'. split; [reflexivity|]. split; [lia | discriminate].
Qed.

Lemma checkAndDeleteExpiredOverrides_returns
    (others : nat -> list MenuOverride.t -> list MenuOverride.t) (w : World) :
  exists n W',
    MenuOverrideResetScheduler.checkAndDeleteExpiredOverrides others w = (Ok n, W')
    /\ (n <= length (List.filter (overrideDue (clock w)) (menuOverrides w)))%nat
    /\ (nextFails w SelectMenuOverrides ->
        n = 0%nat /\ menuOverrides W' = menuOverrides w).
Proof.
  unfold MenuOverrideResetScheduler.checkAndDeleteExpiredOverrides,
    storage.getOverridesNeedingAutoDelete, nextFails.
  unfold try_catch. unfold bind at 1. unfold bind at 1. unfold newDate, gets.
  unfold bind at 1. unfold perform.
  destruct (faults (env w) SelectMenuOverrides _) eqn:Hf; wsimpl.
  { unfold console_error, modify, bind, ret. wsimpl. eexists 0%nat, _.
    split; [reflexivity|]. split; [lia|]. intros _. split; reflexivity. }
  change (List.filter _ (menuOverrides w))
    with (List.filter (overrideDue (clock w)) (menuOverrides w)).
  destruct (length _ =? 0)%nat.
  { eexists 0%nat, _. split; [reflexivity|]. split; [lia | discriminate]. }
  unfold bind at 1. unfold console_log, modify. wsimpl.
  match goal with |- context [MenuOverrideResetScheduler.deleteOverrides _ _ ?L _ ?W1] =>
    destruct (deleteOverrides_returns others L 0%nat 0%nat W1) as (n & W' & -> & Hn) end.
  exists n, W'. split; [reflexivity|]. split; [lia | discriminate].
Qed.

(** X14.  The sweepers never throw, whatever fails and whatever other
    requests write meanwhile: they return a count that is at most the
    number of rows that were due at the read; when the read itself fails
    the count is 0 and the table is unchanged. *)
Theorem sweepers_never_throw :
  (forall (others : nat -> list AgentConfiguration.t -> list AgentConfiguration.t)
          (w : World),
     exists n,
       fst (WaitTimeResetScheduler.checkAndResetWaitTimes others w) = Ok n
       /\ (n <= length (List.filter (waitTimeDue (clock w)) (agentConfigurations w)))%nat
       /\ (nextFails w SelectAgentConfigurations ->
           n = 0%nat
           /\ agentConfigurations
                (snd (WaitTimeResetScheduler.checkAndResetWaitTimes others w))
              = agentConfigurations w))
  /\ (forall (others : nat -> list MenuOverride.t -> list MenuOverride.t) (w : World),
        exists n,
          fst (MenuOverrideResetScheduler.checkAndDeleteExpiredOverrides others w) = Ok n
          /\ (n <= length (List.filter (overrideDue (clock w)) (menuOverrides w)))%nat
          /\ (nextFails w SelectMenuOverrides ->
              n = 0%nat
              /\ menuOverrides
                   (snd (MenuOverrideResetScheduler.checkAndDeleteExpiredOverrides others w))
                 = menuOverrides w)).
Proof.
  split; intros others w.
  - destruct (checkAndResetWaitTimes_returns others w) as (n & W' & -> & HP).
    exists n. split; [reflexivity | exact HP].
  - destruct (checkAndDeleteExpiredOverrides_returns others w) as (n & W' & -> & HP).
    exists n. split; [reflexivity | exact HP].
Qed.

(** ** Polling Twilio for stale calls *)

Lemma pollingFrame_same (w w' : World) :
  usageRecords w' = usageRecords w -> users w' = users w ->
  stripeMeterEvents w' = stripeMeterEvents w -> callLogs w' = callLogs w ->
  pollingFrame w w'.
Proof.
  intros H1 H2 H3 H4. unfold pollingFrame. rewrite H1, H2, H3, H4.
  split; [reflexivity|]. split; [reflexivity|]. split; [reflexivity|].
  clear. induction (callLogs w); constructor; repeat split; auto.
Qed.

Lemma pollingFrame_frame : Frame pollingFrame.
Proof.
  split.
  - intros w. apply pollingFrame_same; reflexivity.
  - unfold pollingFrame. intros w1 w2 w3 (H1 & H2 & H3 & H4) (H1' & H2' & H3' & H4').
    repeat split; try congruence.
    revert H4 H4'. generalize (callLogs w1) (callLogs w2) (callLogs w3). clear.
    intros l1 l2 l3 H12. revert l3.
    induction H12 as [|a b l1 l2 (Hid & Hc & Hs) _ IH]; intros l3 H23;
      inversion H23 as [|b' c l2' l3' (Hid' & Hc' & Hs') Hrest]; subst; constructor.
    + repeat split; try congruence. auto.
    + apply IH. exact Hrest.
  - intros w t. apply pollingFrame_same; reflexivity.
  - intros w l. apply pollingFrame_same; reflexivity.
Qed.

#[export] Existing Instance pollingFrame_frame.

Lemma updateCallLog_keeps_polling (id : string) (updates : CallLogUpdates.t) :
  CallLogUpdates.usageRecordedAt updates = None ->
  CallLogUpdates.status updates <> Some in_progress ->
  keeps pollingFrame (storage.updateCallLog id updates).
Proof.
  intros Hu Hs. unfold storage.updateCallLog. repeat keeps_step.
  apply keeps_modify. intros w. unfold pollingFrame. wsimpl. repeat split.
  unfold sql_update. induction (callLogs w) as [|r rows IH]; constructor; [|exact IH].
  destruct (String.eqb (CallLog.id r) id); [|repeat split; auto].
  unfold CallLogUpdates.set. cbn [CallLog.id CallLog.usageRecordedAt CallLog.status].
  rewrite Hu. repeat split.
  destruct (CallLogUpdates.status updates) as [s|]; [|auto].
  intros ->. congruence.
Qed.

Lemma pollCall_keeps (twilioClient : Twilio.Client) (callLog : CallLog.t) (n : nat) :
  keeps pollingFrame (TwilioPollingService.pollCall twilioClient callLog n).
Proof.
  unfold TwilioPollingService.pollCall, TwilioPollingService.pollFailed.
  repeat lazymatch goal with
    | |- keeps _ (storage.updateCallLog _ _) =>
        apply updateCallLog_keeps_polling;
        unfold TwilioPollingService.buildUpdates, TwilioPollingService.onlyPolled;
        repeat case_match; first [reflexivity | discriminate]
    | _ => keeps_step
    end.
Qed.

Lemma pollCalls_keeps (twilioClient : Twilio.Client) (staleCalls : list CallLog.t) :
  forall n, keeps pollingFrame (TwilioPollingService.pollCalls twilioClient staleCalls n).
Proof.
  induction staleCalls as [|c rest IH]; intros n; cbn [TwilioPollingService.pollCalls].
  - keeps_step.
  - keeps_step; [apply pollCall_keeps | apply IH].
Qed.

(** X15.  Polling Twilio never bills: whatever Twilio answers and
    whatever fails, pollStaleInProgressCalls leaves the ledger, the
    accounts and the provider's events as they were, changes the
    usage-recorded timestamp of no call log, keeps the rows of call_logs
    and puts no call back to in-progress. *)
Theorem pollStaleInProgressCalls_never_bills
    (twilioClient : Twilio.Client) (ageMinutes : Z) (w : World) :
  pollingFrame w (snd (TwilioPollingService.pollStaleInProgressCalls twilioClient ageMinutes w)).
Proof.
  revert w. change (keeps pollingFrame
                      (TwilioPollingService.pollStaleInProgressCalls twilioClient ageMinutes)).
  unfold TwilioPollingService.pollStaleInProgressCalls,
    DatabaseStorage.getInProgressCallsOlderThan.
  repeat lazymatch goal with
    | |- keeps _ (TwilioPollingService.pollCalls _ _ _) => apply pollCalls_keeps
    | _ => keeps_step
    end.
Qed.

Lemma update_sets_polled (id : string) (updates : CallLogUpdates.t) (t : Z)
    (rows : list CallLog.t) :
  CallLogUpdates.lastPolledAt updates = Some t ->
  Forall (fun c => CallLog.id c = id -> CallLog.lastPolledAt c = Some t)
    (sql_update (fun c => String.eqb (CallLog.id c) id) (CallLogUpdates.set updates) rows).
Proof.
  intros Hu. unfold sql_update. apply Forall_map. apply List.Forall_forall. intros c _ Hid.
  destruct (String.eqb (CallLog.id c) id) eqn:E.
  - unfold CallLogUpdates.set. cbn [CallLog.lastPolledAt]. rewrite Hu. reflexivity.
  - apply String.eqb_neq in E. contradiction.
Qed.

Lemma update_keeps_status (where_ : CallLog.t -> bool) (updates : CallLogUpdates.t)
    (rows : list CallLog.t) :
  CallLogUpdates.status updates = None ->
  map CallLog.status (sql_update where_ (CallLogUpdates.set updates) rows)
  = map CallLog.status rows.
Proof.
  intros Hu. unfold sql_update. rewrite map_map. apply map_ext. intros r.
  destruct (where_ r); [|reflexivity].
  unfold CallLogUpdates.set. cbn [CallLog.status]. rewrite Hu. reflexivity.
Qed.

(** The catch of the loop body, with a database that works. *)
Lemma pollFailed_run (callLog : CallLog.t) (n : nat) (errorStatus : option Z) (error : Error)
    (W : World) :
  reliable W UpdateCallLogs ->
  exists W',
    TwilioPollingService.pollFailed callLog n errorStatus error W
      = (Ok (if bool_decide (errorStatus = Some 404) then S n else n), W')
    /\ Forall (fun c => CallLog.id c = CallLog.id callLog ->
                        CallLog.lastPolledAt c = Some (clock W)) (callLogs W')
    /\ if bool_decide (errorStatus = Some 404)
       then Forall (fun c => CallLog.id c = CallLog.id callLog -> CallLog.status c = failed)
              (callLogs W')
       else map CallLog.status (callLogs W') = map CallLog.status (callLogs W).
Proof.
  intros Hrel. unfold TwilioPollingService.pollFailed.
  unfold bind at 1. unfold console_error, modify. wsimpl.
  unfold bind at 1. unfold newDate, gets. wsimpl.
  unfold bind at 1.
  edestruct (updateCallLog_run (CallLog.id callLog) (TwilioPollingService.onlyPolled (clock W)))
    as (r & ->); [reflexivity | apply Hrel |]. wsimpl.
  destruct (bool_decide (errorStatus = Some 404)).
  - unfold bind at 1. unfold bind at 1.
    edestruct (updateCallLog_run (CallLog.id callLog)
                 (CallLogUpdates.mk (Some failed) (Some (clock W)) None None None))
      as (r' & ->); [reflexivity | apply Hrel |]. wsimpl.
    unfold bind, console_log, modify, ret. wsimpl.
    eexists. split; [reflexivity|]. wsimpl.
    split; [apply update_sets_polled | apply update_sets_status]; reflexivity.
  - unfold ret. eexists. split; [reflexivity|]. wsimpl.
    split; [apply update_sets_polled | apply update_keeps_status]; reflexivity.
Qed.

(** The loop body by cases on the answer of Twilio. *)
Lemma pollCall_cases (twilioClient : Twilio.Client) (callLog : CallLog.t) (n : nat)
    (W : World) (sid : string) :
  CallLog.twilioCallSid callLog = Some sid ->
  sid <> "" ->
  CallLog.status callLog = in_progress ->
  reliable W UpdateCallLogs ->
  exists W',
    let own (P : CallLog.t -> Prop) :=
      Forall (fun c => CallLog.id c = CallLog.id callLog -> P c) (callLogs W') in
    let statusKept := map CallLog.status (callLogs W') = map CallLog.status (callLogs W) in
    own (fun c => CallLog.lastPolledAt c = Some (clock W))
    /\ match twilioClient sid with
       | Twilio.Fetched twilioCall =>
           if TwilioPollingService.isFinal (Twilio.status twilioCall) then
             if CallLogUpdates.accepted
                  (TwilioPollingService.buildUpdates callLog twilioCall (clock W))
             then
               TwilioPollingService.pollCall twilioClient callLog n W = (Ok (S n), W')
               /\ own (fun c =>
                         CallLog.status c =
                           if String.eqb (Twilio.status twilioCall) "completed"
                           then completed else failed)
             else
               TwilioPollingService.pollCall twilioClient callLog n W = (Ok n, W')
               /\ statusKept
           else
             TwilioPollingService.pollCall twilioClient callLog n W = (Ok n, W')
             /\ statusKept
       | Twilio.Rejected errorStatus _ =>
           if bool_decide (errorStatus = Some 404) then
             TwilioPollingService.pollCall twilioClient callLog n W = (Ok (S n), W')
             /\ own (fun c => CallLog.status c = failed)
           else
             TwilioPollingService.pollCall twilioClient callLog n W = (Ok n, W')
             /\ statusKept
       end.
Proof.
  intros Hsid Hne Hstatus Hrel. unfold TwilioPollingService.pollCall.
  rewrite Hsid, Hstatus. cbn [Js.truthy default from_option id].
  destruct sid as [|ch sid]; [congruence|]. cbn [negb String.eqb].
  change (id (String ch sid)) with (String ch sid).
  destruct (twilioClient (String ch sid)) as [twilioCall | errorStatus message].
  - unfold TwilioPollingService.shouldUpdateCallStatus.
    destruct (TwilioPollingService.isFinal (Twilio.status twilioCall)) eqn:Hfinal.
    + rewrite !bool_decide_eq_false_2 by discriminate. cbn [negb andb].
      destruct (CallLogUpdates.accepted _) eqn:Hacc.
      * unfold try_catch. unfold bind at 1. unfold console_log at 1. unfold modify. wsimpl.
        unfold bind at 1. unfold newDate, gets. wsimpl. unfold bind at 1.
        edestruct (updateCallLog_run (CallLog.id callLog)
                     (TwilioPollingService.buildUpdates callLog twilioCall (clock W)))
          as (r & ->); [exact Hacc | apply Hrel |].
        unfold bind, console_log, modify, ret. wsimpl.
        eexists. cbv zeta. wsimpl.
        split; [|split; [reflexivity|]].
        -- apply update_sets_polled. unfold TwilioPollingService.buildUpdates.
           rewrite Hfinal. reflexivity.
        -- apply update_sets_status. unfold TwilioPollingService.buildUpdates.
           rewrite Hfinal. reflexivity.
      * unfold try_catch. unfold bind at 1. unfold console_log at 1. unfold modify. wsimpl.
        unfold bind at 1. unfold newDate, gets. wsimpl. unfold bind at 1.
        rewrite updateCallLog_refused by exact Hacc.
        destruct (pollFailed_run callLog n None PgInvalidInteger
                    (set_trace ((UpdateCallLogs, false) :: trace W)
                       (set_console (ConsoleLog "Twilio call status" :: console W) W)) Hrel)
          as (W' & Hrun & Hpolled & Hkept).
        exists W'. cbv zeta. split; [exact Hpolled|]. split; [exact Hrun | exact Hkept].
    + assert (Hexists : existsb (String.eqb (Twilio.status twilioCall))
                          ["queued"; "ringing"; "in-progress"] = true
                        \/ existsb (String.eqb (Twilio.status twilioCall))
                             ["queued"; "ringing"; "in-progress"] = false)
        by (destruct (existsb _ _); auto).
      assert (Hif : (if bool_decide (in_progress = in_progress)
                        && existsb (String.eqb (Twilio.status twilioCall))
                             ["queued"; "ringing"; "in-progress"]
                     then false else false) = false)
        by (destruct (_ && _); reflexivity).
      rewrite Hif. clear Hif Hexists.
      unfold try_catch. unfold bind at 1. unfold console_log at 1. unfold modify. wsimpl.
      unfold bind at 1. unfold newDate, gets. wsimpl. unfold bind at 1.
      edestruct (updateCallLog_run (CallLog.id callLog)
                   (TwilioPollingService.onlyPolled (clock W)))
        as (r & ->); [reflexivity | apply Hrel |].
      unfold bind, console_log, modify, ret. wsimpl.
      eexists. cbv zeta. wsimpl.
      split; [|split; [reflexivity|]].
      * apply update_sets_polled. reflexivity.
      * apply update_keeps_status. reflexivity.
  - destruct (pollFailed_run callLog n errorStatus (JsError message) W Hrel)
      as (W' & Hrun & Hpolled & Hkept).
    exists W'. cbv zeta. split; [exact Hpolled|].
    destruct (bool_decide (errorStatus = Some 404)); split; assumption.
Qed.

(** X16.  What polling does for one in-progress call that has a CallSid,
    with a working database.  It sets the poll timestamp of the call in
    every case.  When Twilio reports a final status, the call becomes
    'completed' for 'completed' and 'failed' for the other final statuses,
    and is counted, unless the database refuses the duration, in which case
    the status is kept and the call is not counted.  A status that is not
    final keeps the status and is not counted.  An error with status 404
    marks the call failed and counts it; any other error keeps the
    status. *)
Theorem pollCall_outcome (twilioClient : Twilio.Client) (callLog : CallLog.t) (n : nat)
    (W : World) (sid : string) :
  CallLog.twilioCallSid callLog = Some sid ->
  sid <> "" ->
  CallLog.status callLog = in_progress ->
  reliable W UpdateCallLogs ->
  let r := TwilioPollingService.pollCall twilioClient callLog n W in
  let own (P : CallLog.t -> Prop) :=
    Forall (fun c => CallLog.id c = CallLog.id callLog -> P c) (callLogs (snd r)) in
  let statusKept := map CallLog.status (callLogs (snd r)) = map CallLog.status (callLogs W) in
  own (fun c => CallLog.lastPolledAt c = Some (clock W))
  /\ match twilioClient sid with
     | Twilio.Fetched twilioCall =>
         if TwilioPollingService.isFinal (Twilio.status twilioCall) then
           if CallLogUpdates.accepted
                (TwilioPollingService.buildUpdates callLog twilioCall (clock W))
           then
             fst r = Ok (S n)
             /\ own (fun c =>
                       CallLog.status c =
                         if String.eqb (Twilio.status twilioCall) "completed"
                         then completed else failed)
           else fst r = Ok n /\ statusKept
         else fst r = Ok n /\ statusKept
     | Twilio.Rejected errorStatus _ =>
         if bool_decide (errorStatus = Some 404)
         then fst r = Ok (S n) /\ own (fun c => CallLog.status c = failed)
         else fst r = Ok n /\ statusKept
     end.
Proof.
  intros Hsid Hne Hstatus Hrel.
  destruct (pollCall_cases twilioClient callLog n W sid Hsid Hne Hstatus Hrel)
    as (W' & Hpolled & Hcases).
  cbv zeta in *.
  destruct (twilioClient sid) as [twilioCall | errorStatus message];
    repeat match goal with
           | H : context [if ?b then _ else _] |- _ => destruct b
           end;
    destruct Hcases as (-> & Hc); cbn [fst snd]; auto.
Qed.

Lemma pollCall_outcome_witness :
  let r := TwilioPollingService.pollCall allCompleted Sample.callLog 0
             (Sample.world Sample.healthy Sample.user) in
  fst r = Ok 1%nat
  /\ Forall (fun c => CallLog.id c = "c1" -> CallLog.status c = completed) (callLogs (snd r)).
Proof.
  destruct (pollCall_outcome allCompleted Sample.callLog 0
              (Sample.world Sample.healthy Sample.user) "CA1")
    as (_ & Hcount & Hstatus);
    [reflexivity | discriminate | reflexivity | intros n; reflexivity |].
  split; [exact Hcount | exact Hstatus].
Defined.

(** ** A whole poll *)

Lemma sameEnv_frame : Frame sameEnv.
Proof.
  split; unfold sameEnv.
  - intros w. split; reflexivity.
  - intros w1 w2 w3 [H1 H2] [H3 H4]. split; congruence.
  - intros w t. split; reflexivity.
  - intros w l. split; reflexivity.
Qed.

#[export] Existing Instance sameEnv_frame.

Lemma updateCallLog_keeps_env (id : string) (updates : CallLogUpdates.t) :
  keeps sameEnv (storage.updateCallLog id updates).
Proof.
  unfold storage.updateCallLog. repeat keeps_step.
  apply keeps_modify. intros w. split; reflexivity.
Qed.

Lemma pollCall_keeps_env (twilioClient : Twilio.Client) (callLog : CallLog.t) (n : nat) :
  keeps sameEnv (TwilioPollingService.pollCall twilioClient callLog n).
Proof.
  unfold TwilioPollingService.pollCall, TwilioPollingService.pollFailed.
  repeat lazymatch goal with
    | |- keeps _ (storage.updateCallLog _ _) => apply updateCallLog_keeps_env
    | _ => keeps_step
    end.
Qed.

(** With a database that works, the loop body returns and does not
    decrease the count. *)
Lemma pollCall_returns (twilioClient : Twilio.Client) (callLog : CallLog.t) (n : nat)
    (W : World) :
  CallLog.status callLog = in_progress ->
  reliable W UpdateCallLogs ->
  exists n' W',
    TwilioPollingService.pollCall twilioClient callLog n W = (Ok n', W')
    /\ (n <= n')%nat
    /\ (Js.truthy (CallLog.twilioCallSid callLog) = true ->
        ended twilioClient callLog (clock W) ->
        n' = S n
        /\ Forall (fun c => CallLog.id c = CallLog.id callLog -> CallLog.status c <> in_progress)
             (callLogs W')).
Proof.
  intros Hstatus Hrel.
  destruct (Js.truthy (CallLog.twilioCallSid callLog)) eqn:Hsid.
  - destruct (CallLog.twilioCallSid callLog) as [sid|] eqn:Hsome; [|discriminate].
    assert (Hne : sid <> "") by (intros ->; discriminate).
    destruct (pollCall_cases twilioClient callLog n W sid Hsome Hne Hstatus Hrel)
      as (W' & _ & Hcases).
    unfold ended. rewrite Hsome. cbn [default from_option id]. change (id sid) with sid.
    destruct (twilioClient sid) as [twilioCall | errorStatus message].
    + destruct (TwilioPollingService.isFinal _); [destruct (CallLogUpdates.accepted _)|].
      * destruct Hcases as (-> & Hst). eexists _, W'. split; [reflexivity|]. split; [lia|].
        intros _ _. split; [reflexivity|].
        eapply List.Forall_impl; [|exact Hst]. cbv beta. intros c Hc Hid.
        rewrite (Hc Hid). destruct (String.eqb _ _); discriminate.
      * destruct Hcases as (-> & _). eexists _, W'. split; [reflexivity|]. split; [lia|].
        intros _ [_ Hacc]. discriminate.
      * destruct Hcases as (-> & _). eexists _, W'. split; [reflexivity|]. split; [lia|].
        intros _ [Hfinal _]. discriminate.
    + destruct (bool_decide (errorStatus = Some 404)) eqn:E.
      * destruct Hcases as (-> & Hst). eexists _, W'. split; [reflexivity|]. split; [lia|].
        intros _ _. split; [reflexivity|].
        eapply List.Forall_impl; [|exact Hst]. cbv beta. intros c Hc Hid.
        rewrite (Hc Hid). discriminate.
      * destruct Hcases as (-> & _). eexists _, W'. split; [reflexivity|]. split; [lia|].
        intros _ H404. apply bool_decide_eq_false in E. contradiction.
  - unfold TwilioPollingService.pollCall. rewrite Hsid. cbn [negb].
    unfold bind, console_log, modify, ret. eexists _, _. split; [reflexivity|].
    split; [lia | discriminate].
Qed.

Lemma pollingFrame_resolved (id : string) (w w' : World) :
  pollingFrame w w' ->
  Forall (fun c => CallLog.id c = id -> CallLog.status c <> in_progress) (callLogs w) ->
  Forall (fun c => CallLog.id c = id -> CallLog.status c <> in_progress) (callLogs w').
Proof.
  intros (_ & _ & _ & H). induction H as [|r r' l l' (Hid & _ & Hs) _ IH];
    intros HF; [constructor|].
  apply List.Forall_cons_iff in HF as [Hr HF]. constructor; [|apply IH, HF].
  intros Hid' Hst. apply Hr; [congruence | apply Hs, Hst].
Qed.

Lemma pollCalls_run (twilioClient : Twilio.Client) (staleCalls : list CallLog.t) :
  forall (n : nat) (W : World),
    Forall (fun c => CallLog.status c = in_progress) staleCalls ->
    reliable W UpdateCallLogs ->
    exists n' W',
      TwilioPollingService.pollCalls twilioClient staleCalls n W = (Ok n', W')
      /\ (n <= n')%nat
      /\ forall c,
           In c staleCalls ->
           Js.truthy (CallLog.twilioCallSid c) = true ->
           ended twilioClient c (clock W) ->
           (n < n')%nat
           /\ Forall (fun r => CallLog.id r = CallLog.id c -> CallLog.status r <> in_progress)
                (callLogs W').
Proof.
  induction staleCalls as [|c0 rest IH]; intros n W Hall Hrel.
  { exists n, W. split; [reflexivity|]. split; [lia|]. intros c []. }
  apply List.Forall_cons_iff in Hall as [Hc0 Hall].
  cbn [TwilioPollingService.pollCalls]. unfold bind.
  pose proof (pollCall_keeps_env twilioClient c0 n W) as [Henv Hclock].
  destruct (pollCall_returns twilioClient c0 n W Hc0 Hrel) as (n1 & W1 & Hrun & Hn1 & Hended).
  rewrite Hrun in Henv, Hclock. rewrite Hrun. cbn [snd] in Henv, Hclock.
  assert (Hrel1 : reliable W1 UpdateCallLogs) by (intros k; rewrite Henv; apply Hrel).
  destruct (IH n1 W1 Hall Hrel1) as (n' & W' & Hrun' & Hn' & Hrest).
  pose proof (pollCalls_keeps twilioClient rest n1 W1) as Hframe. rewrite Hrun' in Hframe.
  cbn [snd] in Hframe.
  exists n', W'. split; [exact Hrun'|]. split; [lia|].
  intros c [<-|Hin] Hsid Hend.
  - destruct (Hended Hsid Hend) as (-> & Hst). split; [lia|].
    apply (pollingFrame_resolved _ W1 W' Hframe Hst).
  - rewrite <- Hclock in Hend. destruct (Hrest c Hin Hsid Hend) as (Hlt & Hst).
    split; [lia | exact Hst].
Qed.

(** X17.  A whole poll with a working database: a stale in-progress call
    with a CallSid that Twilio reports as ended (with a duration the row can
    take) or does not know is in progress no longer when the poll returns,
    and the count returned is positive. *)
Theorem pollStaleInProgressCalls_resolves_ended_calls
    (twilioClient : Twilio.Client) (ageMinutes : Z) (w : World) (c : CallLog.t) (t : Z) :
  executes w SelectCallLogs ->
  reliable w UpdateCallLogs ->
  In c (callLogs w) ->
  CallLog.status c = in_progress ->
  CallLog.createdAt c = Some t ->
  t < clock w - ageMinutes * 60 * 1000 ->
  Js.truthy (CallLog.twilioCallSid c) = true ->
  ended twilioClient c (clock w) ->
  let r := TwilioPollingService.pollStaleInProgressCalls twilioClient ageMinutes w in
  (exists n, fst r = Ok n /\ (0 < n)%nat)
  /\ Forall (fun r => CallLog.id r = CallLog.id c -> CallLog.status r <> in_progress)
       (callLogs (snd r)).
Proof.
  intros Hsel Hrel Hin Hstatus Hcreated Hold Hsid Hend.
  cut (exists n W',
         TwilioPollingService.pollStaleInProgressCalls twilioClient ageMinutes w = (Ok n, W')
         /\ (0 < n)%nat
         /\ Forall (fun r => CallLog.id r = CallLog.id c -> CallLog.status r <> in_progress)
              (callLogs W')).
  { intros (n & W' & -> & Hn & Hst). cbn [fst snd]. split; [exists n; split; auto | exact Hst]. }
  unfold TwilioPollingService.pollStaleInProgressCalls,
    DatabaseStorage.getInProgressCallsOlderThan.
  unfold bind at 1. unfold console_log at 1. unfold modify. wsimpl.
  unfold try_catch. unfold bind at 1. unfold bind at 1. unfold newDate, gets.
  unfold bind at 1. unfold perform. wsimpl. unfold executes in Hsel. rewrite Hsel. wsimpl.
  set (stale := List.filter _ (callLogs w)).
  assert (Hc : In c stale).
  { subst stale. apply filter_In. split; [exact Hin|].
    rewrite Hstatus, Hcreated. rewrite bool_decide_eq_true_2 by reflexivity.
    apply Z.ltb_lt, Hold. }
  assert (Hall : Forall (fun c => CallLog.status c = in_progress) stale).
  { subst stale. apply List.Forall_forall. intros x Hx. apply filter_In in Hx as [_ Hx].
    apply andb_true_iff in Hx as [Hx _]. apply bool_decide_eq_true in Hx. exact Hx. }
  destruct stale as [|c0 rest] eqn:Hstale; [destruct Hc|]. rewrite <- Hstale in *.
  replace (length stale =? 0)%nat with false by (rewrite Hstale; reflexivity).
  unfold bind at 1. unfold console_log at 1. unfold modify. wsimpl.
  unfold bind at 1.
  match goal with |- context [TwilioPollingService.pollCalls _ _ _ ?W1] =>
    destruct (pollCalls_run twilioClient stale 0%nat W1 Hall) as (n & W' & -> & _ & Hres) end.
  { exact Hrel. }
  destruct (Hres c Hc Hsid Hend) as (Hn & Hst).
  unfold bind, console_log, modify, ret. wsimpl.
  eexists n, _. split; [reflexivity|]. wsimpl. split; [exact Hn | exact Hst].
Qed.

Lemma pollStaleInProgressCalls_resolves_ended_calls_witness :
  let w := set_callLogs [Sample.callLog] (Sample.world Sample.healthy Sample.user) in
  Forall (fun r => CallLog.id r = "c1" -> CallLog.status r <> in_progress)
    (callLogs (snd (TwilioPollingService.pollStaleInProgressCalls allCompleted 0 w))).
Proof.
  refine (proj2 (pollStaleInProgressCalls_resolves_ended_calls allCompleted 0
                   (set_callLogs [Sample.callLog] (Sample.world Sample.healthy Sample.user))
                   Sample.callLog 900 _ _ _ _ _ _ _ _)).
  - reflexivity.
  - intros n. reflexivity.
  - left. reflexivity.
  - reflexivity.
  - reflexivity.
  - reflexivity.
  - reflexivity.
  - split; reflexivity.
Defined.

(** ** Deleting and editing a menu override *)

Lemma softDelete_status (id : string) (rows : list MenuOverride.t) :
  Forall (fun o => MenuOverride.id o = id -> MenuOverride.status o = deleted)
    (sql_update (fun o => String.eqb (MenuOverride.id o) id) MenuOverrideResetScheduler.set
       rows).
Proof.
  unfold sql_update. apply Forall_map. apply List.Forall_forall. intros o _ Hid.
  destruct (String.eqb (MenuOverride.id o) id) eqn:E; [reflexivity|].
  apply String.eqb_neq in E. contradiction.
Qed.

Lemma edit_keeps_status (where_ : MenuOverride.t -> bool) (content : string)
    (resetAt : option Z) (lastModifiedBy : string) (now : Z) (rows : list MenuOverride.t) :
  map (fun o => (MenuOverride.id o, MenuOverride.status o))
    (sql_update where_ (DatabaseStorage.editMenuOverride content resetAt lastModifiedBy now)
       rows)
  = map (fun o => (MenuOverride.id o, MenuOverride.status o)) rows.
Proof.
  unfold sql_update. rewrite map_map. apply map_ext. intros o.
  destruct (where_ o); reflexivity.
Qed.

(** Editing never changes the id or the status of a row. *)
Lemma updateMenuOverride_status (id content : string) (resetAt : option Z)
    (lastModifiedBy : string) (w : World) :
  map (fun o => (MenuOverride.id o, MenuOverride.status o))
    (menuOverrides
       (snd (DatabaseStorage.updateMenuOverride id content resetAt lastModifiedBy w)))
  = map (fun o => (MenuOverride.id o, MenuOverride.status o)) (menuOverrides w).
Proof.
  unfold DatabaseStorage.updateMenuOverride. unfold_monad. split_run.
  all: try reflexivity.
  all: apply edit_keeps_status.
Qed.

Lemma not_due_when_deleted (now : Z) (o : MenuOverride.t) :
  MenuOverride.status o = deleted -> overrideDue now o = false.
Proof. intros H. unfold overrideDue. rewrite H. reflexivity. Qed.

Lemma rowCount_positive {A} (p : A -> bool) (rows : list A) :
  (0 <? length (List.filter p rows))%nat = existsb p rows.
Proof.
  induction rows as [|r rows IH]; [reflexivity|].
  cbn [List.filter existsb]. destruct (p r); [reflexivity | exact IH].
Qed.

(** X18.  softDeleteMenuOverride returns true exactly when a row has the
    id, whatever its status; it marks these rows deleted and leaves the
    rest of the table as it is.  A later updateMenuOverride of the same id,
    with any reset time, does not bring the override back: it stays
    deleted and is never due for auto-deletion. *)
Theorem softDeleteMenuOverride_is_final (id : string) (w : World) :
  executes w UpdateMenuOverrides ->
  let r := DatabaseStorage.softDeleteMenuOverride id w in
  fst r = Ok (existsb (fun o => String.eqb (MenuOverride.id o) id) (menuOverrides w))
  /\ Forall2 (fun o o' => if String.eqb (MenuOverride.id o) id
                          then o' = MenuOverrideResetScheduler.set o else o' = o)
       (menuOverrides w) (menuOverrides (snd r))
  /\ forall (content : string) (resetAt : option Z) (lastModifiedBy : string) (now : Z),
       Forall (fun o => MenuOverride.id o = id ->
                        MenuOverride.status o = deleted /\ overrideDue now o = false)
         (menuOverrides
            (snd (DatabaseStorage.updateMenuOverride id content resetAt lastModifiedBy
                    (snd r)))).
Proof.
  intros Hex.
  cut (exists W',
         DatabaseStorage.softDeleteMenuOverride id w
           = (Ok (existsb (fun o => String.eqb (MenuOverride.id o) id) (menuOverrides w)), W')
         /\ menuOverrides W' =
              sql_update (fun o => String.eqb (MenuOverride.id o) id)
                MenuOverrideResetScheduler.set (menuOverrides w)).
  { intros (W' & -> & Htable). cbn [fst snd]. split; [reflexivity|]. split.
    - rewrite Htable. unfold sql_update. apply Forall2_map_In. intros o _.
      destruct (String.eqb (MenuOverride.id o) id); reflexivity.
    - intros content resetAt lastModifiedBy now.
      pose proof (updateMenuOverride_status id content resetAt lastModifiedBy W') as Hst.
      pose proof (softDelete_status id (menuOverrides w)) as Hdel. rewrite <- Htable in Hdel.
      revert Hst Hdel.
      generalize (menuOverrides
                    (snd (DatabaseStorage.updateMenuOverride id content resetAt
                            lastModifiedBy W'))).
      generalize (menuOverrides W'). clear.
      intros l. induction l as [|o l IH]; intros [|o' l'] Hst Hdel;
        cbn [map] in Hst; try discriminate; constructor.
      + injection Hst as Hid Hs _. apply List.Forall_cons_iff in Hdel as [Ho _].
        intros Hid'. assert (Hd : MenuOverride.status o' = deleted)
          by (rewrite Hs; apply Ho; congruence).
        split; [exact Hd | apply not_due_when_deleted, Hd].
      + injection Hst as _ _ Hst. apply List.Forall_cons_iff in Hdel as [_ Hdel].
        apply IH; assumption. }
  unfold DatabaseStorage.softDeleteMenuOverride. unfold_monad.
  unfold executes in Hex. rewrite Hex. wsimpl.
  rewrite rowCount_positive. eexists. split; reflexivity.
Qed.

Lemma softDeleteMenuOverride_is_final_witness :
  let r := DatabaseStorage.softDeleteMenuOverride "m1"
             (Sample.world Sample.healthy Sample.user) in
  fst r = Ok true
  /\ Forall (fun o => MenuOverride.id o = "m1" ->
                      MenuOverride.status o = deleted /\ overrideDue 5000 o = false)
       (menuOverrides
          (snd (DatabaseStorage.updateMenuOverride "m1" "soup is back" (Some 2000) "u1"
                  (snd r)))).
Proof.
  destruct (softDeleteMenuOverride_is_final "m1" (Sample.world Sample.healthy Sample.user))
    as (Hr & _ & Hfinal); [reflexivity|].
  split; [exact Hr | exact (Hfinal "soup is back" (Some 2000) "u1" 5000)].
Defined.

(** ** Setting the wait time *)

Lemma sql_update_none {A} (where_ : A -> bool) (set : A -> A) (rows : list A) :
  (forall r, In r rows -> where_ r = false) -> sql_update where_ set rows = rows.
Proof.
  intros Hnone. unfold sql_update. rewrite <- (map_id rows) at 2.
  apply map_ext_in. intros r Hr. rewrite (Hnone r Hr). reflexivity.
Qed.

(** What the UPDATE of the tool does to the table. *)
Lemma update_wait_time_table (Date_getTime : string -> Js.number) (agentId : string)
    (waitTimeMinutes : Z) (resetWaitTimeAt : option string) (now : Z)
    (config : AgentUpdates.t) (rows : list AgentConfiguration.t) :
  match resetWaitTimeAt with
  | None => config = AgentUpdates.mk (Some waitTimeMinutes) None
  | Some s =>
      if String.eqb s "" then config = AgentUpdates.mk (Some waitTimeMinutes) (Some None)
      else exists t, Date_getTime s = Js.Num t /\ now < t
                     /\ config = AgentUpdates.mk (Some waitTimeMinutes) (Some (Some t))
  end ->
  Forall2
    (fun a a' =>
       if String.eqb (AgentConfiguration.id a) agentId then
         AgentConfiguration.waitTimeMinutes a' = waitTimeMinutes
         /\ match resetWaitTimeAt with
            | None =>
                AgentConfiguration.resetWaitTimeAt a'
                = AgentConfiguration.resetWaitTimeAt a
            | Some s =>
                waitTimeDue now a' = false
                /\ if String.eqb s "" then AgentConfiguration.resetWaitTimeAt a' = None
                   else exists t,
                          Date_getTime s = Js.Num t /\ now < t
                          /\ AgentConfiguration.resetWaitTimeAt a' = Some t
            end
       else a' = a)
    rows
    (sql_update (fun a => String.eqb (AgentConfiguration.id a) agentId)
       (AgentUpdates.set config now) rows).
Proof.
  intros Hconfig. unfold sql_update. apply Forall2_map_In. intros a _.
  destruct (String.eqb (AgentConfiguration.id a) agentId); [|reflexivity].
  destruct resetWaitTimeAt as [s|].
  - destruct (String.eqb s "").
    + subst config. repeat split.
    + destruct Hconfig as (t & Hdate & Ht & ->). split; [reflexivity|]. split.
      * unfold waitTimeDue, AgentUpdates.set.
        cbn [AgentConfiguration.resetWaitTimeAt AgentUpdates.resetWaitTimeAt isNull negb andb].
        apply Z.leb_gt, Ht.
      * exists t. repeat split; assumption.
  - subst config. split; reflexivity.
Qed.

(** The [updateData] object is built without any awaited call. *)
Lemma updateData_run (Date_getTime : string -> Js.number) (waitTimeMinutes : Z)
    (resetWaitTimeAt : option string) (w : World) :
  (exists e, mcpServer.updateData Date_getTime waitTimeMinutes resetWaitTimeAt w = (Throw e, w)
             /\ exists s, resetWaitTimeAt = Some s /\ s <> ""
                          /\ forall t, Date_getTime s = Js.Num t -> t <= clock w)
  \/ (exists config,
        mcpServer.updateData Date_getTime waitTimeMinutes resetWaitTimeAt w = (Ok config, w)
        /\ match resetWaitTimeAt with
           | None => config = AgentUpdates.mk (Some waitTimeMinutes) None
           | Some s =>
               if String.eqb s ""
               then config = AgentUpdates.mk (Some waitTimeMinutes) (Some None)
               else exists t, Date_getTime s = Js.Num t /\ clock w < t
                              /\ config = AgentUpdates.mk (Some waitTimeMinutes) (Some (Some t))
           end).
Proof.
  unfold mcpServer.updateData. unfold_monad.
  destruct resetWaitTimeAt as [s|]; [|right; eexists; split; reflexivity].
  cbn [Js.truthy]. destruct (String.eqb_spec s "") as [->|Hs]; cbn [negb].
  - right. eexists. split; reflexivity.
  - destruct (Date_getTime s) as [t|] eqn:Hdate.
    + destruct (Z.leb_spec t (clock w)) as [Hle|Hgt].
      * left. eexists. split; [reflexivity|]. exists s. repeat split; [exact Hs|].
        intros t' Heq. rewrite Hdate in Heq. injection Heq as <-. exact Hle.
      * right. eexists. split; [reflexivity|]. exists t. repeat split. exact Hgt.
    + left. eexists. split; [reflexivity|]. exists s. repeat split; [exact Hs|].
      intros t' Heq. rewrite Hdate in Heq. discriminate Heq.
Qed.

(** The tool after its arguments were accepted: the awaited write and the
    two reads. *)
Lemma update_wait_time_run (Date_getTime : string -> Js.number) (agentId : string)
    (waitTimeMinutes : Z) (resetWaitTimeAt : option string) (config : AgentUpdates.t)
    (w : World) :
  mcpServer.updateWaitTimeSchema waitTimeMinutes = true ->
  mcpServer.updateData Date_getTime waitTimeMinutes resetWaitTimeAt w = (Ok config, w) ->
  let run := mcpServer.update_wait_time Date_getTime agentId waitTimeMinutes resetWaitTimeAt w in
  let written :=
    sql_update (fun a => String.eqb (AgentConfiguration.id a) agentId)
      (AgentUpdates.set config (clock w)) (agentConfigurations w) in
  exists W',
    (* the write failed *)
    ((exists e, run = (Throw e, W')) /\ agentConfigurations W' = agentConfigurations w)
    (* a read failed, or there is no row to read *)
    \/ ((exists e, run = (Throw e, W')) /\ agentConfigurations W' = written
        /\ ((forall a, In a (agentConfigurations w) -> AgentConfiguration.id a <> agentId) ->
            written = agentConfigurations w))
    \/ (exists agent restaurant,
          run = (Ok (WaitTimeResult.mk
                       (mcpServer.agentNameOf restaurant)
                       (AgentConfiguration.waitTimeMinutes agent)
                       (AgentConfiguration.defaultWaitTimeMinutes agent)
                       (AgentConfiguration.resetWaitTimeAt agent)), W')
          /\ agentConfigurations W' = written
          /\ head (List.filter (fun a => String.eqb (AgentConfiguration.id a) agentId) written)
             = Some agent).
Proof.
  intros Hschema Hdata. cbv zeta.
  unfold mcpServer.update_wait_time. rewrite Hschema. unfold bind at 1. rewrite Hdata.
  unfold DatabaseStorage.updateAgentConfigurationById,
    DatabaseStorage.getAgentConfigurationById, DatabaseStorage.getRestaurant.
  unfold_monad. split_run.
  all: eexists.
  all: try (left; split; [eexists; reflexivity | reflexivity]).
  all: try (right; left; split; [eexists; reflexivity |]; split; [reflexivity|];
            intros Hnone; apply sql_update_none; intros a Ha;
            apply String.eqb_neq, Hnone, Ha).
  all: right; right.
  all: match goal with H : head _ = Some ?t |- _ => exists t end.
  all: eexists; split; [reflexivity|]; split; reflexivity.
Qed.

(** X19.  The tool update_wait_time, from its arguments to its response.
    After the awaited write every row with the agent's id has the given
    wait time, which is within 0..120; a reset timestamp that was given is
    strictly later than the time of the call, so the agent is not due at
    that time; an empty one clears the reset time; when none is given the
    reset time of the row is kept; the other rows are unchanged.  When the
    tool returns, that is the table, and the response reports the wait
    time, the default and the reset time of a row with the id.  When it
    throws, the table is unchanged or that write was made (a read that
    follows the write failed).  Arguments that are refused (wait time out
    of range, invalid or past timestamp) throw before anything is awaited.
    For an agent that does not exist the tool throws, and the table is
    unchanged. *)
Theorem update_wait_time_schedules_in_the_future
    (Date_getTime : string -> Js.number) (agentId : string) (waitTimeMinutes : Z)
    (resetWaitTimeAt : option string) (w : World) :
  let r := mcpServer.update_wait_time Date_getTime agentId waitTimeMinutes resetWaitTimeAt w in
  let written :=
    0 <= waitTimeMinutes <= 120
    /\ Forall2
         (fun a a' =>
            if String.eqb (AgentConfiguration.id a) agentId then
              AgentConfiguration.waitTimeMinutes a' = waitTimeMinutes
              /\ match resetWaitTimeAt with
                 | None =>
                     AgentConfiguration.resetWaitTimeAt a'
                     = AgentConfiguration.resetWaitTimeAt a
                 | Some s =>
                     waitTimeDue (clock w) a' = false
                     /\ if String.eqb s "" then AgentConfiguration.resetWaitTimeAt a' = None
                        else exists t,
                               Date_getTime s = Js.Num t /\ clock w < t
                               /\ AgentConfiguration.resetWaitTimeAt a' = Some t
                 end
            else a' = a)
         (agentConfigurations w) (agentConfigurations (snd r)) in
  match fst r with
  | Ok result =>
      written
      /\ WaitTimeResult.waitTimeMinutes result = waitTimeMinutes
      /\ exists a',
           In a' (agentConfigurations (snd r))
           /\ AgentConfiguration.id a' = agentId
           /\ WaitTimeResult.defaultWaitTimeMinutes result
              = AgentConfiguration.defaultWaitTimeMinutes a'
           /\ WaitTimeResult.resetWaitTimeAt result = AgentConfiguration.resetWaitTimeAt a'
  | Throw _ => agentConfigurations (snd r) = agentConfigurations w \/ written
  end
  (* arguments that are refused: nothing is awaited *)
  /\ (mcpServer.updateWaitTimeSchema waitTimeMinutes = false
      \/ (exists s, resetWaitTimeAt = Some s /\ s <> ""
                    /\ forall t, Date_getTime s = Js.Num t -> t <= clock w) ->
      exists e, r = (Throw e, w))
  (* an agent that does not exist *)
  /\ ((forall a, In a (agentConfigurations w) -> AgentConfiguration.id a <> agentId) ->
      exists e, fst r = Throw e /\ agentConfigurations (snd r) = agentConfigurations w).
Proof.
  cbv zeta.
  destruct (mcpServer.updateWaitTimeSchema waitTimeMinutes) eqn:Hschema.
  2:{ assert (Hrun : mcpServer.update_wait_time Date_getTime agentId waitTimeMinutes
                       resetWaitTimeAt w = (Throw (JsError "ZodError"), w)).
      { unfold mcpServer.update_wait_time. rewrite Hschema. reflexivity. }
      rewrite Hrun. cbn [fst snd]. split; [left; reflexivity|]. split; eauto. }
  pose proof Hschema as Hrange. unfold mcpServer.updateWaitTimeSchema in Hrange.
  apply andb_true_iff in Hrange as [H0 H120]. apply Z.leb_le in H0, H120.
  destruct (updateData_run Date_getTime waitTimeMinutes resetWaitTimeAt w)
    as [(e & Hdata & Hbad) | (config & Hdata & Hconfig)].
  { assert (Hrun : mcpServer.update_wait_time Date_getTime agentId waitTimeMinutes
                     resetWaitTimeAt w = (Throw e, w)).
    { unfold mcpServer.update_wait_time. rewrite Hschema. unfold bind at 1.
      rewrite Hdata. reflexivity. }
    rewrite Hrun. cbn [fst snd]. split; [left; reflexivity|]. split; eauto. }
  pose proof (update_wait_time_table Date_getTime agentId waitTimeMinutes resetWaitTimeAt
                (clock w) config (agentConfigurations w) Hconfig) as Htable.
  assert (Hnot : (exists s, resetWaitTimeAt = Some s /\ s <> ""
                            /\ forall t, Date_getTime s = Js.Num t -> t <= clock w) -> False).
  { intros (s & -> & Hs & Hlate). apply String.eqb_neq in Hs. rewrite Hs in Hconfig.
    destruct Hconfig as (t & Hdate & Ht & _). specialize (Hlate t Hdate). lia. }
  destruct (update_wait_time_run Date_getTime agentId waitTimeMinutes resetWaitTimeAt config w
              Hschema Hdata) as (W' & Hrun).
  cbv zeta in Hrun.
  destruct Hrun as [((e & ->) & HW) | [((e & ->) & HW & Hsame)
                   | (agent & restaurant & -> & HW & Hhd)]];
    cbn [fst snd]; rewrite HW.
  - split; [left; reflexivity|]. split.
    + intros [Hf | Hbad]; [discriminate | contradiction].
    + intros _. eexists. split; reflexivity.
  - split; [right; split; [lia | exact Htable]|]. split.
    + intros [Hf | Hbad]; [discriminate | contradiction].
    + intros Hnone. eexists. split; [reflexivity | exact (Hsame Hnone)].
  - apply head_filter_In in Hhd as (Hin & Hid). apply String.eqb_eq in Hid.
    unfold sql_update in Hin. apply in_map_iff in Hin as (a & Ha & Hain).
    destruct (String.eqb (AgentConfiguration.id a) agentId) eqn:E.
    2:{ exfalso. subst agent. apply String.eqb_neq in E. contradiction. }
    apply String.eqb_eq in E.
    assert (Hwait : AgentConfiguration.waitTimeMinutes agent = waitTimeMinutes).
    { assert (Hcw : AgentUpdates.waitTimeMinutes config = Some waitTimeMinutes).
      { destruct resetWaitTimeAt as [s|]; [destruct (String.eqb s "")|].
        - subst config. reflexivity.
        - destruct Hconfig as (t & _ & _ & ->). reflexivity.
        - subst config. reflexivity. }
      subst agent. unfold AgentUpdates.set. cbn [AgentConfiguration.waitTimeMinutes].
      rewrite Hcw. reflexivity. }
    split; [|split].
    + split; [split; [lia | exact Htable]|]. split; [exact Hwait|].
      exists agent. split; [|repeat split; exact Hid].
      apply in_map_iff. exists a. rewrite (proj2 (String.eqb_eq _ _) E).
      split; [exact Ha | exact Hain].
    + intros [Hf | Hbad]; [discriminate | contradiction].
    + intros Hnone. exfalso. exact (Hnone a Hain E).
Qed.

Lemma update_wait_time_schedules_in_the_future_witness :
  let w := Sample.world Sample.healthy Sample.user in
  (* an agent that exists *)
  fst (mcpServer.update_wait_time millis "a1" 60 (Some "2000") w)
    = Ok (WaitTimeResult.mk "Otto Diner" 60 30 (Some 2000))
  /\ Forall2
       (fun a a' =>
          if String.eqb (AgentConfiguration.id a) "a1" then
            AgentConfiguration.waitTimeMinutes a' = 60
            /\ waitTimeDue (clock w) a' = false
            /\ exists t,
                 millis "2000" = Js.Num t /\ clock w < t
                 /\ AgentConfiguration.resetWaitTimeAt a' = Some t
          else a' = a)
       (agentConfigurations w)
       (agentConfigurations
          (snd (mcpServer.update_wait_time millis "a1" 60 (Some "2000") w)))
  (* a reset time that is not in the future, an agent that does not exist *)
  /\ (exists e, mcpServer.update_wait_time millis "a1" 60 (Some "1000") w = (Throw e, w))
  /\ (exists e, fst (mcpServer.update_wait_time millis "a2" 60 None w) = Throw e).
Proof.
  intros w. split; [reflexivity|]. split; [|split].
  - exact (proj2 (proj1 (proj1 (update_wait_time_schedules_in_the_future
                                   millis "a1" 60 (Some "2000") w)))).
  - destruct (update_wait_time_schedules_in_the_future millis "a1" 60 (Some "1000") w)
      as (_ & Hrefused & _).
    apply Hrefused. right. exists "1000". repeat split; [discriminate|].
    intros t [= <-]. cbn. lia.
  - destruct (update_wait_time_schedules_in_the_future millis "a2" 60 None w)
      as (_ & _ & Hunknown).
    destruct Hunknown as (e & He & _); [|exists e; exact He].
    intros a [<-|[]]. discriminate.
Defined.

(** X20.  update_wait_time without a reset timestamp keeps a pending
    reset: the agent has the new wait time and its old reset time, and a
    sweep at or after that time puts the wait time back to the default and
    clears the reset time. *)
Theorem wait_time_without_reset_time_is_overwritten
    (Date_getTime : string -> Js.number) (agentId : string) (waitTimeMinutes : Z)
    (w : World) (a : AgentConfiguration.t) (t0 : Z) :
  List.NoDup (map AgentConfiguration.id (agentConfigurations w)) ->
  In a (agentConfigurations w) ->
  AgentConfiguration.id a = agentId ->
  AgentConfiguration.resetWaitTimeAt a = Some t0 ->
  0 <= waitTimeMinutes <= 120 ->
  executes w UpdateAgentConfigurations ->
  let w1 := snd (mcpServer.update_wait_time Date_getTime agentId waitTimeMinutes None w) in
  Forall (fun a' => AgentConfiguration.id a' = agentId ->
                    AgentConfiguration.waitTimeMinutes a' = waitTimeMinutes
                    /\ AgentConfiguration.resetWaitTimeAt a' = Some t0)
    (agentConfigurations w1)
  /\ forall w2,
       agentConfigurations w2 = agentConfigurations w1 ->
       t0 <= clock w2 ->
       executes w2 SelectAgentConfigurations ->
       reliable w2 UpdateAgentConfigurations ->
       Forall (fun a' => AgentConfiguration.id a' = agentId ->
                         AgentConfiguration.waitTimeMinutes a'
                         = AgentConfiguration.defaultWaitTimeMinutes a
                         /\ AgentConfiguration.resetWaitTimeAt a' = None)
         (agentConfigurations
            (snd (WaitTimeResetScheduler.checkAndResetWaitTimes noOthers w2))).
Proof.
  intros Hnd Hin Hid Hreset Hrange Hex. cbv zeta.
  set (config := AgentUpdates.mk (Some waitTimeMinutes) None).
  assert (Htable :
            agentConfigurations
              (snd (mcpServer.update_wait_time Date_getTime agentId waitTimeMinutes None w))
            = sql_update (fun r => String.eqb (AgentConfiguration.id r) agentId)
                (AgentUpdates.set config (clock w)) (agentConfigurations w)).
  { unfold mcpServer.update_wait_time, mcpServer.updateData, mcpServer.updateWaitTimeSchema,
      DatabaseStorage.updateAgentConfigurationById.
    replace ((0 <=? waitTimeMinutes) && (waitTimeMinutes <=? 120)) with true
      by (symmetry; apply andb_true_iff; split; apply Z.leb_le; lia).
    unfold DatabaseStorage.getAgentConfigurationById, DatabaseStorage.getRestaurant.
    unfold_monad. wsimpl. unfold executes in Hex. rewrite Hex. split_run; reflexivity. }
  rewrite Htable.
  assert (Hrows : forall r, In r (agentConfigurations w) ->
                            AgentConfiguration.id r = agentId -> r = a).
  { intros r Hr Hrid.
    apply (NoDup_map_injective AgentConfiguration.id (agentConfigurations w));
      [assumption..|congruence]. }
  assert (Hupdated :
            Forall (fun a' => AgentConfiguration.id a' = agentId ->
                              a' = AgentUpdates.set config (clock w) a)
              (sql_update (fun r => String.eqb (AgentConfiguration.id r) agentId)
                 (AgentUpdates.set config (clock w)) (agentConfigurations w))).
  { unfold sql_update. apply Forall_map. apply List.Forall_forall. intros r Hr.
    destruct (String.eqb (AgentConfiguration.id r) agentId) eqn:E.
    - intros _. apply String.eqb_eq in E. rewrite (Hrows r Hr E). reflexivity.
    - intros Hrid. apply String.eqb_neq in E. contradiction. }
  split.
  { eapply List.Forall_impl; [|exact Hupdated]. cbv beta. intros a' Ha' Hid'.
    rewrite (Ha' Hid'). split; [reflexivity | exact Hreset]. }
  intros w2 Hsame Hlate Hsel Hrel.
  destruct (checkAndResetWaitTimes_run w2) as (W' & -> & HW); [|exact Hsel|exact Hrel|].
  { rewrite Hsame.
    rewrite (sweep_ids AgentConfiguration.id
               (fun _ r => String.eqb (AgentConfiguration.id r) agentId)
               (fun _ => AgentUpdates.set config (clock w)) (fun _ _ => eq_refl) a);
      exact Hnd. }
  cbn [snd]. rewrite HW, Hsame. apply Forall_map.
  eapply List.Forall_impl; [|exact Hupdated]. cbv beta. intros a' Ha'.
  destruct (waitTimeDue (clock w2) a') eqn:Hdue.
  - intros Hid'. cbn [WaitTimeResetScheduler.set AgentConfiguration.id] in Hid'.
    rewrite (Ha' Hid'). split; reflexivity.
  - intros Hid'. rewrite (Ha' Hid') in Hdue. unfold waitTimeDue in Hdue.
    cbn [AgentUpdates.set AgentConfiguration.resetWaitTimeAt AgentUpdates.resetWaitTimeAt
         config] in Hdue.
    rewrite Hreset in Hdue. cbn [isNull negb andb] in Hdue.
    apply Z.leb_gt in Hdue. lia.
Qed.

Lemma wait_time_without_reset_time_is_overwritten_witness :
  let w := Sample.world Sample.healthy Sample.user in
  let w1 := snd (mcpServer.update_wait_time millis "a1" 60 None w) in
  Forall (fun a' => AgentConfiguration.id a' = "a1" ->
                    AgentConfiguration.waitTimeMinutes a' = 30
                    /\ AgentConfiguration.resetWaitTimeAt a' = None)
    (agentConfigurations (snd (WaitTimeResetScheduler.checkAndResetWaitTimes noOthers w1))).
Proof.
  refine (proj2 (wait_time_without_reset_time_is_overwritten millis "a1" 60
                   (Sample.world Sample.healthy Sample.user) Sample.agent 500 _ _ _ _ _ _)
            _ _ _ _ _).
  - repeat constructor; cbn; tauto.
  - left. reflexivity.
  - reflexivity.
  - reflexivity.
  - lia.
  - reflexivity.
  - reflexivity.
  - cbn. lia.
  - reflexivity.
  - intros n. reflexivity.
Defined.

(** ** Opening hours (check-restaurant-open) *)

Example parseTwelveHourIntervals_example :
  checkRestaurantOpen.parseTwelveHourIntervals "12pm till 3pm and 5pm till 8:15pm"
  = Some [(720, 900); (1020, 1215)].
Proof. reflexivity. Qed.

Example parseTwelveHourIntervals_over_midnight :
  checkRestaurantOpen.parseTwelveHourIntervals "10pm till 2am" = None.
Proof. reflexivity. Qed.

Example formatTimeWithOffset_samples :
  map (fun t => checkRestaurantOpen.formatTimeWithOffset t (-300))
    [0; 18000000; 61200000; -60000]
  = ["7:00 PM"; "12:00 AM"; "12:00 PM"; "6:59 PM"].
Proof. reflexivity. Qed.

Lemma double_rem (x n : Z) : 0 < n -> Z.rem (Z.rem x n + n) n = x mod n.
Proof.
  intros Hn.
  pose proof (Z.rem_bound_abs x n ltac:(lia)) as Hb.
  assert (Hx : x = n * (x ÷ n) + Z.rem x n) by (apply Z.quot_rem'; lia).
  rewrite Z.rem_mod_nonneg by lia.
  replace (Z.rem x n + n) with (x + (1 - x ÷ n) * n) by lia.
  apply Z.mod_add. lia.
Qed.

(** formatTimeWithOffset only depends on the minute of the local day. *)
Lemma formatTimeWithOffset_local (getTime offsetMinutes : Z) :
  checkRestaurantOpen.formatTimeWithOffset getTime offsetMinutes
  = checkRestaurantOpen.formatTimeWithOffset
      (60000 * ((getTime / 60000 + offsetMinutes) mod 1440)) 0.
Proof.
  unfold checkRestaurantOpen.formatTimeWithOffset. cbv zeta.
  change (24 * 60) with 1440.
  rewrite !double_rem by lia.
  replace (60000 * ((getTime / 60000 + offsetMinutes) mod 1440) / 60000 + 0)
    with ((getTime / 60000 + offsetMinutes) mod 1440)
    by (rewrite Z.mul_comm, Z.div_mul by lia; lia).
  rewrite Z.mod_mod by lia. reflexivity.
Qed.

Lemma below_bound (P : Z -> bool) (n : nat) :
  forallb (fun k => P (Z.of_nat k)) (seq 0 n) = true ->
  forall z, 0 <= z < Z.of_nat n -> P z = true.
Proof.
  intros Hall z Hz. rewrite forallb_forall in Hall.
  rewrite <- (Z2Nat.id z) by lia. apply Hall. apply in_seq. lia.
Qed.

(** X21.  Round trip of the two clock helpers: the time that
    formatTimeWithOffset prints is read back by the scanner of
    parseTwelveHourIntervals as exactly one time, the minute of the local
    day, [(floor (getTime / 60000) + offsetMinutes) mod 1440], also for
    negative time values and offsets. *)
Theorem formatTimeWithOffset_round_trip (getTime offsetMinutes : Z) :
  checkRestaurantOpen.timesInMinutes
    (list_ascii_of_string (checkRestaurantOpen.formatTimeWithOffset getTime offsetMinutes)) 0
  = [(getTime / 60000 + offsetMinutes) mod 1440].
Proof.
  rewrite formatTimeWithOffset_local.
  pose proof (Z.mod_pos_bound (getTime / 60000 + offsetMinutes) 1440 ltac:(lia)) as Hb.
  generalize dependent ((getTime / 60000 + offsetMinutes) mod 1440). intros z Hz.
  pose proof (below_bound
                (fun z => match checkRestaurantOpen.timesInMinutes
                                  (list_ascii_of_string
                                     (checkRestaurantOpen.formatTimeWithOffset (60000 * z) 0))
                                  0 with
                          | [t] => t =? z
                          | _ => false
                          end) 1440 ltac:(vm_compute; reflexivity) z Hz) as Hcheck.
  cbv beta in Hcheck.
  destruct (checkRestaurantOpen.timesInMinutes _ 0) as [|t [|t' l]]; try discriminate.
  apply Z.eqb_eq in Hcheck. rewrite Hcheck. reflexivity.
Qed.

Lemma digit_range (c : ascii) :
  checkRestaurantOpen.isDigit c = true -> 0 <= checkRestaurantOpen.digit c <= 9.
Proof.
  unfold checkRestaurantOpen.isDigit, checkRestaurantOpen.digit. cbv zeta. intros H.
  apply andb_true_iff in H as [H1 H2]. apply N.leb_le in H1, H2. lia.
Qed.

Lemma afterHour_nonneg (s : list ascii) (m : option Z) (pm : bool) (rest : list ascii) :
  checkRestaurantOpen.afterHour s = Some (m, pm, rest) -> 0 <= default 0 m.
Proof.
  unfold checkRestaurantOpen.afterHour. cbv zeta. intros H.
  repeat case_match; simplify_eq; cbn; try lia.
  match goal with H : _ && _ && _ = true |- _ =>
    apply andb_true_iff in H as [H Hd2]; apply andb_true_iff in H as [_ Hd1] end.
  apply digit_range in Hd1, Hd2. lia.
Qed.

Lemma matchAt_nonneg (s : list ascii) (h : Z) (m : option Z) (pm : bool)
    (rest : list ascii) :
  checkRestaurantOpen.matchAt s = Some (h, m, pm, rest) ->
  0 <= checkRestaurantOpen.minutesOf h m pm.
Proof.
  unfold checkRestaurantOpen.matchAt. cbv zeta. intros H.
  assert (0 <= h /\ 0 <= default 0 m) as [Hh Hm].
  { repeat case_match; simplify_eq;
      repeat match goal with
             | H : checkRestaurantOpen.isDigit _ = true |- _ => apply digit_range in H
             | H : checkRestaurantOpen.afterHour _ = Some _ |- _ =>
                 apply afterHour_nonneg in H
             end; split; lia. }
  unfold checkRestaurantOpen.minutesOf. cbv zeta. repeat case_match; lia.
Qed.

Lemma timesInMinutes_nonneg (s : list ascii) :
  forall skip, Forall (fun t => 0 <= t) (checkRestaurantOpen.timesInMinutes s skip).
Proof.
  induction s as [|c s IH]; intros skip; cbn [checkRestaurantOpen.timesInMinutes];
    [constructor|].
  destruct skip; [|apply IH].
  destruct (checkRestaurantOpen.matchAt (c :: s)) as [[[[h m] pm] after]|] eqn:Hm; [|apply IH].
  constructor; [apply (matchAt_nonneg _ _ _ _ _ Hm) | apply IH].
Qed.

Lemma intervalsOf_ordered (times : list Z) :
  Forall (fun t => 0 <= t) times ->
  Forall (fun i => 0 <= fst i < snd i) (checkRestaurantOpen.intervalsOf times).
Proof.
  assert (H : forall n times, (length times <= n)%nat ->
                Forall (fun t => 0 <= t) times ->
                Forall (fun i => 0 <= fst i < snd i)
                  (checkRestaurantOpen.intervalsOf times)).
  { induction n as [|n IH]; intros [|a [|b rest]] Hlen Hall;
      cbn [checkRestaurantOpen.intervalsOf]; try constructor.
    - cbn [length] in Hlen. lia.
    - apply List.Forall_cons_iff in Hall as [Ha Hall].
      apply List.Forall_cons_iff in Hall as [Hb Hall].
      assert (Hrest : Forall (fun i => 0 <= fst i < snd i)
                        (checkRestaurantOpen.intervalsOf rest))
        by (apply IH; [cbn [length] in Hlen; lia | exact Hall]).
      destruct (a <? b) eqn:E; [|exact Hrest].
      apply Z.ltb_lt in E. constructor; [cbn [fst snd]; lia | exact Hrest]. }
  apply (H (length times)). lia.
Qed.

(** X22.  parseTwelveHourIntervals returns null exactly when pairing the
    times found yields no interval, and otherwise a non-empty list of
    intervals with 0 <= start < end: a pair whose end is not after its
    start (opening hours over midnight) is dropped. *)
Theorem parseTwelveHourIntervals_ordered (input : string) :
  match checkRestaurantOpen.parseTwelveHourIntervals input with
  | Some intervals =>
      intervals <> []
      /\ intervals =
           checkRestaurantOpen.intervalsOf
             (checkRestaurantOpen.timesInMinutes (list_ascii_of_string input) 0)
      /\ Forall (fun i => 0 <= fst i < snd i) intervals
  | None =>
      checkRestaurantOpen.intervalsOf
        (checkRestaurantOpen.timesInMinutes (list_ascii_of_string input) 0) = []
  end.
Proof.
  unfold checkRestaurantOpen.parseTwelveHourIntervals. cbv zeta.
  pose proof (intervalsOf_ordered _ (timesInMinutes_nonneg (list_ascii_of_string input) 0))
    as Hord.
  destruct (checkRestaurantOpen.timesInMinutes (list_ascii_of_string input) 0)
    as [|a [|b rest]]; try reflexivity.
  change (length (a :: b :: rest) <? 2)%nat with false. cbv iota.
  destruct (checkRestaurantOpen.intervalsOf (a :: b :: rest)) as [|i l]; [reflexivity|].
  split; [discriminate|]. split; [reflexivity | exact Hord].
Qed.

Lemma parseTwelveHourIntervals_nonneg (input : string) (intervals : list (Z * Z)) :
  checkRestaurantOpen.parseTwelveHourIntervals input = Some intervals ->
  Forall (fun i => 0 <= fst i < snd i) intervals.
Proof.
  unfold checkRestaurantOpen.parseTwelveHourIntervals. cbv zeta. intros H.
  pose proof (intervalsOf_ordered _ (timesInMinutes_nonneg (list_ascii_of_string input) 0))
    as Hord.
  destruct (length _ <? 2)%nat; [discriminate|].
  destruct (checkRestaurantOpen.intervalsOf _); [discriminate|].
  injection H as <-. exact Hord.
Qed.

(** The loop answers with an interval that holds the pickup time, counted
    from the start of the UTC day of [now]. *)
Lemma matchingClosingTime_run (now wait offset : Z) (intervals : list (Z * Z)) :
  -59011459200000 <= now ->
  exists r,
    checkRestaurantOpen.matchingClosingTime now
      (checkRestaurantOpen.newDateOf (now + wait * 60000)) offset intervals = Some r
    /\ forall endTime,
         r = Some endTime ->
         exists s e,
           In (s, e) intervals
           /\ s * 60000 <= now mod 86400000 + (wait + offset) * 60000 <= e * 60000
           /\ endTime = Js.Num (now - now mod 86400000 + (e - offset) * 60000).
Proof.
  intros Hnow.
  assert (Hmid : checkRestaurantOpen.utcMidnight now = Some (now - now mod 86400000)).
  { unfold checkRestaurantOpen.utcMidnight.
    replace (-59011459200000 <=? now) with true by (symmetry; apply Z.leb_le; exact Hnow).
    f_equal. pose proof (Z.div_mod now 86400000 ltac:(lia)). lia. }
  induction intervals as [|[s e] rest IH].
  { exists None. split; [reflexivity | discriminate]. }
  cbn [checkRestaurantOpen.matchingClosingTime].
  unfold checkRestaurantOpen.createDateFromMinutes. rewrite Hmid. cbv zeta.
  destruct (checkRestaurantOpen.dateLe _ _ && checkRestaurantOpen.dateLe _ _) eqn:Hin.
  - eexists. split; [reflexivity|]. intros endTime Hend. injection Hend as <-.
    exists s, e. split; [left; reflexivity|].
    apply andb_true_iff in Hin as [H1 H2].
    unfold checkRestaurantOpen.newDateOf, checkRestaurantOpen.dateLe in *.
    repeat match goal with
           | H : context [if ?b then _ else _] |- _ => destruct b eqn:?; try discriminate
           end.
    apply Z.leb_le in H1, H2. split; [lia|].
    f_equal. lia.
  - destruct IH as (r & -> & Hr). exists r. split; [reflexivity|].
    intros endTime Hend. destruct (Hr endTime Hend) as (s' & e' & Hin' & Hb).
    exists s', e'. split; [right; exact Hin' | exact Hb].
Qed.

(** X23.  The loop over the opening hours counts the pickup time from
    the start of the UTC day of [now], shifted by the offset: it answers
    with a closing time only if some interval holds
    [now mod 86400000 + (wait + offset) * 60000] (in milliseconds), and then
    with the end of that interval.  So the kitchen is reported closed
    whenever that number is negative (the local day of the pickup is the
    day before the UTC day), and whenever it is a day or more and the
    opening hours end before midnight. *)
Theorem matchingClosingTime_counts_from_the_utc_day
    (opening_hours : string) (intervals : list (Z * Z)) (now wait offset : Z) :
  checkRestaurantOpen.parseTwelveHourIntervals opening_hours = Some intervals ->
  -59011459200000 <= now ->
  let pickupTime := checkRestaurantOpen.newDateOf (now + wait * 60000) in
  let sinceMidnight := now mod 86400000 + (wait + offset) * 60000 in
  exists r,
    checkRestaurantOpen.matchingClosingTime now pickupTime offset intervals = Some r
    /\ (forall endTime,
          r = Some endTime ->
          exists s e,
            In (s, e) intervals
            /\ s * 60000 <= sinceMidnight <= e * 60000
            /\ endTime = Js.Num (now - now mod 86400000 + (e - offset) * 60000))
    /\ (sinceMidnight < 0 -> r = None)
    /\ (Forall (fun i => snd i < 1440) intervals -> 86400000 <= sinceMidnight -> r = None).
Proof.
  intros Hparse Hnow. cbv zeta.
  destruct (matchingClosingTime_run now wait offset intervals Hnow) as (r & Hrun & Hr).
  exists r. split; [exact Hrun|]. split; [exact Hr|].
  pose proof (parseTwelveHourIntervals_nonneg _ _ Hparse) as Hord.
  rewrite List.Forall_forall in Hord.
  split.
  - intros Hneg. destruct r as [endTime|]; [|reflexivity].
    destruct (Hr endTime eq_refl) as (s & e & Hin & Hb & _).
    specialize (Hord _ Hin). cbn [fst snd] in Hord. lia.
  - intros Hday Hlate. destruct r as [endTime|]; [|reflexivity].
    destruct (Hr endTime eq_refl) as (s & e & Hin & Hb & _).
    rewrite List.Forall_forall in Hday. specialize (Hday _ Hin). cbn [snd] in Hday. lia.
Qed.

Lemma matchingClosingTime_counts_from_the_utc_day_witness :
  exists r,
    checkRestaurantOpen.matchingClosingTime 1714611600000
      (checkRestaurantOpen.newDateOf (1714611600000 + 10 * 60000)) (-300) [(1020, 1320)]
    = Some r
    /\ (3600000 + (10 + -300) * 60000 < 0 -> r = None).
Proof.
  destruct (matchingClosingTime_counts_from_the_utc_day "5pm till 10pm" [(1020, 1320)]
              1714611600000 10 (-300) eq_refl ltac:(lia))
    as (r & Hrun & _ & Hclosed & _).
  exists r. split; [exact Hrun | exact Hclosed].
Defined.
